(** * Brother P-Touch P700 driver: a verification model

    Shallow embedding of [brother_label_printer/printers/brother_pt700.py]:
    the lookup tables, the status decoder ([Errors], [Status]), the line
    encoder ([encode_line]) and the print job controller ([P700]).

    Conventions.
    - A Python [bytes] value is a [list byte]; indexing it yields the
      byte's unsigned value as an integer ([byte.unsigned]).
    - Python integers are [Z].
    - A Python [dict] used as a lookup table is a [gmap].
    - A raised exception is a value of [PyError]; fallible code returns
      [Result A]. *)

From Stdlib Require Import ZArith QArith Ascii String SpecFloat.
From stdpp Require Import gmap strings list fin_maps.
From coqutil Require Import Byte Word.LittleEndianList.
From Equations Require Import Equations.

Local Open Scope Z_scope.

(** ** Exceptions *)

Inductive PyError : Type :=
| IOError (msg : string)
| TimeoutError (msg : string)
| ValueError (msg : string)
| RuntimeError (msg : string)
| KeyError (key : Z)            (* [KeyError] of an integer key *)
| KeyErrorStr (key : string)    (* [KeyError] of a string key *)
| IndexError
| OverflowError
| TypeError
| StructError.

(** The failure names used by the specification, as the exceptions the
    driver raises for them. *)
Definition NoResponse : PyError := IOError "No Response from printer".
Definition InvalidResponse : PyError := IOError "Invalid Response from printer".
Definition PrinterNotReady : PyError := IOError "Printer is not ready".
Definition PageAdvanceTimeout : PyError :=
  TimeoutError "The printer did not reach receiving state for the next page".
Definition PrintCompletionTimeout : PyError :=
  TimeoutError "The printer did not reach printing complete state".
Definition UnknownTapeWidth (code : Z) : PyError := KeyError code.
Definition EncodingOverflow : PyError := StructError.

(** Outcome of a call that may raise. *)
Inductive Result (A : Type) : Type :=
| Ok (a : A)
| Err (e : PyError).
Arguments Ok {A} a.
Arguments Err {A} e.

Abbreviation bytes := (list byte).

(** ** Enumerations *)

(** [str.lower] on ASCII identifiers. *)
Definition lower_ascii (c : ascii) : ascii :=
  let n := nat_of_ascii c in
  if (Nat.leb 65 n && Nat.leb n 90)%bool then ascii_of_nat (n + 32) else c.

Fixpoint lower (s : string) : string :=
  match s with
  | EmptyString => EmptyString
  | String c s' => String (lower_ascii c) (lower s')
  end.

Inductive INFO_OFFSETS : Type :=
| PRINTHEAD_MARK | MODEL_CODE | ERROR_1 | ERROR_2 | MEDIA_WIDTH | MEDIA_TYPE_
| MODE | MEDIA_LENGTH | STATUS_TYPE_ | PHASE_TYPE | PHASE_NUMBER_HI
| PHASE_NUMBER_LO | NOTIFY_NO | HARDWARE_SETTINGS.

Definition INFO_OFFSETS_name (i : INFO_OFFSETS) : string :=
  match i with
  | PRINTHEAD_MARK => "PRINTHEAD_MARK"
  | MODEL_CODE => "MODEL_CODE"
  | ERROR_1 => "ERROR_1"
  | ERROR_2 => "ERROR_2"
  | MEDIA_WIDTH => "MEDIA_WIDTH"
  | MEDIA_TYPE_ => "MEDIA_TYPE"
  | MODE => "MODE"
  | MEDIA_LENGTH => "MEDIA_LENGTH"
  | STATUS_TYPE_ => "STATUS_TYPE"
  | PHASE_TYPE => "PHASE_TYPE"
  | PHASE_NUMBER_HI => "PHASE_NUMBER_HI"
  | PHASE_NUMBER_LO => "PHASE_NUMBER_LO"
  | NOTIFY_NO => "NOTIFY_NO"
  | HARDWARE_SETTINGS => "HARDWARE_SETTINGS"
  end.

Definition INFO_OFFSETS_value (i : INFO_OFFSETS) : nat :=
  match i with
  | PRINTHEAD_MARK => 0
  | MODEL_CODE => 4
  | ERROR_1 => 8
  | ERROR_2 => 9
  | MEDIA_WIDTH => 10
  | MEDIA_TYPE_ => 11
  | MODE => 15
  | MEDIA_LENGTH => 17
  | STATUS_TYPE_ => 18
  | PHASE_TYPE => 19
  | PHASE_NUMBER_HI => 20
  | PHASE_NUMBER_LO => 21
  | NOTIFY_NO => 22
  | HARDWARE_SETTINGS => 26
  end%nat.

(** Iteration order of [for i in INFO_OFFSETS]: definition order. *)
Definition INFO_OFFSETS_members : list INFO_OFFSETS :=
  [PRINTHEAD_MARK; MODEL_CODE; ERROR_1; ERROR_2; MEDIA_WIDTH; MEDIA_TYPE_;
   MODE; MEDIA_LENGTH; STATUS_TYPE_; PHASE_TYPE; PHASE_NUMBER_HI;
   PHASE_NUMBER_LO; NOTIFY_NO; HARDWARE_SETTINGS].

Inductive ERRORS : Type :=
| NO_MEDIA | CUTTER_JAM | WEAK_BATTERY | HV_ADAPTER | REPLACE_MEDIA
| COVER_OPEN | OVERHEATING | UNKNOWN.

Definition ERRORS_name (e : ERRORS) : string :=
  match e with
  | NO_MEDIA => "NO_MEDIA"
  | CUTTER_JAM => "CUTTER_JAM"
  | WEAK_BATTERY => "WEAK_BATTERY"
  | HV_ADAPTER => "HV_ADAPTER"
  | REPLACE_MEDIA => "REPLACE_MEDIA"
  | COVER_OPEN => "COVER_OPEN"
  | OVERHEATING => "OVERHEATING"
  | UNKNOWN => "UNKNOWN"
  end.

Definition ERRORS_value (e : ERRORS) : Z :=
  match e with
  | NO_MEDIA => 0
  | CUTTER_JAM => 2
  | WEAK_BATTERY => 3
  | HV_ADAPTER => 6
  | REPLACE_MEDIA => 8
  | COVER_OPEN => 12
  | OVERHEATING => 13
  | UNKNOWN => -1
  end.

Inductive MEDIA_TYPE : Type :=
| MT_NO_MEDIA | LAMINATED_TAPE | NON_LAMINATED_TAPE | HEAT_SHRINK | INCOMPATIBLE.

Inductive STATUS_TYPE : Type :=
| STATUS_REPLY | PRINTING_DONE | ERROR_OCCURRED | TURNED_OFF | NOTIFICATION
| PHASE_CHANGE.

(** ** Lookup tables *)

Definition STATUS_TYPE_MAP : gmap Z STATUS_TYPE :=
  list_to_map
    [(0x00, STATUS_REPLY); (0x01, PRINTING_DONE); (0x02, ERROR_OCCURRED);
     (0x04, TURNED_OFF); (0x05, NOTIFICATION); (0x06, PHASE_CHANGE)].

Definition MEDIA_TYPE_MAP : gmap Z MEDIA_TYPE :=
  list_to_map
    [(0x00, MT_NO_MEDIA); (0x01, LAMINATED_TAPE); (0x02, NON_LAMINATED_TAPE);
     (0x11, HEAT_SHRINK); (0xFF, INCOMPATIBLE)].

(** [TapeInfo = namedtuple("TapeInfo", ["lmargin", "printarea", "rmargin",
    "width"])].  Every field may hold [None]; the nominal widths are the
    floats 3.5, 6.0, ... which are exact as rationals. *)
Record TapeInfo : Type := mkTapeInfo {
  lmargin : option Z;
  printarea : option Z;
  rmargin : option Z;
  width : option Q
}.

Definition MEDIA_WIDTH_INFO : gmap Z TapeInfo :=
  list_to_map
    [(0, mkTapeInfo None None None None);
     (4, mkTapeInfo (Some 52) (Some 24) (Some 52) (Some (7 # 2)%Q));
     (6, mkTapeInfo (Some 48) (Some 32) (Some 48) (Some (6 # 1)%Q));
     (9, mkTapeInfo (Some 39) (Some 50) (Some 39) (Some (9 # 1)%Q));
     (12, mkTapeInfo (Some 29) (Some 70) (Some 29) (Some (12 # 1)%Q));
     (18, mkTapeInfo (Some 8) (Some 112) (Some 8) (Some (18 # 1)%Q));
     (24, mkTapeInfo (Some 0) (Some 128) (Some 0) (Some (24 # 1)%Q))].

(** [ERROR_MASK] is only ever iterated ([.items()]), in insertion order. *)
Definition ERROR_MASK : list (Z * ERRORS) :=
  [(0, NO_MEDIA); (2, CUTTER_JAM); (3, WEAK_BATTERY); (6, HV_ADAPTER);
   (8, REPLACE_MEDIA); (12, COVER_OPEN); (13, OVERHEATING)].

(** ** Status decoder *)

(** [Errors.__init__]: the flag dictionary built from the two error bytes. *)
Definition Errors_value (byte1 byte2 : Z) : Z :=
  Z.lor byte1 (Z.shiftl byte2 8).

(** Python's [bool(n)] on an integer. *)
Definition py_bool (n : Z) : bool := negb (n =? 0).

Record Errors : Type := mkErrors { errors_data : gmap string bool }.

Definition Errors_init (byte1 byte2 : Z) : Errors :=
  let value := Errors_value byte1 byte2 in
  mkErrors
    (list_to_map
       (map (fun '(offset, err) =>
               (lower (ERRORS_name err),
                py_bool (Z.land value (Z.shiftl 1 offset))))
            ERROR_MASK)).

(** [any(self.data.values())]. *)
Definition Errors_any (e : Errors) : bool :=
  existsb (fun kv => snd kv) (map_to_list (errors_data e)).

Record Status : Type := mkStatus {
  data : gmap string Z;
  errors : Errors;
  tape_info : TapeInfo
}.

(** [msg[i]] on a byte sequence. *)
Definition bytes_index (msg : bytes) (i : nat) : Result Z :=
  match msg !! i with
  | Some b => Ok (byte.unsigned b)
  | None => Err IndexError
  end.

(** The dictionary comprehension of [Status.__init__], entry by entry in
    the order of [INFO_OFFSETS]; the first index out of range raises. *)
Fixpoint Status_fields (msg : bytes) (members : list INFO_OFFSETS)
  : Result (list (string * Z)) :=
  match members with
  | [] => Ok []
  | i :: rest =>
      match bytes_index msg (INFO_OFFSETS_value i) with
      | Err e => Err e
      | Ok v =>
          match Status_fields msg rest with
          | Err e => Err e
          | Ok kvs => Ok ((lower (INFO_OFFSETS_name i), v) :: kvs)
          end
      end
  end.

(** [Status.__getattr__]: [self.data[attr]]. *)
Definition data_getattr (d : gmap string Z) (attr : string) : Result Z :=
  match d !! attr with
  | Some v => Ok v
  | None => Err (KeyErrorStr attr)
  end.

Definition Status_init (msg : bytes) : Result Status :=
  match Status_fields msg INFO_OFFSETS_members with
  | Err e => Err e
  | Ok kvs =>
      let d : gmap string Z := list_to_map kvs in
      match data_getattr d "error_1", data_getattr d "error_2",
            data_getattr d "media_width" with
      | Ok e1, Ok e2, Ok mw =>
          match MEDIA_WIDTH_INFO !! mw with
          | Some ti => Ok (mkStatus d (Errors_init e1 e2) ti)
          | None => Err (UnknownTapeWidth mw)
          end
      | Err e, _, _ => Err e
      | _, Err e, _ => Err e
      | _, _, Err e => Err e
      end
  end.

Definition ready (s : Status) : bool := negb (Errors_any (errors s)).

(** ** Sequencing of fallible calls *)

#[global] Instance Result_ret : MRet Result := fun _ a => Ok a.
#[global] Instance Result_bind : MBind Result :=
  fun _ _ f m => match m with Ok a => f a | Err e => Err e end.

(** [len(b)] *)
Definition len {A : Type} (l : list A) : Z := Z.of_nat (length l).

(** ** Integer/bytes conversions of the Python runtime *)

(** [int.from_bytes(b, byteorder='big')] *)
Definition int_from_bytes_big (b : bytes) : Z := le_combine (rev b).

(** [n.to_bytes(length, byteorder='big')]: unsigned; [OverflowError] when
    [n] is negative or needs more than [length] bytes. *)
Definition int_to_bytes_big (length : nat) (n : Z) : Result bytes :=
  if (n <? 0) || (2 ^ (8 * Z.of_nat length) <=? n) then Err OverflowError
  else Ok (rev (le_split length n)).

(** [n.to_bytes(length, 'little')] *)
Definition int_to_bytes_little (length : nat) (n : Z) : Result bytes :=
  if (n <? 0) || (2 ^ (8 * Z.of_nat length) <=? n) then Err OverflowError
  else Ok (le_split length n).

(** [struct.pack("<H", n)]: [struct.error] unless [0 <= n <= 65535]. *)
Definition struct_pack_H_le (n : Z) : Result bytes :=
  if (0 <=? n) && (n <=? 65535) then Ok (le_split 2 n) else Err StructError.

(** [a << k] on Python integers: [ValueError] on a negative count. *)
Definition py_lshift (a k : Z) : Result Z :=
  if k <? 0 then Err (ValueError "negative shift count") else Ok (Z.shiftl a k).

(** ** The [packbits] codec

    [packbits] is a third-party package the driver imports; it is not part
    of the repository.  [encode] follows the package's state machine
    (states RAW and RLE, a literal buffer [buf], a [repeat_count], runs and
    literals of at most 128 bytes); [decode] is its inverse from the same
    package. *)
Module PackBits.

Inductive mode : Type := RAW | RLE.

Definition MAX_LENGTH : Z := 127.

(** [bytearray.append(n)] *)
Definition bytearray_append (result : bytes) (n : Z) : Result bytes :=
  if (0 <=? n) && (n <? 256) then Ok (result ++ [byte.of_Z n])
  else Err (ValueError "byte must be in range(0, 256)").

(** [finish_raw()]: flushes [buf] as one literal packet; the caller
    continues with an empty [buf]. *)
Definition finish_raw (result buf : bytes) : Result bytes :=
  if len buf =? 0 then Ok result
  else r ← bytearray_append result (len buf - 1); Ok (r ++ buf).

(** [finish_rle()]: one run packet for [repeat_count] copies of
    [data[pos]]. *)
Definition finish_rle (result : bytes) (repeat_count : Z) (b : byte)
  : Result bytes :=
  r ← bytearray_append result (256 - (repeat_count - 1)); Ok (r ++ [b]).

(** The [while pos < len(data) - 1] loop and the flush after it; [data]
    is the input from [pos] on. *)
Fixpoint encode_loop (state : mode) (buf : bytes) (repeat_count : Z)
    (result : bytes) (data : bytes) {struct data} : Result bytes :=
  match data with
  | [] => Ok result
  | current_byte :: rest =>
      match rest with
      | [] =>
          match state with
          | RAW => finish_raw result (buf ++ [current_byte])
          | RLE => finish_rle result (repeat_count + 1) current_byte
          end
      | next :: _ =>
          if Byte.eqb current_byte next then
            match state with
            | RAW =>
                r ← finish_raw result buf; encode_loop RLE [] 1 r rest
            | RLE =>
                if repeat_count =? MAX_LENGTH then
                  r ← finish_rle result repeat_count current_byte;
                  encode_loop RLE buf (0 + 1) r rest
                else encode_loop RLE buf (repeat_count + 1) result rest
            end
          else
            match state with
            | RLE =>
                r ← finish_rle result (repeat_count + 1) current_byte;
                encode_loop RAW buf 0 r rest
            | RAW =>
                if len buf =? MAX_LENGTH then
                  r ← finish_raw result buf;
                  encode_loop RAW [current_byte] repeat_count r rest
                else
                  encode_loop RAW (buf ++ [current_byte]) repeat_count
                    result rest
            end
      end
  end.

Definition encode (data : bytes) : Result bytes :=
  match data with
  | [] => Ok data
  | [_] => Ok (byte.of_Z 0 :: data)
  | _ => encode_loop RAW [] 0 [] data
  end.

(** The header byte read as a signed 8-bit number. *)
Definition header (h : byte) : Z :=
  let header_byte := byte.unsigned h in
  if 127 <? header_byte then header_byte - 256 else header_byte.

Inductive packet : Type :=
| Literal (count : nat)
| Nop
| Repeat (count : nat).

Definition classify (h : byte) : packet :=
  let header_byte := header h in
  if (0 <=? header_byte) && (header_byte <=? 127)
  then Literal (Z.to_nat (header_byte + 1))
  else if header_byte =? -128 then Nop
  else Repeat (Z.to_nat (1 - header_byte)).

Equations? decode (data : bytes) : Result bytes by wf (length data) lt :=
  decode [] := Ok [];
  decode (h :: rest) with classify h => {
    | Literal n := r ← decode (drop n rest); Ok (take n rest ++ r);
    | Nop := decode rest;
    | Repeat n with rest => {
        | [] := Err IndexError;
        | b :: rest' := r ← decode rest'; Ok (replicate n b ++ r) } }.
Proof.
  all: simpl; try lia.
  rewrite length_drop. lia.
Qed.

End PackBits.

(** ** Line encoder *)

Definition encode_line (bitmap_line : bytes) (tape_info : TapeInfo)
  : Result bytes :=
  let line_int := int_from_bytes_big bitmap_line in
  match rmargin tape_info with
  | None => Err TypeError
  | Some margin =>
      line_int ← py_lshift line_int margin;
      padded ← int_to_bytes_big 16 line_int;
      compressed ← PackBits.encode padded;
      prefix ← struct_pack_H_le (len compressed);
      Ok (prefix ++ compressed)
  end.

(** ** Job controller: state and effects

    The controller runs in a foreground thread; [_print_status_check] runs
    in a background thread.  The embedding is sequential: the foreground
    is a state-passing computation, and the background thread advances at
    the points where the foreground can observe it, by a number of loop
    iterations taken from a schedule that is part of the state (any
    interleaving corresponds to some schedule).  Time is a clock in
    whole milliseconds: [time.sleep(0.1)] advances it by 100 ms plus a
    delay taken from the state, and [time.time()] reads it as a binary64
    number of seconds. *)

Inductive Thread : Type :=
| NotStarted   (* no thread object started *)
| Alive        (* started, loop running *)
| Exited       (* the target function returned or raised *)
| Joined.      (* [join()] has returned *)

Record P700 : Type := mkP700 {
  (* self.io: the transport *)
  io_written : list bytes;          (* arguments of the [write] calls so far *)
  io_incoming : list bytes;         (* data available to successive [read] calls *)
  io_writes_left : option nat;      (* [Some n]: the transport fails after [n] more writes *)
  (* attributes of the printer object *)
  status : Status;
  _check_print_status : bool;
  status_thread : Thread;
  (* environment *)
  clock : Z;
  poll_schedule : list nat;
  sleep_delay : list nat
}.

Definition set_io_written (w : list bytes) (p : P700) : P700 :=
  mkP700 w (io_incoming p) (io_writes_left p) (status p)
    (_check_print_status p) (status_thread p) (clock p) (poll_schedule p)
    (sleep_delay p).
Definition set_io_incoming (i : list bytes) (p : P700) : P700 :=
  mkP700 (io_written p) i (io_writes_left p) (status p)
    (_check_print_status p) (status_thread p) (clock p) (poll_schedule p)
    (sleep_delay p).
Definition set_io_writes_left (n : option nat) (p : P700) : P700 :=
  mkP700 (io_written p) (io_incoming p) n (status p)
    (_check_print_status p) (status_thread p) (clock p) (poll_schedule p)
    (sleep_delay p).
Definition set_status (s : Status) (p : P700) : P700 :=
  mkP700 (io_written p) (io_incoming p) (io_writes_left p) s
    (_check_print_status p) (status_thread p) (clock p) (poll_schedule p)
    (sleep_delay p).
Definition set_check_print_status (b : bool) (p : P700) : P700 :=
  mkP700 (io_written p) (io_incoming p) (io_writes_left p) (status p)
    b (status_thread p) (clock p) (poll_schedule p) (sleep_delay p).
Definition set_status_thread (t : Thread) (p : P700) : P700 :=
  mkP700 (io_written p) (io_incoming p) (io_writes_left p) (status p)
    (_check_print_status p) t (clock p) (poll_schedule p) (sleep_delay p).
Definition set_clock (t : Z) (p : P700) : P700 :=
  mkP700 (io_written p) (io_incoming p) (io_writes_left p) (status p)
    (_check_print_status p) (status_thread p) t (poll_schedule p)
    (sleep_delay p).
Definition set_poll_schedule (l : list nat) (p : P700) : P700 :=
  mkP700 (io_written p) (io_incoming p) (io_writes_left p) (status p)
    (_check_print_status p) (status_thread p) (clock p) l (sleep_delay p).
Definition set_sleep_delay (l : list nat) (p : P700) : P700 :=
  mkP700 (io_written p) (io_incoming p) (io_writes_left p) (status p)
    (_check_print_status p) (status_thread p) (clock p) (poll_schedule p) l.

(** How a call of a method ends. *)
Inductive Outcome (A : Type) : Type :=
| Returns (a : A)
| Raises (e : PyError)
| Blocks.      (* the call never returns *)
Arguments Returns {A} a.
Arguments Raises {A} e.
Arguments Blocks {A}.

Definition M (A : Type) : Type := P700 -> Outcome A * P700.

#[global] Instance M_ret : MRet M := fun _ a p => (Returns a, p).
#[global] Instance M_bind : MBind M :=
  fun _ _ f m p =>
    match m p with
    | (Returns a, p') => f a p'
    | (Raises e, p') => (Raises e, p')
    | (Blocks, p') => (Blocks, p')
    end.

Definition raise {A : Type} (e : PyError) : M A := fun p => (Raises e, p).
Definition block {A : Type} : M A := fun p => (Blocks, p).
Definition gets {A : Type} (f : P700 -> A) : M A := fun p => (Returns (f p), p).
Definition modify (f : P700 -> P700) : M unit := fun p => (Returns tt, f p).

(** A pure call that may raise, made from a method. *)
Definition lift {A : Type} (r : Result A) : M A :=
  match r with Ok a => mret a | Err e => raise e end.

(** [try: body finally: cleanup]. *)
Definition try_finally {A : Type} (body : M A) (cleanup : M unit) : M A :=
  fun p =>
    match body p with
    | (Returns a, p1) =>
        match cleanup p1 with
        | (Returns _, p2) => (Returns a, p2)
        | (Raises e, p2) => (Raises e, p2)
        | (Blocks, p2) => (Blocks, p2)
        end
    | (Raises e, p1) =>
        match cleanup p1 with
        | (Returns _, p2) => (Raises e, p2)
        | (Raises e', p2) => (Raises e', p2)
        | (Blocks, p2) => (Blocks, p2)
        end
    | (Blocks, p1) => (Blocks, p1)
    end.

(** [self.io.write(data)] *)
Definition io_write (data : bytes) : M unit :=
  fun p =>
    match io_writes_left p with
    | Some O => (Raises (IOError "write failed"), p)
    | Some (S n) =>
        (Returns tt,
         set_io_writes_left (Some n) (set_io_written (io_written p ++ [data]) p))
    | None => (Returns tt, set_io_written (io_written p ++ [data]) p)
    end.

(** [self.io.read(n)]: at most [n] bytes of what is available; nothing
    available reads as [b""]. *)
Definition io_read (n : nat) : M bytes :=
  fun p =>
    match io_incoming p with
    | [] => (Returns [], p)
    | chunk :: rest => (Returns (take n chunk), set_io_incoming rest p)
    end.

(** ** The background status poller *)

(** One iteration of the loop body of [_print_status_check] (its own
    [time.sleep(0.1)] has no effect on the state).  [Status(data)] raising
    ends the thread. *)
Definition poller_iteration (p : P700) : P700 :=
  match io_read 32 p with
  | (Returns data, p') =>
      if len data =? 32 then
        match Status_init data with
        | Ok s => set_status s p'
        | Err _ => set_status_thread Exited p'
        end
      else p'
  | (_, p') => p'
  end.

(** [_print_status_check]: at most [n] turns of
    [while self._check_print_status: ...] of a running thread. *)
Fixpoint _print_status_check (n : nat) (p : P700) : P700 :=
  match n with
  | O => p
  | S n' =>
      match status_thread p with
      | Alive =>
          if _check_print_status p
          then _print_status_check n' (poller_iteration p)
          else set_status_thread Exited p
      | _ => p
      end
  end.

(** The background thread runs for as long as the schedule says. *)
Definition yield : M unit :=
  fun p =>
    match poll_schedule p with
    | [] => (Returns tt, p)
    | n :: rest => (Returns tt, _print_status_check n (set_poll_schedule rest p))
    end.

(** The foreground reads [self.status]. *)
Definition read_status : M Status := _ ← yield; gets status.

(** [threading.Thread(target=self._print_status_check).start()] *)
Definition thread_start : M unit := modify (set_status_thread Alive).

(** [status_thread.join()]: returns once the thread has ended.  With the
    flag still set the loop only ends by an exception, which can happen
    while input is left; after that every read is empty and the loop
    spins for ever. *)
Definition thread_join : M unit :=
  fun p =>
    match status_thread p with
    | NotStarted =>
        (Raises (RuntimeError "cannot join thread before it is started"), p)
    | _ =>
        let p' := _print_status_check (S (length (io_incoming p))) p in
        match status_thread p' with
        | Alive => (Blocks, p')
        | _ => (Returns tt, set_status_thread Joined p')
        end
    end.

(** ** Time

    [time.time()] returns a binary64 number of seconds: the reading of a
    clock that stands at [ms] milliseconds is [ms / 1000], rounded.
    [end = time.time() + 20] is a binary64 sum, rounded once more, and
    [time.time() > end] compares two binary64 numbers. *)
Definition float_of_ms (ms : Z) : spec_float :=
  SFdiv 53 1024 (binary_normalize 53 1024 ms 0 false)
    (binary_normalize 53 1024 1000 0 false).

Definition float_20 : spec_float := binary_normalize 53 1024 20 0 false.

(** [time.time() > end] at clock [now], for [end = time.time() + 20] taken
    at clock [start], as binary64 computes it. *)
Definition float_past_deadline (start now : Z) : bool :=
  SFltb (SFadd 53 1024 (float_of_ms start) float_20) (float_of_ms now).

(** The same test on the clock.  The roundings move a reading and the
    deadline by a part in 2^53, which for the clocks of this millennium is
    far less than a millisecond: they decide the comparison only at a
    reading that falls on the deadline to the millisecond, where binary64
    is computed.  (There [end] can lie just below the reading although 20 s
    have passed exactly and no more: started at 0.577 s, the sum
    [0.577 + 20] rounds to 20.576999999999998, less than the reading
    20.577.) *)
Definition past_deadline (start now : Z) : bool :=
  if now >? start + 20000 then true
  else if now <? start + 20000 then false
  else float_past_deadline start now.

(** [time.time()]: the clock, whose reading is [float_of_ms] of it. *)
Definition time_time : M Z := gets clock.

(** [time.sleep(0.1)] *)
Definition time_sleep (ms : Z) : M unit :=
  fun p =>
    match sleep_delay p with
    | [] => (Returns tt, set_clock (clock p + ms) p)
    | d :: rest =>
        (Returns tt, set_sleep_delay rest (set_clock (clock p + ms + Z.of_nat d) p))
    end.

(** ** Printer commands *)

Definition bytes_of (l : list Z) : bytes := map byte.of_Z l.

(** [build_byte(bits)]: the eight flags [bits.get(i, 0)], most significant
    first, read as a binary numeral. *)
Definition build_byte (bits : gmap nat bool) : bytes :=
  let digits :=
    map (fun i : nat => Z.b2z (default false (bits !! i))) (rev (seq 0 8)) in
  [byte.of_Z (fold_left (fun acc d => 2 * acc + d) digits 0)].

Definition connect : M unit :=
  _ ← io_write (replicate 100 (byte.of_Z 0));
  io_write (bytes_of [0x1b; 0x40]).

Definition get_status : M Status :=
  _ ← io_write (bytes_of [0x1B; 0x69; 0x53]);
  data ← io_read 32;
  if len data =? 0 then raise NoResponse
  else if len data <? 32 then raise InvalidResponse
  else lift (Status_init data).

(** [_debug_status]: reads a frame and decodes it for the log, when
    anything was read; the log itself is not modelled. *)
Definition _debug_status : M unit :=
  data ← io_read 32;
  if len data =? 0 then mret tt
  else _ ← lift (Status_init data); mret tt.

(** [get_label_width] *)
Definition get_label_width : M (option Q) :=
  s ← get_status; mret (width (tape_info s)).

Definition last_page_end : M unit := io_write (bytes_of [0x1A]).
Definition next_page : M unit := io_write (bytes_of [0x0C]).
Definition print_empty_row : M unit := io_write (bytes_of [0x5A]).

Definition set_compression_mode (tiff : bool) : M unit :=
  io_write (bytes_of [0x4D] ++ build_byte {[ 1%nat := tiff ]}).

Definition set_margin (margin : Z) : M unit :=
  m ← lift (int_to_bytes_little 2 margin);
  io_write (bytes_of [0x1B; 0x69; 0x64] ++ m).

Definition set_advanced_mode
    (no_chain_printing special_tape no_buffer_clearing : bool) : M unit :=
  io_write
    (bytes_of [0x1B; 0x69; 0x4B] ++
     build_byte (<[ 3%nat := no_chain_printing ]>
                  (<[ 4%nat := special_tape ]>
                    {[ 7%nat := no_buffer_clearing ]}))).

Definition set_various_mode (cut mirror : bool) : M unit :=
  io_write
    (bytes_of [0x1B; 0x69; 0x4D] ++
     build_byte (<[ 6%nat := cut ]> {[ 7%nat := mirror ]})).

Definition set_raster_mode : M unit :=
  io_write (bytes_of [0x1B; 0x69; 0x61; 0x01]).

(** ** Slicing the image into scanlines *)

(** [batch_iter_bytes(b, size)]: successive chunks of [size] bytes until
    an empty chunk comes up.  The recursion is bounded by the input
    length, which the chunks of a non-zero size exhaust. *)
Fixpoint batch (fuel : nat) (b : bytes) (size : nat) : list bytes :=
  match fuel with
  | O => []
  | S fuel' =>
      match take size b with
      | [] => []
      | chunk => chunk :: batch fuel' (drop size b) size
      end
  end.

Definition batch_iter_bytes (b : bytes) (size : nat) : list bytes :=
  batch (length b) b size.

Definition create_copies (b : bytes) (size copies : nat) : list (list bytes) :=
  replicate copies (batch_iter_bytes b size).

(** ** Printing *)

(** What one status shows: the receiving state (status type 6, phase
    type 0) and the end of printing (status type 1). *)
Definition receiving_state (s : Status) : bool :=
  bool_decide (data s !! "status_type" = Some 6) &&
  bool_decide (data s !! "phase_type" = Some 0).

Definition printing_done (s : Status) : bool :=
  bool_decide (data s !! "status_type" = Some 1).

(** [self.status.data.get('status_type') == 6 and
     self.status.data.get('phase_type') == 0]: [self.status] is loaded
    once for the left operand and, when that holds, once more for the
    right operand; the poller can replace it in between. *)
Definition receiving_test : M bool :=
  s ← read_status;
  if bool_decide (data s !! "status_type" = Some 6) then
    s' ← read_status;
    mret (bool_decide (data s' !! "phase_type" = Some 0))
  else mret false.

(** [self.status.data.get('status_type') == 1] *)
Definition printing_test : M bool :=
  s ← read_status;
  mret (bool_decide (data s !! "status_type" = Some 1)).

(** The two waiting loops of [_raw_print]:
    [while True: if test: break; time.sleep(0.1); if time.time() > end: raise],
    entered with [end = time.time() + 20] taken at clock [start].  The
    poller runs before every load of [self.status] and during the sleep.
    [fuel] bounds the number of turns; running out of it is not
    returning. *)
Fixpoint wait_until (fuel : nat) (test : M bool) (timeout : PyError)
    (start : Z) : M unit :=
  match fuel with
  | O => block
  | S fuel' =>
      test ≫= λ ok : bool,
      if ok then mret tt
      else
        _ ← time_sleep 100;
        _ ← yield;
        now ← time_time;
        if past_deadline start now then raise timeout
        else wait_until fuel' test timeout start
  end.

(** 20 s at 100 ms a turn: the deadline test fails a turn at the latest
    after 201 sleeps. *)
Definition WAIT_TURNS : nat := 201.

(** [for line in documents[i]: self.io.write(b'G' + encode_line(...))] *)
Fixpoint write_lines (status : Status) (document : list bytes) : M unit :=
  match document with
  | [] => mret tt
  | line :: rest =>
      enc ← lift (encode_line line (tape_info status));
      _ ← io_write (bytes_of [0x47] ++ enc);
      write_lines status rest
  end.

(** The body of [if i+1 < len(documents)]: the next-page marker, then the
    wait for the receiving state. *)
Definition advance_page : M unit :=
  _ ← next_page;
  start ← time_time;
  wait_until WAIT_TURNS receiving_test PageAdvanceTimeout start.

(** The loop [for i in range(len(documents))]; [documents] holds the pages
    from index [i] on, so [i + 1 < len(documents)] says that the tail is
    not empty. *)
Fixpoint print_pages (status : Status) (documents : list (list bytes))
  : M unit :=
  match documents with
  | [] => mret tt
  | document :: rest =>
      _ ← write_lines status document;
      _ ← print_empty_row;
      _ ← match rest with
          | [] => mret tt
          | _ :: _ => advance_page
          end;
      print_pages status rest
  end.

(** The end of [_raw_print]'s [try] block: the end-of-job marker, then the
    wait for the end of printing. *)
Definition finish_job : M unit :=
  _ ← last_page_end;
  start ← time_time;
  wait_until WAIT_TURNS printing_test PrintCompletionTimeout start.

Definition _raw_print (status : Status) (documents : list (list bytes))
  : M unit :=
  _ ← connect;
  _ ← modify (set_check_print_status true);
  _ ← thread_start;
  try_finally
    (_ ← set_raster_mode;
     _ ← set_various_mode true false;
     _ ← set_advanced_mode true false false;
     _ ← set_margin 14;
     _ ← set_compression_mode true;
     _ ← print_pages status documents;
     finish_job)
    (_ ← yield;
     _ ← modify (set_check_print_status false);
     thread_join).

(** What [label.render(height=...)] and the PIL calls after it yield: the
    image mode, the width [img.size[0]] and the packed rows
    [img.tobytes()] of the rotated, flipped and inverted image. *)
Record Image : Type := mkImage {
  mode_is_1 : bool;
  size_0 : Z;
  tobytes : bytes
}.

Record Label : Type := mkLabel {
  render : option Z -> Result Image
}.

(** [ceil(n / 8)] for a width [n >= 0]. *)
Definition ceil_div8 (n : Z) : nat := Z.to_nat ((n + 7) / 8).

Definition print_label (label : Label) (copies : nat) : M Status :=
  s ← get_status;
  _ ← modify (set_status s);
  if negb (ready s) then raise PrinterNotReady
  else
    img ← lift (render label (printarea (tape_info s)));
    if negb (mode_is_1 img)
    then raise (ValueError "render output has invalid mode '1'")
    else
      let img_bytes := tobytes img in
      _ ← _raw_print s (create_copies img_bytes (ceil_div8 (size_0 img)) copies);
      get_status.

(** ** Dry run

    [_dummy_print] prints to standard output what [_raw_print] would send
    for one page.  Its [document] is any iterable: a sequence (list, tuple)
    can be iterated again, an iterator, such as [batch_iter_bytes] returns,
    yields each row once and is empty afterwards. *)
Inductive Iterable : Type :=
| Sequence (rows : list bytes)
| Iterator (rows : list bytes).

(** [for line in document]: the rows the loop sees, and the iterable as
    the loop leaves it when it runs to the end. *)
Definition iterate (document : Iterable) : list bytes * Iterable :=
  match document with
  | Sequence rows => (rows, Sequence rows)
  | Iterator rows => (rows, Iterator [])
  end.

(** What [print] was given: a bytes object or a string. *)
Inductive Printed : Type :=
| PrintedBytes (b : bytes)
| PrintedStr (s : string).

(** [for line in ...: print(b'G' + encode_line(line, status.tape_info))],
    appending to the output so far; an exception ends the loop. *)
Fixpoint print_rows (tape_info : TapeInfo) (rows : list bytes)
    (out : list Printed) : Result unit * list Printed :=
  match rows with
  | [] => (Ok tt, out)
  | line :: rest =>
      match encode_line line tape_info with
      | Ok enc =>
          print_rows tape_info rest
            (out ++ [PrintedBytes (bytes_of [0x47] ++ enc)])
      | Err e => (Err e, out)
      end
  end.

Definition _dummy_print (status : Status) (document : Iterable)
    (out : list Printed) : Result unit * list Printed :=
  let '(rows, document) := iterate document in
  match print_rows (tape_info status) rows out with
  | (Ok _, out) =>
      let out := out ++ [PrintedStr "------"] in
      let '(rows, _) := iterate document in
      print_rows (tape_info status) rows out
  | (Err e, out) => (Err e, out)
  end.

(** [P700.__init__] on a fresh transport. *)
Definition P700_init (incoming : list bytes) (writes_left : option nat)
    (clock0 : Z) (schedule delays : list nat) : Outcome Status * P700 :=
  let blank := mkStatus ∅ (mkErrors ∅) (mkTapeInfo None None None None) in
  let p := mkP700 [] incoming writes_left blank false NotStarted clock0
             schedule delays in
  match get_status p with
  | (Returns s, p') => (Returns s, set_check_print_status false (set_status s p'))
  | r => r
  end.

(** ** Vocabulary of the statements *)

(** The unsigned value of the byte at offset [i] of a frame. *)
Definition frame_byte (msg : bytes) (i : nat) : Z :=
  byte.unsigned (nth i msg Byte.x00).

(** The field dictionary of a frame: every member of [INFO_OFFSETS], under
    its lower-case name, holds the one byte at its offset. *)
Definition frame_data (msg : bytes) : gmap string Z :=
  list_to_map
    (map (fun i => (lower (INFO_OFFSETS_name i),
                    frame_byte msg (INFO_OFFSETS_value i)))
         INFO_OFFSETS_members).

(** The bit positions [ERROR_MASK] names. *)
Definition error_bits : list Z := [0; 2; 3; 6; 8; 12; 13].

(** The offsets [INFO_OFFSETS] names. *)
Definition status_offsets : list nat :=
  [0; 4; 8; 9; 10; 11; 15; 17; 18; 19; 20; 21; 22; 26]%nat.

(** The media-width codes [MEDIA_WIDTH_INFO] has an entry for. *)
Definition media_width_codes : list Z := [0; 4; 6; 9; 12; 18; 24].

(** ** Sample inputs *)

(** A 32-byte frame: tape code [w], error bytes [e1] and [e2], status type
    [st] and phase type [ph]. *)
Definition example_frame (w e1 e2 st ph : Z) : bytes :=
  bytes_of [0x80; 0x20; 0x42; 0x30; 0x67; 0x30; 0; 0; e1; e2; w; 1;
            0; 0; 0; 0; 0; 0; st; ph; 0; 0; 0; 0; 0; 0; 0; 0; 0; 0; 0; 0].

Definition blank_status : Status :=
  mkStatus ∅ (mkErrors ∅) (mkTapeInfo None None None None).

(** The status a frame decodes to ([blank_status] if it does not). *)
Definition decoded (msg : bytes) : Status :=
  match Status_init msg with
  | Ok s => s
  | Err _ => blank_status
  end.

(** A printer object as [__init__] leaves it, on a transport with the
    given input. *)
Definition example_printer (incoming : list bytes) (schedule : list nat)
  : P700 :=
  mkP700 [] incoming None blank_status false NotStarted 0 schedule [].

(** [example_frame] with other bytes wherever [INFO_OFFSETS] does not
    look. *)
Definition example_frame_noise (w e1 e2 st ph : Z) : bytes :=
  bytes_of [0x80; 0xAA; 0xBB; 0xCC; 0x67; 0x31; 7; 7; e1; e2; w; 1;
            9; 9; 9; 0; 5; 0; st; ph; 0; 0; 0; 1; 2; 3; 0; 4; 5; 6; 7; 8].

(** The packets of the [packbits] format: a literal packet holds 1 to 128
    bytes after a header [count - 1]; a run packet stands for 2 to 128
    copies of one byte after a header [257 - count]. *)
Definition raw_packet (buf : bytes) : bytes :=
  byte.of_Z (len buf - 1) :: buf.

Definition rle_packet (count : Z) (b : byte) : bytes :=
  [byte.of_Z (256 - (count - 1)); b].

(** The [packbits] format, packet by packet: [unpacks c d] says that the
    compressed bytes [c] are a sequence of literal and run packets that
    stands for the bytes [d]. *)
Inductive unpacks : bytes -> bytes -> Prop :=
| unpacks_nil : unpacks [] []
| unpacks_raw (buf c d : bytes) :
    1 <= len buf <= 128 -> unpacks c d ->
    unpacks (raw_packet buf ++ c) (buf ++ d)
| unpacks_rle (count : Z) (b : byte) (c d : bytes) :
    2 <= count <= 128 -> unpacks c d ->
    unpacks (rle_packet count b ++ c) (replicate (Z.to_nat count) b ++ d).

(** A byte string read as a big-endian unsigned integer, digit by digit:
    the first byte is the most significant. *)
Fixpoint big_endian (b : bytes) : Z :=
  match b with
  | [] => 0
  | x :: rest => byte.unsigned x * 256 ^ len rest + big_endian rest
  end.

(** The input bytes [encode_loop] has read and not yet written out. *)
Definition pending (state : PackBits.mode) (buf : bytes) (repeat_count : Z)
    (current_byte : byte) : bytes :=
  match state with
  | PackBits.RAW => buf
  | PackBits.RLE => replicate (Z.to_nat repeat_count) current_byte
  end.

(** What [encode_loop] keeps true of its variables. *)
Definition encode_inv (state : PackBits.mode) (buf : bytes)
    (repeat_count : Z) : Prop :=
  match state with
  | PackBits.RAW => len buf <= 127
  | PackBits.RLE => buf = [] /\ 1 <= repeat_count <= 127
  end.

(** The entries of [MEDIA_WIDTH_INFO] for 12 mm and 24 mm tape. *)
Definition tape_12 : TapeInfo :=
  mkTapeInfo (Some 29) (Some 70) (Some 29) (Some (12 # 1)%Q).
Definition tape_24 : TapeInfo :=
  mkTapeInfo (Some 0) (Some 128) (Some 0) (Some (24 # 1)%Q).

(** The background thread has been started and not yet joined. *)
Definition started (p : P700) : Prop :=
  status_thread p = Alive \/ status_thread p = Exited.

(** What the background thread leaves alone: the output of the transport,
    its failure budget, the stop flag and the clock. *)
Definition same_foreground (p q : P700) : Prop :=
  io_written q = io_written p /\
  io_writes_left q = io_writes_left p /\
  _check_print_status q = _check_print_status p /\
  clock q = clock p /\
  sleep_delay q = sleep_delay p.

(** A 32-byte frame with status type [st], phase type [ph] and phase
    number bytes [hi], [lo], for 24 mm tape and no error. *)
Definition phase_frame (st ph hi lo : Z) : bytes :=
  bytes_of [0x80; 0x20; 0x42; 0x30; 0x67; 0x30; 0; 0; 0; 0; 24; 1;
            0; 0; 0; 0; 0; 0; st; ph; hi; lo; 0; 0; 0; 0; 0; 0; 0; 0; 0; 0].

(** A label that renders to one blank row of the full head width. *)
Definition blank_label : Label :=
  mkLabel (fun _ => Ok (mkImage true 128 (replicate 16 (byte.of_Z 0)))).

(** What the poller has done between a state and a later one: it has
    taken some reads off the transport, and [self.status] is what it was
    or the decoding of one of the frames taken. *)
Definition polled (p q : P700) : Prop :=
  exists k : nat,
    io_incoming q = drop k (io_incoming p) /\
    (status q = status p \/
     exists f, In f (take k (io_incoming p)) /\
       length (take 32 f) = 32%nat /\
       Status_init (take 32 f) = Ok (status q)).

(** A computation that touches the input of the transport and
    [self.status] only by letting the poller run. *)
Definition polls {A : Type} (m : M A) : Prop :=
  forall p, polled p (m p).2.

(** A test of a waiting loop: it returns, and all it does is let the
    poller run; when its answer is [True], [holds] relates the state it
    started in and the state it ended in. *)
Definition wait_test (test : M bool) (holds : P700 -> P700 -> Prop) : Prop :=
  forall p, exists b q,
    test p = (Returns b, q) /\ same_foreground p q /\
    (started p -> started q) /\ polled p q /\
    (b = true -> holds p q).

(** What a passed test of the page-advance wait has seen: a status of
    type 6 at its first load of [self.status], and phase type 0 in the
    status of its second load, the one it leaves. *)
Definition receiving_seen (p q : P700) : Prop :=
  data (status q) !! "phase_type" = Some 0 /\
  exists mid, polled p mid /\ polled mid q /\
    data (status mid) !! "status_type" = Some 6.

(** What a passed test of the completion wait has seen. *)
Definition printing_seen (p q : P700) : Prop :=
  data (status q) !! "status_type" = Some 1.

(** A foreground computation that, run while the background thread is
    started, comes back (returning or raising) with the thread still
    started. *)
Definition comes_back {A : Type} (m : M A) : Prop :=
  forall p, started p -> (m p).1 <> Blocks /\ started (m p).2.

(** No background thread is running or waiting to be joined, and the stop
    flag is down: the state between two print calls. *)
Definition idle (p : P700) : Prop :=
  (status_thread p = NotStarted \/ status_thread p = Joined) /\
  _check_print_status p = false.

(** A printer in the middle of [_raw_print]: the poller runs and will read
    [incoming] as the [schedule] lets it. *)
Definition polling_printer (incoming : list bytes) (schedule : list nat)
  : P700 :=
  mkP700 [] incoming None blank_status true Alive 0 schedule [].

(** A two-page job of one blank row each. *)
Definition two_blank_pages : list (list bytes) :=
  create_copies (replicate 16 (byte.of_Z 0)) 16 2.

(** ** The stream a job puts on the wire *)

(** The writes of [_raw_print] before the first page. *)
Definition config_stream : list bytes :=
  [replicate 100 (byte.of_Z 0);
   bytes_of [0x1B; 0x40];
   bytes_of [0x1B; 0x69; 0x61; 0x01];
   bytes_of [0x1B; 0x69; 0x4D; 0x40];
   bytes_of [0x1B; 0x69; 0x4B; 0x08];
   bytes_of [0x1B; 0x69; 0x64; 0x0E; 0x00];
   bytes_of [0x4D; 0x02]].

(** The raster command of a scanline: [G] and its encoding. *)
Definition line_command (tape : TapeInfo) (line : bytes) : bytes :=
  match encode_line line tape with
  | Ok enc => bytes_of [0x47] ++ enc
  | Err _ => []
  end.

(** The writes for the pages of a job: each page's raster commands in row
    order, the end-of-page marker [5A], and between two pages the
    next-page marker [0C]. *)
Fixpoint pages_stream (tape : TapeInfo) (documents : list (list bytes))
  : list bytes :=
  match documents with
  | [] => []
  | document :: rest =>
      map (line_command tape) document ++ [bytes_of [0x5A]] ++
      match rest with
      | [] => []
      | _ :: _ => [bytes_of [0x0C]]
      end ++ pages_stream tape rest
  end.

(** Every scanline of the job has an encoding. *)
Definition encodable (tape : TapeInfo) (documents : list (list bytes)) : Prop :=
  forall document line,
    In document documents -> In line document ->
    exists enc, encode_line line tape = Ok enc.

(** The state after the writes [w], on a transport that never fails. *)
Definition after_writes (p : P700) (w : list bytes) : P700 :=
  set_io_written (io_written p ++ w) p.

(** A one-page job of one blank row. *)
Definition one_blank_page : list (list bytes) :=
  create_copies (replicate 16 (byte.of_Z 0)) 16 1.


(** * Properties

    ** Status decoder *)

Lemma bytes_index_lt (msg : bytes) (i : nat) :
  (i < length msg)%nat -> bytes_index msg i = Ok (frame_byte msg i).
Proof.
  intros Hi. unfold bytes_index, frame_byte.
  destruct (lookup_lt_is_Some_2 msg i Hi) as [b Hb].
  rewrite Hb. f_equal. f_equal. symmetry. now apply nth_lookup_Some with (d := Byte.x00) in Hb.
Qed.

Lemma bytes_index_ge (msg : bytes) (i : nat) :
  (length msg <= i)%nat -> bytes_index msg i = Err IndexError.
Proof.
  intros Hi. unfold bytes_index. now rewrite (lookup_ge_None_2 msg i Hi).
Qed.

Lemma INFO_OFFSETS_value_bound (i : INFO_OFFSETS) :
  (INFO_OFFSETS_value i <= 26)%nat.
Proof. destruct i; simpl; lia. Qed.

Lemma Status_fields_ok (msg : bytes) (members : list INFO_OFFSETS) :
  (27 <= length msg)%nat ->
  Status_fields msg members =
  Ok (map (fun i => (lower (INFO_OFFSETS_name i),
                     frame_byte msg (INFO_OFFSETS_value i))) members).
Proof.
  intros Hlen. induction members as [|i rest IH]; [reflexivity|].
  simpl. rewrite bytes_index_lt, IH; [reflexivity|].
  pose proof (INFO_OFFSETS_value_bound i). lia.
Qed.

Lemma frame_data_getattr (msg : bytes) (i : INFO_OFFSETS) :
  data_getattr (frame_data msg) (lower (INFO_OFFSETS_name i)) =
  Ok (frame_byte msg (INFO_OFFSETS_value i)).
Proof.
  unfold frame_data, data_getattr, INFO_OFFSETS_members.
  cbn [map].
  generalize (frame_byte msg). intros f.
  destruct i; vm_compute; reflexivity.
Qed.

Lemma Status_init_frame (msg : bytes) :
  (27 <= length msg)%nat ->
  Status_init msg =
  match MEDIA_WIDTH_INFO !! frame_byte msg 10 with
  | Some ti =>
      Ok (mkStatus (frame_data msg)
            (Errors_init (frame_byte msg 8) (frame_byte msg 9)) ti)
  | None => Err (UnknownTapeWidth (frame_byte msg 10))
  end.
Proof.
  intros Hlen. unfold Status_init.
  rewrite (Status_fields_ok msg _ Hlen).
  fold (frame_data msg).
  rewrite (frame_data_getattr msg ERROR_1 : data_getattr _ "error_1" = _).
  rewrite (frame_data_getattr msg ERROR_2 : data_getattr _ "error_2" = _).
  rewrite (frame_data_getattr msg MEDIA_WIDTH : data_getattr _ "media_width" = _).
  reflexivity.
Qed.

Lemma Status_fields_short (msg : bytes) (members : list INFO_OFFSETS) :
  (exists i, In i members /\ (length msg <= INFO_OFFSETS_value i)%nat) ->
  Status_fields msg members = Err IndexError.
Proof.
  induction members as [|j rest IH]; intros (i & Hin & Hi).
  - destruct Hin.
  - cbn [Status_fields]. unfold bytes_index at 1.
    destruct (msg !! INFO_OFFSETS_value j) as [b|] eqn:Hj; [|reflexivity].
    rewrite IH; [reflexivity|].
    exists i. split; [|exact Hi].
    destruct Hin as [->|Hin]; [|exact Hin].
    apply lookup_lt_Some in Hj. lia.
Qed.

Lemma Status_init_short (msg : bytes) :
  (length msg < 27)%nat -> Status_init msg = Err IndexError.
Proof.
  intros Hlen. unfold Status_init.
  rewrite Status_fields_short; [reflexivity|].
  exists HARDWARE_SETTINGS. split; [|simpl; lia].
  unfold INFO_OFFSETS_members. simpl. tauto.
Qed.

(** ** Errors *)

Lemma py_bool_land_bit (v off : Z) :
  0 <= off -> py_bool (Z.land v (Z.shiftl 1 off)) = Z.testbit v off.
Proof.
  intros Hoff. unfold py_bool. rewrite Z.shiftl_1_l.
  destruct (Z.testbit v off) eqn:Hb.
  - apply negb_true_iff, Z.eqb_neq. intros H0.
    assert (Hc : Z.testbit (Z.land v (2 ^ off)) off = true).
    { rewrite Z.land_spec, Hb, Z.pow2_bits_true; auto. }
    rewrite H0, Z.bits_0 in Hc. discriminate.
  - apply negb_false_iff, Z.eqb_eq. apply Z.bits_inj'. intros n Hn.
    rewrite Z.land_spec, Z.bits_0, Z.pow2_bits_eqb by assumption.
    destruct (Z.eqb_spec off n) as [->|]; [now rewrite Hb | apply andb_false_r].
Qed.


Lemma error_names_NoDup :
  NoDup (map (fun oe : Z * ERRORS => lower (ERRORS_name oe.2)) ERROR_MASK).
Proof. apply (bool_decide_unpack _). vm_compute. exact I. Qed.

Lemma Errors_init_data (e1 e2 : Z) :
  map_to_list (errors_data (Errors_init e1 e2)) ≡ₚ
  map (fun '(offset, err) =>
         (lower (ERRORS_name err), Z.testbit (Errors_value e1 e2) offset))
      ERROR_MASK.
Proof.
  unfold Errors_init. cbn [errors_data].
  set (f := fun '(offset, err) => (lower (ERRORS_name err), py_bool _)).
  set (g := fun '(offset, err) => (lower (ERRORS_name err), Z.testbit _ _)).
  assert (Hfg : map f ERROR_MASK = map g ERROR_MASK).
  { apply map_ext_in. intros [off err] Hin. subst f g. cbn beta iota.
    rewrite py_bool_land_bit; [reflexivity|].
    unfold ERROR_MASK in Hin. simpl in Hin.
    repeat (destruct Hin as [Hin|Hin]; [inversion Hin; lia|]). destruct Hin. }
  rewrite Hfg. apply map_to_list_to_map.
  exact error_names_NoDup.
Qed.

Lemma Errors_any_init_iff (e1 e2 : Z) :
  Errors_any (Errors_init e1 e2) = true <->
  exists off, In off error_bits /\ Z.testbit (Errors_value e1 e2) off = true.
Proof.
  unfold Errors_any. rewrite existsb_exists. split.
  - intros ([name flag] & Hin & Hflag). cbn [snd] in Hflag. subst flag.
    apply (Permutation_in _ (Errors_init_data e1 e2)) in Hin.
    apply in_map_iff in Hin.
    destruct Hin as ([off err] & Heq & Hmask).
    exists off. split.
    + change error_bits with (map fst ERROR_MASK).
      apply in_map_iff. now exists (off, err).
    + congruence.
  - intros (off & Hin & Hbit).
    change error_bits with (map fst ERROR_MASK) in Hin.
    apply in_map_iff in Hin. destruct Hin as ([off' err] & Heq & Hmask).
    cbn [fst] in Heq. subst off'.
    exists (lower (ERRORS_name err), true). split; [|reflexivity].
    apply (Permutation_in _ (Permutation_sym (Errors_init_data e1 e2))).
    apply in_map_iff. exists (off, err).
    split; [now rewrite Hbit | exact Hmask].
Qed.

Lemma Errors_any_flag (e : Errors) :
  Errors_any e = true <-> exists name, errors_data e !! name = Some true.
Proof.
  unfold Errors_any. rewrite existsb_exists. split.
  - intros ([name flag] & Hin & Hflag). simpl in Hflag. subst flag.
    exists name. now apply elem_of_map_to_list, list_elem_of_In.
  - intros (name & Hname). exists (name, true). split; [|reflexivity].
    now apply list_elem_of_In, elem_of_map_to_list.
Qed.

Lemma Errors_value_sum (e1 e2 : Z) :
  0 <= e1 < 256 -> Errors_value e1 e2 = e1 + 256 * e2.
Proof.
  intros He1. unfold Errors_value.
  assert (Hland : Z.land e1 (Z.shiftl e2 8) = 0).
  { apply Z.bits_inj'. intros n Hn. rewrite Z.land_spec, Z.bits_0.
    destruct (Z.ltb_spec n 8).
    - rewrite Z.shiftl_spec_low by assumption. apply andb_false_r.
    - replace (Z.testbit e1 n) with false; [reflexivity|].
      symmetry. destruct (Z.eqb_spec e1 0) as [->|]; [apply Z.bits_0|].
      apply Z.bits_above_log2; [lia|].
      apply Z.log2_lt_pow2; [lia|].
      apply Z.lt_le_trans with (2 ^ 8); [lia|].
      apply Z.pow_le_mono_r; lia. }
  pose proof (Z.add_lor_land e1 (Z.shiftl e2 8)) as Hadd.
  rewrite Hland, Z.shiftl_mul_pow2 in Hadd by lia.
  rewrite Z.shiftl_mul_pow2 by lia. change (2 ^ 8) with 256 in *. lia.
Qed.

Lemma frame_byte_range (msg : bytes) (i : nat) : 0 <= frame_byte msg i < 256.
Proof. apply byte.unsigned_range. Qed.

Lemma Status_init_Ok_inv (msg : bytes) (s : Status) :
  Status_init msg = Ok s ->
  (27 <= length msg)%nat /\
  MEDIA_WIDTH_INFO !! frame_byte msg 10 = Some (tape_info s) /\
  data s = frame_data msg /\
  errors s = Errors_init (frame_byte msg 8) (frame_byte msg 9).
Proof.
  intros H.
  destruct (Nat.lt_ge_cases (length msg) 27) as [Hlt|Hge].
  - rewrite (Status_init_short msg Hlt) in H. discriminate.
  - rewrite (Status_init_frame msg Hge) in H.
    destruct (MEDIA_WIDTH_INFO !! frame_byte msg 10) as [ti|]; [|discriminate].
    inversion H; subst; simpl. auto.
Qed.

Lemma Errors_init_lookup (e1 e2 off : Z) (err : ERRORS) :
  In (off, err) ERROR_MASK ->
  errors_data (Errors_init e1 e2) !! lower (ERRORS_name err) =
  Some (Z.testbit (Errors_value e1 e2) off).
Proof.
  intros Hin. apply elem_of_map_to_list, list_elem_of_In.
  apply (Permutation_in _ (Permutation_sym (Errors_init_data e1 e2))).
  apply in_map_iff. now exists (off, err).
Qed.

(** C6. For a decoded status, [ready()] holds exactly when none of the bits
    0, 2, 3, 6, 8, 12, 13 is set in the 16-bit little-endian value of the
    bytes at offsets 8 and 9, and [Errors.any()] holds exactly when one of
    the flags named by [ERROR_MASK] is set. *)
Theorem ready_iff_no_error_bit (msg : bytes) (s : Status) :
  Status_init msg = Ok s ->
  (ready s = true <->
   forall i, In i error_bits ->
     Z.testbit (frame_byte msg 8 + 256 * frame_byte msg 9) i = false) /\
  (Errors_any (errors s) = true <->
   exists off err, In (off, err) ERROR_MASK /\
     errors_data (errors s) !! lower (ERRORS_name err) = Some true).
Proof.
  intros Hs. apply Status_init_Ok_inv in Hs.
  destruct Hs as (_ & _ & _ & Herr).
  rewrite <- (Errors_value_sum _ (frame_byte msg 9) (frame_byte_range msg 8)).
  unfold ready. rewrite Herr. split.
  - rewrite negb_true_iff, <- not_true_iff_false, Errors_any_init_iff. split.
    + intros Hno i Hi. apply not_true_iff_false. intros Hbit.
      apply Hno. now exists i.
    + intros Hall (i & Hi & Hbit). rewrite (Hall i Hi) in Hbit. discriminate.
  - rewrite Errors_any_init_iff. split.
    + intros (off & Hin & Hbit).
      change error_bits with (map fst ERROR_MASK) in Hin.
      apply in_map_iff in Hin. destruct Hin as ([off' err] & Heq & Hmask).
      cbn [fst] in Heq. subst off'. exists off, err. split; [exact Hmask|].
      now rewrite (Errors_init_lookup _ _ off err Hmask), Hbit.
    + intros (off & err & Hmask & Hflag).
      rewrite (Errors_init_lookup _ _ off err Hmask) in Hflag.
      exists off. split; [|congruence].
      change error_bits with (map fst ERROR_MASK).
      apply in_map_iff. now exists (off, err).
Qed.

Lemma ready_iff_no_error_bit_witness :
  ready (decoded (example_frame 12 1 0x10 0 0)) = true <->
  forall i, In i error_bits ->
    Z.testbit (frame_byte (example_frame 12 1 0x10 0 0) 8 +
               256 * frame_byte (example_frame 12 1 0x10 0 0) 9) i = false.
Proof.
  refine (proj1 (ready_iff_no_error_bit (example_frame 12 1 0x10 0 0) _ _)).
  vm_compute. reflexivity.
Defined.

(** C5. [get_status] on a transport that accepts the request: an empty read
    raises [NoResponse], a read of 1 to 31 bytes raises [InvalidResponse],
    and a read of 32 bytes goes on to [Status(data)], whose only failure is
    an unknown media width. *)
Theorem get_status_by_length (p : P700) (data : bytes) :
  io_writes_left p <> Some 0%nat ->
  take 32 (hd [] (io_incoming p)) = data ->
  (length data = 0%nat -> (get_status p).1 = Raises NoResponse) /\
  ((1 <= length data <= 31)%nat -> (get_status p).1 = Raises InvalidResponse) /\
  (length data = 32%nat ->
   match Status_init data with
   | Ok s => (get_status p).1 = Returns s
   | Err e => (get_status p).1 = Raises e /\
              e = UnknownTapeWidth (frame_byte data 10)
   end).
Proof.
  intros Hw Hdata.
  assert (Hrun : (get_status p).1 =
                 if len data =? 0 then Raises NoResponse
                 else if len data <? 32 then Raises InvalidResponse
                 else match Status_init data with
                      | Ok s => Returns s
                      | Err e => Raises e
                      end).
  { unfold get_status, mbind, M_bind, io_write, io_read.
    destruct p as [w inc left st fl th cl sch del]. cbn in Hw, Hdata |- *.
    destruct left as [[|n]|]; [congruence| |];
      (destruct inc as [|chunk rest]; cbn in Hdata |- *; subst data;
       [reflexivity|];
       destruct (len (take 32 chunk) =? 0); [reflexivity|];
       destruct (len (take 32 chunk) <? 32); [reflexivity|];
       unfold lift; destruct (Status_init (take 32 chunk)); reflexivity). }
  rewrite Hrun. unfold len. repeat split.
  - intros ->. reflexivity.
  - intros Hlen.
    destruct (Z.eqb_spec (Z.of_nat (length data)) 0); [lia|].
    destruct (Z.ltb_spec (Z.of_nat (length data)) 32); [reflexivity|lia].
  - intros Hlen. rewrite Hlen. cbn.
    rewrite Status_init_frame by lia.
    destruct (MEDIA_WIDTH_INFO !! frame_byte data 10); auto.
Qed.

Lemma get_status_by_length_witness :
  (get_status (example_printer [take 5 (example_frame 12 0 0 0 0)] [])).1 =
  Raises InvalidResponse.
Proof.
  refine (proj1 (proj2 (get_status_by_length
    (example_printer [take 5 (example_frame 12 0 0 0 0)] [])
    (take 5 (example_frame 12 0 0 0 0)) _ _)) _).
  - discriminate.
  - reflexivity.
  - vm_compute. lia.
Defined.

Lemma MEDIA_WIDTH_INFO_unknown (code : Z) :
  ~ In code media_width_codes -> MEDIA_WIDTH_INFO !! code = None.
Proof.
  intros Hout. unfold MEDIA_WIDTH_INFO.
  apply not_elem_of_list_to_map_1. intros Hin. apply Hout.
  apply list_elem_of_In. exact Hin.
Qed.

(** C7. Decoding a 32-byte frame looks the tape up by the byte at offset
    10: code 12 gives (29, 70, 29, 12.0), code 0 the entry whose fields are
    all [None], and a code outside the table makes the decoding fail with
    [UnknownTapeWidth]. *)
Theorem tape_info_lookup (msg : bytes) :
  length msg = 32%nat ->
  (frame_byte msg 10 = 12 ->
   exists s, Status_init msg = Ok s /\
     tape_info s = mkTapeInfo (Some 29) (Some 70) (Some 29) (Some (12 # 1)%Q)) /\
  (frame_byte msg 10 = 0 ->
   exists s, Status_init msg = Ok s /\
     tape_info s = mkTapeInfo None None None None) /\
  (~ In (frame_byte msg 10) media_width_codes ->
   Status_init msg = Err (UnknownTapeWidth (frame_byte msg 10))).
Proof.
  intros Hlen. rewrite Status_init_frame by lia. repeat split.
  - intros ->.
    change (MEDIA_WIDTH_INFO !! 12) with
      (Some (mkTapeInfo (Some 29) (Some 70) (Some 29) (Some (12 # 1)%Q))).
    eauto.
  - intros ->.
    change (MEDIA_WIDTH_INFO !! 0) with
      (Some (mkTapeInfo None None None None)).
    eauto.
  - intros Hout. now rewrite (MEDIA_WIDTH_INFO_unknown _ Hout).
Qed.

Lemma tape_info_lookup_witness :
  Status_init (example_frame 13 0 0 0 0) = Err (UnknownTapeWidth 13).
Proof.
  refine (proj2 (proj2 (tape_info_lookup (example_frame 13 0 0 0 0) _)) _).
  - reflexivity.
  - vm_compute. intuition discriminate.
Defined.

Lemma Status_fields_agree (m1 m2 : bytes) (members : list INFO_OFFSETS) :
  (forall i, In i members ->
     m1 !! INFO_OFFSETS_value i = m2 !! INFO_OFFSETS_value i) ->
  Status_fields m1 members = Status_fields m2 members.
Proof.
  induction members as [|i rest IH]; intros Hagree; [reflexivity|].
  cbn [Status_fields]. unfold bytes_index.
  rewrite (Hagree i (or_introl eq_refl)).
  rewrite IH; [reflexivity|].
  intros j Hj. apply Hagree. now right.
Qed.

(** C10. Decoding reads a frame only at the 14 offsets of [INFO_OFFSETS]:
    two 32-byte frames that agree there decode alike, whatever the other
    bytes are.  Print-head mark and model code are the single bytes at
    offsets 0 and 4. *)
Theorem Status_init_depends_on_offsets (m1 m2 : bytes) :
  length m1 = 32%nat -> length m2 = 32%nat ->
  (forall o, In o status_offsets -> m1 !! o = m2 !! o) ->
  Status_init m1 = Status_init m2 /\
  (forall s, Status_init m1 = Ok s ->
     data s !! "printhead_mark" = Some (frame_byte m1 0) /\
     data s !! "model_code" = Some (frame_byte m1 4)).
Proof.
  intros H1 H2 Hagree. split.
  - unfold Status_init.
    rewrite (Status_fields_agree m1 m2); [reflexivity|].
    intros i Hi. apply Hagree.
    change status_offsets with (map INFO_OFFSETS_value INFO_OFFSETS_members).
    now apply in_map.
  - intros s Hs. apply Status_init_Ok_inv in Hs.
    destruct Hs as (_ & _ & Hdata & _). rewrite Hdata.
    pose proof (frame_data_getattr m1 PRINTHEAD_MARK) as Hp.
    pose proof (frame_data_getattr m1 MODEL_CODE) as Hm.
    unfold data_getattr in Hp, Hm. cbn [INFO_OFFSETS_name INFO_OFFSETS_value] in Hp, Hm.
    change (lower "PRINTHEAD_MARK") with "printhead_mark"%string in Hp.
    change (lower "MODEL_CODE") with "model_code"%string in Hm.
    destruct (frame_data m1 !! "printhead_mark") eqn:E1; [|discriminate].
    destruct (frame_data m1 !! "model_code") eqn:E2; [|discriminate].
    split; congruence.
Qed.

Lemma Status_init_depends_on_offsets_witness :
  Status_init (example_frame 12 0 0 6 0) =
  Status_init (example_frame_noise 12 0 0 6 0).
Proof.
  refine (proj1 (Status_init_depends_on_offsets
    (example_frame 12 0 0 6 0) (example_frame_noise 12 0 0 6 0) _ _ _)).
  - reflexivity.
  - reflexivity.
  - intros o Ho. unfold status_offsets in Ho. simpl in Ho.
    repeat (destruct Ho as [<-|Ho]; [reflexivity|]). destruct Ho.
Defined.



(** ** The [packbits] codec *)

Lemma byte_unsigned_of_Z_small (z : Z) :
  0 <= z < 256 -> byte.unsigned (byte.of_Z z) = z.
Proof.
  intros Hz. rewrite byte.unsigned_of_Z. unfold byte.wrap.
  apply Z.mod_small. change (2 ^ 8) with 256. lia.
Qed.

Lemma classify_literal (k : Z) :
  0 <= k <= 127 ->
  PackBits.classify (byte.of_Z k) = PackBits.Literal (Z.to_nat (k + 1)).
Proof.
  intros Hk. unfold PackBits.classify, PackBits.header.
  rewrite byte_unsigned_of_Z_small by lia.
  destruct (Z.ltb_spec 127 k); [lia|].
  destruct (Z.leb_spec 0 k); [|lia].
  destruct (Z.leb_spec k 127); [reflexivity|lia].
Qed.

Lemma classify_repeat (n : Z) :
  2 <= n <= 128 ->
  PackBits.classify (byte.of_Z (256 - (n - 1))) = PackBits.Repeat (Z.to_nat n).
Proof.
  intros Hn. unfold PackBits.classify, PackBits.header.
  rewrite byte_unsigned_of_Z_small by lia.
  destruct (Z.ltb_spec 127 (256 - (n - 1))); [|lia].
  destruct (Z.leb_spec 0 (256 - (n - 1) - 256)); [lia|]. cbn [andb].
  destruct (Z.eqb_spec (256 - (n - 1) - 256) (-128)); [lia|].
  f_equal. f_equal. lia.
Qed.

Lemma decode_raw_packet (buf tail : bytes) :
  1 <= len buf <= 128 ->
  PackBits.decode (raw_packet buf ++ tail) =
  (r ← PackBits.decode tail; Ok (buf ++ r)).
Proof.
  intros Hbuf. unfold raw_packet, len in *. cbn [app].
  rewrite PackBits.decode_equation_2, classify_literal by lia.
  rewrite PackBits.decode_clause_2_equation_1.
  replace (Z.to_nat (Z.of_nat (length buf) - 1 + 1)) with (length buf) by lia.
  now rewrite drop_app_length, take_app_length.
Qed.

Lemma decode_rle_packet (n : Z) (b : byte) (tail : bytes) :
  2 <= n <= 128 ->
  PackBits.decode (rle_packet n b ++ tail) =
  (r ← PackBits.decode tail; Ok (replicate (Z.to_nat n) b ++ r)).
Proof.
  intros Hn. unfold rle_packet. cbn [app].
  rewrite PackBits.decode_equation_2, classify_repeat by lia.
  rewrite PackBits.decode_clause_2_equation_3.
  now rewrite PackBits.decode_clause_2_clause_3_equation_2.
Qed.

Lemma finish_raw_nil (result : bytes) :
  PackBits.finish_raw result [] = Ok result.
Proof. reflexivity. Qed.

Lemma finish_raw_packet (result buf : bytes) :
  1 <= len buf <= 128 ->
  PackBits.finish_raw result buf = Ok (result ++ raw_packet buf).
Proof.
  intros Hbuf. unfold PackBits.finish_raw, PackBits.bytearray_append, raw_packet.
  destruct (Z.eqb_spec (len buf) 0); [lia|].
  destruct (Z.leb_spec 0 (len buf - 1)); [|lia].
  destruct (Z.ltb_spec (len buf - 1) 256); [|lia].
  cbn. now rewrite <- app_assoc.
Qed.

Lemma finish_rle_packet (result : bytes) (n : Z) (b : byte) :
  2 <= n <= 128 ->
  PackBits.finish_rle result n b = Ok (result ++ rle_packet n b).
Proof.
  intros Hn. unfold PackBits.finish_rle, PackBits.bytearray_append, rle_packet.
  destruct (Z.leb_spec 0 (256 - (n - 1))); [|lia].
  destruct (Z.ltb_spec (256 - (n - 1)) 256); [|lia].
  cbn. now rewrite <- app_assoc.
Qed.

Lemma replicate_succ_Z (n : Z) (x : byte) (l : bytes) :
  0 <= n ->
  replicate (Z.to_nat (n + 1)) x ++ l = replicate (Z.to_nat n) x ++ x :: l.
Proof.
  intros Hn. replace (Z.to_nat (n + 1)) with (S (Z.to_nat n)) by lia.
  rewrite replicate_S_end, <- app_assoc. reflexivity.
Qed.

Lemma Result_bind_assoc (m : Result bytes) (a b : bytes) :
  (r ← (r' ← m; Ok (a ++ r')); Ok (b ++ r)) = (r ← m; Ok ((b ++ a) ++ r)).
Proof. destruct m; cbn; [now rewrite app_assoc | reflexivity]. Qed.

Ltac list_len :=
  unfold len in *;
  repeat rewrite ?length_app, ?length_replicate, ?length_cons in *;
  cbn [length] in *; lia.

Ltac list_eq :=
  cbn [pending]; rewrite ?replicate_succ_Z by lia;
  rewrite <- ?app_assoc; cbn [app]; reflexivity.

(** Concludes [unpacks c d] from [H : unpacks c d'] where [d'] is [d] up
    to the association of appends. *)
Ltac unpacks_from H :=
  rewrite <- ?app_assoc;
  first [ exact H
        | refine (eq_ind _ (fun l => unpacks _ l) H _ _); list_eq ].

(** The loop of [encode], from any state its invariant allows: it returns,
    appends whole packets to [result], these decode to the bytes read but
    not yet written followed by the rest of the input, they are packets
    of the format standing for these bytes, and they are at most twice as
    long. *)
Lemma encode_loop_spec (data : bytes) :
  forall (x : byte) (state : PackBits.mode) (buf : bytes) (rc : Z)
         (result : bytes),
    encode_inv state buf rc ->
    exists out,
      PackBits.encode_loop state buf rc result (x :: data) = Ok (result ++ out) /\
      (forall tail,
         PackBits.decode (out ++ tail) =
         (r ← PackBits.decode tail;
          Ok ((pending state buf rc x ++ x :: data) ++ r))) /\
      (forall c d, unpacks c d ->
         unpacks (out ++ c) ((pending state buf rc x ++ x :: data) ++ d)) /\
      (length out <= 2 * (length (pending state buf rc x) + S (length data)))%nat.
Proof.
  induction data as [|y tl IH]; intros x state buf rc result Hinv.
  - (* the last byte: the flush after the loop *)
    destruct state; cbn [PackBits.encode_loop pending encode_inv] in *.
    + exists (raw_packet (buf ++ [x])).
      assert (Hlen : 1 <= len (buf ++ [x]) <= 128) by list_len.
      split; [now apply finish_raw_packet|]. split; [|split].
      * intros tail. now rewrite decode_raw_packet.
      * intros c d H. exact (unpacks_raw _ _ _ Hlen H).
      * unfold raw_packet. list_len.
    + destruct Hinv as [-> Hrc]. exists (rle_packet (rc + 1) x).
      split; [apply finish_rle_packet; lia|]. split; [|split].
      * intros tail. rewrite decode_rle_packet by lia.
        destruct (PackBits.decode tail); cbn; [|reflexivity].
        now rewrite replicate_succ_Z, <- app_assoc by lia.
      * intros c d H.
        unpacks_from (unpacks_rle (rc + 1) x c d ltac:(lia) H).
      * unfold rle_packet. list_len.
  - cbn [PackBits.encode_loop].
    destruct (Byte.eqb x y) eqn:Hxy.
    + apply Byte.byte_dec_bl in Hxy. subst y.
      destruct state; cbn [pending encode_inv] in *.
      * (* RAW, a run starts: flush the literals *)
        destruct (IH x PackBits.RLE [] 1 (result ++ match buf with [] => [] | _ => raw_packet buf end))
          as (out & Hrun & Hdec & Hunp & Hlen); [cbn; split; [reflexivity|lia]|].
        destruct buf as [|b0 buf'].
        -- rewrite finish_raw_nil. cbn [mbind Result_bind].
           rewrite app_nil_r in Hrun. exists out. split; [exact Hrun|].
           split; [intros tail; rewrite Hdec; reflexivity|]. split.
           ++ intros c d H. exact (Hunp c d H).
           ++ cbn [pending] in *. list_len.
        -- rewrite finish_raw_packet by list_len. cbn [mbind Result_bind].
           exists (raw_packet (b0 :: buf') ++ out).
           split; [now rewrite app_assoc|]. split; [|split].
           ++ intros tail. rewrite <- app_assoc, decode_raw_packet by list_len.
              rewrite Hdec, Result_bind_assoc. cbn [pending].
              destruct (PackBits.decode tail); cbn; [|reflexivity].
              now rewrite <- !app_assoc.
           ++ intros c d H.
              unpacks_from (unpacks_raw (b0 :: buf') _ _ ltac:(list_len)
                              (Hunp c d H)).
           ++ unfold raw_packet. cbn [pending] in *. list_len.
      * destruct Hinv as [-> Hrc]. unfold PackBits.MAX_LENGTH.
        destruct (Z.eqb_spec rc 127) as [->|Hne].
        -- (* RLE, the run is full: write it and restart *)
           rewrite finish_rle_packet by lia. cbn [mbind Result_bind].
           destruct (IH x PackBits.RLE [] (0 + 1) (result ++ rle_packet 127 x))
             as (out & Hrun & Hdec & Hunp & Hlen);
             [cbn; split; [reflexivity|lia]|].
           exists (rle_packet 127 x ++ out).
           split; [now rewrite app_assoc|]. split; [|split].
           ++ intros tail. rewrite <- app_assoc, decode_rle_packet by lia.
              rewrite Hdec, Result_bind_assoc. cbn [pending].
              destruct (PackBits.decode tail); cbn; [|reflexivity].
              now rewrite <- !app_assoc.
           ++ intros c d H.
              unpacks_from (unpacks_rle 127 x _ _ ltac:(lia) (Hunp c d H)).
           ++ unfold rle_packet. cbn [pending] in *. list_len.
        -- (* RLE, the run goes on *)
           destruct (IH x PackBits.RLE [] (rc + 1) result)
             as (out & Hrun & Hdec & Hunp & Hlen);
             [cbn; split; [reflexivity|lia]|].
           exists out. split; [exact Hrun|]. split; [|split].
           ++ intros tail. rewrite Hdec. cbn [pending].
              destruct (PackBits.decode tail); cbn; [|reflexivity].
              now rewrite replicate_succ_Z by lia.
           ++ intros c d H. unpacks_from (Hunp c d H).
           ++ cbn [pending] in *.
              replace (Z.to_nat (rc + 1)) with (S (Z.to_nat rc)) in Hlen by lia.
              list_len.
    + destruct state; cbn [pending encode_inv] in *.
      * unfold PackBits.MAX_LENGTH.
        destruct (Z.eqb_spec (len buf) 127) as [Hfull|Hroom].
        -- (* RAW, the buffer is full: flush it *)
           rewrite finish_raw_packet by lia. cbn [mbind Result_bind].
           destruct (IH y PackBits.RAW [x] rc (result ++ raw_packet buf))
             as (out & Hrun & Hdec & Hunp & Hlen); [cbn; unfold len; cbn; lia|].
           exists (raw_packet buf ++ out).
           split; [now rewrite app_assoc|]. split; [|split].
           ++ intros tail. rewrite <- app_assoc, decode_raw_packet by lia.
              rewrite Hdec, Result_bind_assoc. cbn [pending].
              destruct (PackBits.decode tail); cbn; [|reflexivity].
              now rewrite <- !app_assoc.
           ++ intros c d H.
              unpacks_from (unpacks_raw buf _ _ ltac:(lia) (Hunp c d H)).
           ++ unfold raw_packet. cbn [pending] in *. list_len.
        -- (* RAW, one more literal *)
           destruct (IH y PackBits.RAW (buf ++ [x]) rc result)
             as (out & Hrun & Hdec & Hunp & Hlen); [cbn; list_len|].
           exists out. split; [exact Hrun|]. split; [|split].
           ++ intros tail. rewrite Hdec. cbn [pending].
              destruct (PackBits.decode tail); cbn; [|reflexivity].
              now rewrite <- !app_assoc.
           ++ intros c d H. unpacks_from (Hunp c d H).
           ++ cbn [pending] in *. list_len.
      * (* RLE, the run ends *)
        destruct Hinv as [-> Hrc].
        rewrite finish_rle_packet by lia. cbn [mbind Result_bind].
        destruct (IH y PackBits.RAW [] 0 (result ++ rle_packet (rc + 1) x))
          as (out & Hrun & Hdec & Hunp & Hlen); [cbn; unfold len; cbn; lia|].
        exists (rle_packet (rc + 1) x ++ out).
        split; [now rewrite app_assoc|]. split; [|split].
        -- intros tail. rewrite <- app_assoc, decode_rle_packet by lia.
           rewrite Hdec, Result_bind_assoc. cbn [pending].
           destruct (PackBits.decode tail); cbn; [|reflexivity].
           now rewrite replicate_succ_Z, <- !app_assoc by lia.
        -- intros c d H.
           unpacks_from (unpacks_rle (rc + 1) x _ _ ltac:(lia) (Hunp c d H)).
        -- unfold rle_packet. cbn [pending] in *. list_len.
Qed.

(** [encode] returns on every input; what it returns decodes to the input,
    is made of packets of the format standing for the input, and is at
    most twice as long. *)
Lemma encode_decode (data : bytes) :
  exists out,
    PackBits.encode data = Ok out /\
    PackBits.decode out = Ok data /\
    (length out <= 2 * length data)%nat /\
    unpacks out data.
Proof.
  destruct data as [|x [|y tl]].
  - exists []. repeat split; auto. constructor.
  - exists [byte.of_Z 0; x]. split; [reflexivity|]. split; [|split; [cbn; lia|]].
    + change [byte.of_Z 0; x] with (raw_packet [x] ++ []).
      rewrite decode_raw_packet by (unfold len; cbn; lia).
      reflexivity.
    + exact (unpacks_raw [x] [] [] ltac:(unfold len; cbn; lia) unpacks_nil).
  - destruct (encode_loop_spec (y :: tl) x PackBits.RAW [] 0 [])
      as (out & Hrun & Hdec & Hunp & Hlen); [cbn; unfold len; cbn; lia|].
    exists out. split; [exact Hrun|]. split; [|split].
    + specialize (Hdec []). rewrite app_nil_r in Hdec. rewrite Hdec.
      rewrite PackBits.decode_equation_1. cbn. now rewrite app_nil_r.
    + cbn [pending length] in *. lia.
    + specialize (Hunp [] [] unpacks_nil).
      rewrite !app_nil_r in Hunp. exact Hunp.
Qed.

(** ** Integer/bytes conversions *)

Lemma int_from_bytes_big_range (b : bytes) :
  0 <= int_from_bytes_big b < 2 ^ (8 * len b).
Proof.
  unfold int_from_bytes_big, len.
  pose proof (le_combine_bound (rev b)) as H.
  rewrite length_rev in H. exact H.
Qed.

Lemma int_to_bytes_big_Ok (n : nat) (z : Z) :
  0 <= z < 2 ^ (8 * Z.of_nat n) ->
  int_to_bytes_big n z = Ok (rev (le_split n z)) /\
  length (rev (le_split n z)) = n /\
  int_from_bytes_big (rev (le_split n z)) = z.
Proof.
  intros Hz. unfold int_to_bytes_big, int_from_bytes_big.
  destruct (Z.ltb_spec z 0); [lia|].
  destruct (Z.leb_spec (2 ^ (8 * Z.of_nat n)) z); [lia|].
  cbn. split; [reflexivity|]. split.
  - now rewrite length_rev, length_le_split.
  - rewrite rev_involutive, le_combine_split.
    apply Z.mod_small. rewrite Z.mul_comm. exact Hz.
Qed.

Lemma int_to_bytes_big_overflow (n : nat) (z : Z) :
  2 ^ (8 * Z.of_nat n) <= z -> int_to_bytes_big n z = Err OverflowError.
Proof.
  intros Hz. unfold int_to_bytes_big.
  destruct (Z.leb_spec (2 ^ (8 * Z.of_nat n)) z); [|lia].
  now rewrite orb_true_r.
Qed.

Lemma struct_pack_H_le_Ok (n : Z) :
  0 <= n <= 65535 ->
  struct_pack_H_le n = Ok (le_split 2 n) /\
  length (le_split 2 n) = 2%nat /\
  le_combine (le_split 2 n) = n.
Proof.
  intros Hn. unfold struct_pack_H_le.
  destruct (Z.leb_spec 0 n); [|lia].
  destruct (Z.leb_spec n 65535); [|lia].
  cbn. split; [reflexivity|]. split; [apply length_le_split|].
  rewrite le_combine_split. apply Z.mod_small.
  change (2 ^ (Z.of_nat 2 * 8)) with 65536. lia.
Qed.

Lemma shiftl_nonneg (a k : Z) : 0 <= a -> 0 <= Z.shiftl a k.
Proof. intros Ha. now apply Z.shiftl_nonneg. Qed.

(** ** Line encoder *)

Lemma encode_line_margin (line : bytes) (tape : TapeInfo) (r : Z) :
  rmargin tape = Some r -> 0 <= r ->
  encode_line line tape =
  (padded ← int_to_bytes_big 16 (Z.shiftl (int_from_bytes_big line) r);
   compressed ← PackBits.encode padded;
   prefix ← struct_pack_H_le (len compressed);
   Ok (prefix ++ compressed)).
Proof.
  intros Hr Hpos. unfold encode_line, py_lshift. rewrite Hr.
  destruct (Z.ltb_spec r 0); [lia|]. reflexivity.
Qed.

Lemma encode_line_Ok_margin (line : bytes) (tape : TapeInfo) (out : bytes) :
  encode_line line tape = Ok out -> exists r, rmargin tape = Some r /\ 0 <= r.
Proof.
  unfold encode_line, py_lshift. destruct (rmargin tape) as [r|]; [|discriminate].
  destruct (Z.ltb_spec r 0); [discriminate|]. eauto.
Qed.

Lemma encode_bounded (padded : bytes) :
  length padded = 16%nat ->
  exists compressed,
    PackBits.encode padded = Ok compressed /\ 0 <= len compressed <= 65535.
Proof.
  intros Hlen.
  destruct (encode_decode padded) as (compressed & Henc & _ & Hsize).
  rewrite Hlen in Hsize. exists compressed. split; [exact Henc|].
  unfold len. lia.
Qed.

Lemma encode_line_compose (line : bytes) (tape : TapeInfo) (r : Z)
    (padded compressed : bytes) :
  rmargin tape = Some r -> 0 <= r ->
  int_to_bytes_big 16 (Z.shiftl (int_from_bytes_big line) r) = Ok padded ->
  PackBits.encode padded = Ok compressed ->
  struct_pack_H_le (len compressed) = Ok (le_split 2 (len compressed)) ->
  encode_line line tape = Ok (le_split 2 (len compressed) ++ compressed).
Proof.
  intros Hr Hpos Hpad Henc Hpack.
  rewrite (encode_line_margin line tape r Hr Hpos). rewrite Hpad.
  cbn [mbind Result_bind]. rewrite Henc.
  cbn [mbind Result_bind]. rewrite Hpack. reflexivity.
Qed.

(** The successful path of [encode_line], with every intermediate value:
    the padded buffer, its compression and the length prefix. *)
Lemma encode_line_parts (line : bytes) (tape : TapeInfo) (r : Z) :
  rmargin tape = Some r -> 0 <= r ->
  Z.shiftl (int_from_bytes_big line) r < 2 ^ 128 ->
  exists padded compressed,
    int_to_bytes_big 16 (Z.shiftl (int_from_bytes_big line) r) = Ok padded /\
    length padded = 16%nat /\
    int_from_bytes_big padded = Z.shiftl (int_from_bytes_big line) r /\
    PackBits.encode padded = Ok compressed /\
    PackBits.decode compressed = Ok padded /\
    (length compressed <= 32)%nat /\
    le_combine (le_split 2 (len compressed)) = len compressed /\
    encode_line line tape = Ok (le_split 2 (len compressed) ++ compressed) /\
    unpacks compressed padded.
Proof.
  intros Hr Hpos Hfit.
  pose proof (int_from_bytes_big_range line) as [Hline _].
  pose proof (shiftl_nonneg _ r Hline) as Hsh.
  destruct (int_to_bytes_big_Ok 16 (Z.shiftl (int_from_bytes_big line) r))
    as (Hpad & Hlen & Hback); [split; [exact Hsh | exact Hfit]|].
  destruct (encode_decode (rev (le_split 16 (Z.shiftl (int_from_bytes_big line) r))))
    as (compressed & Henc & Hdec & Hsize & Hunp).
  rewrite Hlen in Hsize.
  assert (Hc : 0 <= len compressed <= 65535) by (unfold len; lia).
  destruct (struct_pack_H_le_Ok _ Hc) as (Hpack & _ & Hle).
  eexists. exists compressed.
  split; [exact Hpad|]. split; [exact Hlen|]. split; [exact Hback|].
  split; [exact Henc|]. split; [exact Hdec|]. split; [lia|].
  split; [exact Hle|]. split; [|exact Hunp].
  exact (encode_line_compose line tape r _ compressed Hr Hpos Hpad Henc Hpack).
Qed.

(** [int.from_bytes(b, byteorder='big')] is the big-endian value of [b]. *)
Lemma lor_shiftl_add (a u k : Z) :
  0 <= k -> 0 <= a < 2 ^ k -> Z.lor a (Z.shiftl u k) = a + u * 2 ^ k.
Proof.
  intros Hk Ha. rewrite Z.shiftl_mul_pow2 by exact Hk.
  pose proof (Z.add_lor_land a (u * 2 ^ k)) as Hadd.
  assert (Hland : Z.land a (u * 2 ^ k) = 0).
  { apply Z.bits_inj'. intros n Hn. rewrite Z.land_spec, Z.bits_0.
    destruct (Z.lt_ge_cases n k) as [Hlt|Hge].
    - rewrite Z.mul_pow2_bits_low by exact Hlt. apply andb_false_r.
    - rewrite <- (Z.mod_small a (2 ^ k)) by exact Ha.
      rewrite Z.mod_pow2_bits_high by lia. reflexivity. }
  lia.
Qed.

Lemma int_from_bytes_big_digits (b : bytes) :
  int_from_bytes_big b = big_endian b.
Proof.
  unfold int_from_bytes_big.
  induction b as [|x rest IH]; [reflexivity|].
  cbn [rev big_endian]. rewrite le_combine_app, le_combine_1.
  pose proof (le_combine_bound (rev rest)) as Hb.
  rewrite lor_shiftl_add by (try lia; now rewrite Z.mul_comm).
  rewrite IH, length_rev. unfold len.
  replace (Z.of_nat (length rest) * 8) with (8 * Z.of_nat (length rest)) by lia.
  rewrite Z.pow_mul_r by lia. change (2 ^ 8) with 256. lia.
Qed.

Lemma encode_line_returns (line : bytes) (tape : TapeInfo) (r : Z) :
  rmargin tape = Some r -> 0 <= r ->
  Z.shiftl (int_from_bytes_big line) r < 2 ^ 128 ->
  exists out, encode_line line tape = Ok out.
Proof.
  intros Hr Hpos Hlt.
  destruct (encode_line_parts line tape r Hr Hpos Hlt)
    as (padded & compressed & _ & _ & _ & _ & _ & _ & _ & Hout & _).
  eauto.
Qed.

(** The failing path: a shifted integer of more than 128 bits makes the
    conversion to 16 bytes raise. *)
Lemma encode_line_raises (line : bytes) (tape : TapeInfo) (r : Z) :
  rmargin tape = Some r -> 0 <= r ->
  2 ^ 128 <= Z.shiftl (int_from_bytes_big line) r ->
  encode_line line tape = Err OverflowError.
Proof.
  intros Hr Hpos Hge. rewrite (encode_line_margin line tape r Hr Hpos).
  now rewrite int_to_bytes_big_overflow.
Qed.

(** C2. When the scanline, read as a big-endian unsigned integer (the
    first byte the most significant) and multiplied by 2 to the right
    margin, is below 2^128, [encode_line] returns [len 00] followed by
    [compressed], where [compressed] is what packbits makes of the 16
    bytes whose big-endian value is the shifted integer: a sequence of
    packets of the format that stands for these 16 bytes and decodes to
    them, at most 32 bytes long, so that the two length bytes, little
    end first, are its length and zero. *)
Theorem encode_line_fits (line : bytes) (tape : TapeInfo) (r : Z) :
  rmargin tape = Some r -> 0 <= r ->
  big_endian line * 2 ^ r < 2 ^ 128 ->
  exists padded compressed,
    length padded = 16%nat /\
    big_endian padded = big_endian line * 2 ^ r /\
    int_to_bytes_big 16 (big_endian line * 2 ^ r) = Ok padded /\
    PackBits.encode padded = Ok compressed /\
    PackBits.decode compressed = Ok padded /\
    unpacks compressed padded /\
    (length compressed <= 32)%nat /\
    encode_line line tape =
      Ok (byte.of_Z (len compressed) :: byte.of_Z 0 :: compressed).
Proof.
  intros Hr Hpos Hfit.
  assert (Hshift : Z.shiftl (int_from_bytes_big line) r =
                   big_endian line * 2 ^ r).
  { rewrite Z.shiftl_mul_pow2 by exact Hpos.
    now rewrite int_from_bytes_big_digits. }
  destruct (encode_line_parts line tape r Hr Hpos)
    as (padded & compressed & Hpad & Hlen & Hback & Henc & Hdec & Hsize &
        _ & Hout & Hunp); [now rewrite Hshift|].
  exists padded, compressed.
  split; [exact Hlen|].
  split; [now rewrite <- int_from_bytes_big_digits, Hback|].
  split; [now rewrite <- Hshift|].
  split; [exact Henc|]. split; [exact Hdec|]. split; [exact Hunp|].
  split; [exact Hsize|].
  assert (H8 : Z.shiftr (len compressed) 8 = 0).
  { rewrite Z.shiftr_div_pow2 by lia. change (2 ^ 8) with 256.
    apply Z.div_small. unfold len. lia. }
  rewrite Hout.
  change (le_split 2 (len compressed))
    with [byte.of_Z (len compressed); byte.of_Z (Z.shiftr (len compressed) 8)].
  rewrite H8. reflexivity.
Qed.

Lemma encode_line_fits_witness :
  exists padded compressed,
    padded = bytes_of [0; 0; 0; 0; 0; 0; 0; 0; 0; 0; 0; 0; 0x20; 0; 0; 0] /\
    compressed = bytes_of [0xF5; 0; 0; 0x20; 0xFE; 0] /\
    big_endian padded = 1 * 2 ^ 29 /\
    unpacks compressed padded /\
    encode_line (bytes_of [1]) tape_12 =
      Ok (bytes_of [6; 0; 0xF5; 0; 0; 0x20; 0xFE; 0]).
Proof.
  destruct (encode_line_fits (bytes_of [1]) tape_12 29)
    as (padded & compressed & _ & Hval & Hpad & _ & _ & Hunp & _ & Hout).
  - reflexivity.
  - lia.
  - vm_compute. reflexivity.
  - exists padded, compressed.
    vm_compute in Hpad. injection Hpad as Hpad.
    assert (Hc : compressed = bytes_of [0xF5; 0; 0; 0x20; 0xFE; 0]).
    { assert (H : encode_line (bytes_of [1]) tape_12 =
                  Ok (bytes_of [6; 0; 0xF5; 0; 0; 0x20; 0xFE; 0]))
        by (vm_compute; reflexivity).
      rewrite H in Hout.
      apply (f_equal (fun res => match res with
                                 | Ok l => drop 2 l
                                 | Err _ => []
                                 end)) in Hout.
      symmetry. exact Hout. }
    split; [now symmetry|]. split; [exact Hc|].
    split; [exact Hval|]. split; [exact Hunp|].
    rewrite Hout, Hc. vm_compute. reflexivity.
Defined.

(** C4, as the code has it.  With a margin [r >= 0], [encode_line] returns
    exactly when the shifted integer is below [2^128]; a larger one makes
    the conversion to 16 bytes raise [OverflowError], and nothing is cut
    off.  The length prefix never fails. *)
Theorem encode_line_overflow (line : bytes) (tape : TapeInfo) (r : Z) :
  rmargin tape = Some r -> 0 <= r ->
  (Z.shiftl (int_from_bytes_big line) r < 2 ^ 128 ->
   exists out, encode_line line tape = Ok out) /\
  (2 ^ 128 <= Z.shiftl (int_from_bytes_big line) r ->
   encode_line line tape = Err OverflowError) /\
  encode_line line tape <> Err EncodingOverflow.
Proof.
  intros Hr Hpos.
  assert (Hfit : Z.shiftl (int_from_bytes_big line) r < 2 ^ 128 ->
                 exists out, encode_line line tape = Ok out).
  { exact (encode_line_returns line tape r Hr Hpos). }
  assert (Hover : 2 ^ 128 <= Z.shiftl (int_from_bytes_big line) r ->
                  encode_line line tape = Err OverflowError).
  { exact (encode_line_raises line tape r Hr Hpos). }
  repeat split; try assumption.
  destruct (Z.lt_ge_cases (Z.shiftl (int_from_bytes_big line) r) (2 ^ 128)) as [Hlt|Hge].
  - destruct (Hfit Hlt) as [out ->]. discriminate.
  - rewrite (Hover Hge). discriminate.
Qed.

Lemma encode_line_overflow_witness :
  encode_line (replicate 16 (byte.of_Z 255)) tape_12 = Err OverflowError.
Proof.
  refine (proj1 (proj2 (encode_line_overflow
    (replicate 16 (byte.of_Z 255)) tape_12 29 _ _)) _).
  - reflexivity.
  - lia.
  - vm_compute. discriminate.
Defined.

(** C4, as stated, fails: a full-width scanline on 12 mm tape (margin 29)
    exceeds 16 bytes once shifted, and [encode_line] raises instead of
    truncating. *)
Lemma encode_line_total_counterexample :
  2 ^ 128 <= Z.shiftl (int_from_bytes_big (replicate 16 (byte.of_Z 255))) 29 /\
  ~ exists out, encode_line (replicate 16 (byte.of_Z 255)) tape_12 = Ok out.
Proof.
  split.
  - vm_compute. discriminate.
  - intros [out Hout]. vm_compute in Hout. discriminate.
Qed.

(** C3, as the code has it.  Whenever [encode_line] returns, decompressing
    what follows the two length bytes gives back exactly the 16-byte
    buffer that was compressed, and shifting that buffer's integer right
    by the margin gives back the scanline's integer. *)
Theorem encode_line_round_trip (line : bytes) (tape : TapeInfo) (out : bytes) :
  encode_line line tape = Ok out ->
  exists r padded,
    rmargin tape = Some r /\ 0 <= r /\
    int_to_bytes_big 16 (Z.shiftl (int_from_bytes_big line) r) = Ok padded /\
    length padded = 16%nat /\
    PackBits.decode (drop 2 out) = Ok padded /\
    Z.shiftr (int_from_bytes_big padded) r = int_from_bytes_big line.
Proof.
  intros Hout.
  destruct (encode_line_Ok_margin line tape out Hout) as (r & Hr & Hpos).
  exists r.
  destruct (Z.lt_ge_cases (Z.shiftl (int_from_bytes_big line) r) (2 ^ 128))
    as [Hlt|Hge].
  - pose proof (int_from_bytes_big_range line) as [Hline _].
    pose proof (shiftl_nonneg _ r Hline) as Hsh.
    destruct (int_to_bytes_big_Ok 16 (Z.shiftl (int_from_bytes_big line) r))
      as (Hpad & Hlen & Hback); [split; [exact Hsh | exact Hlt]|].
    destruct (encode_decode (rev (le_split 16 (Z.shiftl (int_from_bytes_big line) r))))
      as (compressed & Henc & Hdec & Hsize).
    rewrite Hlen in Hsize.
    assert (Hc : 0 <= len compressed <= 65535) by (unfold len; lia).
    destruct (struct_pack_H_le_Ok _ Hc) as (Hpack & Hplen & _).
    rewrite (encode_line_compose line tape r _ compressed Hr Hpos Hpad Henc Hpack)
      in Hout.
    injection Hout as Hout. subst out.
    eexists. split; [exact Hr|]. split; [exact Hpos|]. split; [exact Hpad|].
    split; [exact Hlen|]. split.
    + cbn [drop]. exact Hdec.
    + rewrite Hback, Z.shiftr_shiftl_l, Z.sub_diag by lia. apply Z.shiftl_0_r.
  - rewrite (encode_line_raises line tape r Hr Hpos Hge) in Hout.
    discriminate.
Qed.

Lemma encode_line_round_trip_witness :
  exists r padded,
    rmargin tape_12 = Some r /\ 0 <= r /\
    int_to_bytes_big 16 (Z.shiftl (int_from_bytes_big (bytes_of [1])) r) =
      Ok padded /\
    length padded = 16%nat /\
    PackBits.decode (drop 2 (bytes_of [6; 0; 245; 0; 0; 32; 254; 0])) =
      Ok padded /\
    Z.shiftr (int_from_bytes_big padded) r = int_from_bytes_big (bytes_of [1]).
Proof.
  apply (encode_line_round_trip (bytes_of [1]) tape_12).
  vm_compute. reflexivity.
Defined.

(** C3, as stated, fails: on 12 mm tape the scanline [01] gives the buffer
    [00 .. 00 20 00 00 00]; decompressing the payload and shifting right
    by 29 gives [00 .. 00 01], which is not that buffer. *)
Lemma round_trip_unshift_counterexample :
  exists out padded,
    encode_line (bytes_of [1]) tape_12 = Ok out /\
    int_to_bytes_big 16 (Z.shiftl (int_from_bytes_big (bytes_of [1])) 29) =
      Ok padded /\
    (buf ← PackBits.decode (drop 2 out);
     int_to_bytes_big 16 (Z.shiftr (int_from_bytes_big buf) 29)) <> Ok padded.
Proof.
  eexists. eexists. split; [vm_compute; reflexivity|].
  split; [vm_compute; reflexivity|].
  vm_compute. discriminate.
Qed.



(** ** The background poller *)

Lemma same_foreground_refl (p : P700) : same_foreground p p.
Proof. unfold same_foreground. auto. Qed.

Lemma same_foreground_trans (p q r : P700) :
  same_foreground p q -> same_foreground q r -> same_foreground p r.
Proof. unfold same_foreground. intuition congruence. Qed.

Lemma poller_iteration_frame (p : P700) :
  same_foreground p (poller_iteration p) /\
  poll_schedule (poller_iteration p) = poll_schedule p /\
  (status_thread (poller_iteration p) = status_thread p \/
   status_thread (poller_iteration p) = Exited).
Proof.
  unfold poller_iteration, io_read, same_foreground.
  destruct p as [w inc left st fl th cl sch del]. cbn.
  destruct inc as [|chunk rest]; cbn; [auto 10|].
  destruct (len (take 32 chunk) =? 32); [|cbn; auto 10].
  destruct (Status_init (take 32 chunk)); cbn; auto 10.
Qed.

Lemma _print_status_check_frame (n : nat) (p : P700) :
  same_foreground p (_print_status_check n p) /\
  poll_schedule (_print_status_check n p) = poll_schedule p /\
  (status_thread (_print_status_check n p) = status_thread p \/
   status_thread p = Alive /\ status_thread (_print_status_check n p) = Exited).
Proof.
  revert p. induction n as [|n IH]; intros p; cbn [_print_status_check].
  - split; [apply same_foreground_refl|]. auto.
  - destruct (status_thread p) eqn:Hth;
      try (split; [apply same_foreground_refl|]; auto).
    destruct (_check_print_status p) eqn:Hfl.
    + destruct (poller_iteration_frame p) as (Hf & Hs & Ht).
      destruct (IH (poller_iteration p)) as (Hf' & Hs' & Ht').
      split; [eapply same_foreground_trans; eassumption|].
      split; [congruence|].
      destruct Ht' as [Ht'|(Ha & He)].
      * destruct Ht as [Ht|Ht]; [left|right]; intuition congruence.
      * right. auto.
    + destruct p; cbn in *. unfold same_foreground; cbn. auto 10.
Qed.

Lemma _print_status_check_started (n : nat) (p : P700) :
  started p -> started (_print_status_check n p).
Proof.
  intros Hs. destruct (_print_status_check_frame n p) as (_ & _ & [Ht|(Ha & He)]).
  - unfold started in *. now rewrite Ht.
  - right. exact He.
Qed.

(** Once the flag is down, the loop of the poller ends at its next test. *)
Lemma _print_status_check_stops (n : nat) (p : P700) :
  _check_print_status p = false ->
  status_thread (_print_status_check (S n) p) <> Alive.
Proof.
  intros Hfl. cbn [_print_status_check].
  destruct (status_thread p) eqn:Hth; try congruence.
  rewrite Hfl. destruct p; cbn. discriminate.
Qed.

(** ** Steps of the foreground *)

Lemma yield_run (p : P700) :
  exists q, yield p = (Returns tt, q) /\ same_foreground p q /\
            (started p -> started q) /\
            (status_thread q = status_thread p \/ status_thread q = Exited).
Proof.
  unfold yield. destruct (poll_schedule p) as [|n rest] eqn:Hs.
  - exists p. split; [reflexivity|]. split; [apply same_foreground_refl|]. auto.
  - eexists. split; [reflexivity|].
    destruct (_print_status_check_frame n (set_poll_schedule rest p))
      as (Hf & _ & Ht).
    split; [|split].
    + destruct p; cbn in *. exact Hf.
    + intros Hst. apply _print_status_check_started.
      destruct p; cbn in *. exact Hst.
    + destruct p; cbn in *. tauto.
Qed.

Lemma time_sleep_run (ms : Z) (p : P700) :
  exists q, time_sleep ms p = (Returns tt, q) /\
            clock p + ms <= clock q /\
            io_written q = io_written p /\
            io_writes_left q = io_writes_left p /\
            _check_print_status q = _check_print_status p /\
            status_thread q = status_thread p /\
            status q = status p /\
            io_incoming q = io_incoming p.
Proof.
  unfold time_sleep. destruct (sleep_delay p) as [|d rest];
    eexists; (split; [reflexivity|]); destruct p; cbn; repeat split; lia.
Qed.

(** ** What the poller has done between two states *)

Lemma polled_refl (p : P700) : polled p p.
Proof. exists 0%nat. split; [reflexivity|now left]. Qed.

Lemma polled_same (p q : P700) :
  status q = status p -> io_incoming q = io_incoming p -> polled p q.
Proof. intros Hs Hi. exists 0%nat. split; [exact Hi|now left]. Qed.

Lemma polled_trans (p q r : P700) : polled p q -> polled q r -> polled p r.
Proof.
  intros (k1 & Hi1 & Hs1) (k2 & Hi2 & Hs2).
  exists (k1 + k2)%nat. split.
  - rewrite Hi2, Hi1. apply drop_drop.
  - rewrite <- take_take_drop.
    destruct Hs2 as [Hs2|(f & Hin & Hlen & Hdec)].
    + rewrite Hs2. destruct Hs1 as [Hs1|(f & Hin & Hlen & Hdec)]; [now left|].
      right. exists f. split; [apply in_or_app; now left|auto].
    + right. exists f. split; [|auto].
      apply in_or_app. right. now rewrite <- Hi1.
Qed.

Lemma polled_silent (p q : P700) :
  polled p q -> io_incoming p = [] ->
  status q = status p /\ io_incoming q = [].
Proof.
  intros (k & Hi & Hs) Hnil. rewrite Hnil in Hi, Hs.
  rewrite drop_nil in Hi. rewrite take_nil in Hs.
  split; [|exact Hi]. destruct Hs as [Hs|(f & [] & _)]. exact Hs.
Qed.

Lemma poller_iteration_polled (p : P700) : polled p (poller_iteration p).
Proof.
  unfold poller_iteration, io_read.
  destruct p as [w inc left st fl th cl sch del]. cbn.
  destruct inc as [|chunk rest]; cbn.
  { exists 0%nat. split; [reflexivity|now left]. }
  exists 1%nat.
  destruct (Z.eqb_spec (len (take 32 chunk)) 32) as [H32|];
    [|cbn; split; [reflexivity|now left]].
  destruct (Status_init (take 32 chunk)) as [s|e] eqn:Hs; cbn;
    [|split; [reflexivity|now left]].
  split; [reflexivity|]. right. exists chunk.
  split; [now left|]. split; [unfold len in H32; lia|exact Hs].
Qed.

Lemma _print_status_check_polled (n : nat) (p : P700) :
  polled p (_print_status_check n p).
Proof.
  revert p. induction n as [|n IH]; intros p; cbn [_print_status_check].
  - apply polled_refl.
  - destruct (status_thread p); try apply polled_refl.
    destruct (_check_print_status p).
    + eapply polled_trans; [apply poller_iteration_polled|apply IH].
    + apply polled_same; destruct p; reflexivity.
Qed.

Lemma yield_polled (p : P700) : polled p (yield p).2.
Proof.
  unfold yield. destruct (poll_schedule p) as [|n rest]; cbn [snd].
  - apply polled_refl.
  - eapply polled_trans; [|apply _print_status_check_polled].
    apply polled_same; destruct p; reflexivity.
Qed.

(** ** The tests of the waiting loops *)

Lemma read_status_run (p : P700) :
  exists q, read_status p = (Returns (status q), q) /\
            yield p = (Returns tt, q).
Proof.
  unfold read_status, mbind, M_bind, gets.
  destruct (yield_run p) as (q & Hy & _). rewrite Hy. eauto.
Qed.

Lemma receiving_test_ok : wait_test receiving_test receiving_seen.
Proof.
  intros p. unfold receiving_test. unfold mbind at 1. unfold M_bind at 1.
  destruct (read_status_run p) as (q & -> & Hy).
  destruct (yield_run p) as (q0 & Hy0 & Hf & Hst & _).
  rewrite Hy in Hy0. injection Hy0 as <-.
  pose proof (yield_polled p) as Hp. rewrite Hy in Hp. cbn [snd] in Hp.
  destruct (bool_decide (data (status q) !! "status_type" = Some 6)) eqn:H6.
  - unfold mbind, M_bind.
    destruct (read_status_run q) as (r & -> & Hy').
    destruct (yield_run q) as (r0 & Hy0 & Hf' & Hst' & _).
    rewrite Hy' in Hy0. injection Hy0 as <-.
    pose proof (yield_polled q) as Hp'. rewrite Hy' in Hp'. cbn [snd] in Hp'.
    cbn [mret M_ret]. eexists. exists r. split; [reflexivity|].
    split; [eapply same_foreground_trans; eassumption|].
    split; [auto|]. split; [eapply polled_trans; eassumption|].
    intros H0. apply bool_decide_eq_true in H0, H6.
    split; [exact H0|]. exists q. auto.
  - cbn [mret M_ret]. exists false, q. split; [reflexivity|].
    split; [exact Hf|]. split; [exact Hst|]. split; [exact Hp|].
    discriminate.
Qed.

Lemma printing_test_ok : wait_test printing_test printing_seen.
Proof.
  intros p. unfold printing_test, mbind, M_bind.
  destruct (read_status_run p) as (q & -> & Hy).
  destruct (yield_run p) as (q0 & Hy0 & Hf & Hst & _).
  rewrite Hy in Hy0. injection Hy0 as <-.
  pose proof (yield_polled p) as Hp. rewrite Hy in Hp. cbn [snd] in Hp.
  cbn [mret M_ret]. eexists. exists q. split; [reflexivity|].
  split; [exact Hf|]. split; [exact Hst|]. split; [exact Hp|].
  intros H1. apply bool_decide_eq_true in H1. exact H1.
Qed.

(** ** The waiting loops *)

Lemma past_deadline_bounds (start now : Z) :
  (past_deadline start now = true -> start + 20000 <= now) /\
  (past_deadline start now = false -> now <= start + 20000).
Proof.
  unfold past_deadline.
  destruct (Z.gtb_spec now (start + 20000)),
           (Z.ltb_spec now (start + 20000));
    split; intros; try discriminate; lia.
Qed.

Lemma wait_until_S (fuel : nat) (test : M bool) (err : PyError) (start : Z)
    (p : P700) :
  wait_until (S fuel) test err start p =
  match test p with
  | (Returns true, q) => (Returns tt, q)
  | (Returns false, q) =>
      let q' := (yield (time_sleep 100 q).2).2 in
      if past_deadline start (clock q') then (Raises err, q')
      else wait_until fuel test err start q'
  | (Raises e, q) => (Raises e, q)
  | (Blocks, q) => (Blocks, q)
  end.
Proof.
  cbn [wait_until]. unfold mbind at 1. unfold M_bind at 1.
  destruct (test p) as [[[|]|e|] q]; try reflexivity.
  unfold mbind, M_bind, time_time, gets.
  destruct (time_sleep_run 100 q) as (q1 & Hs & _). rewrite Hs. cbn [snd].
  destruct (yield_run q1) as (q2 & Hy & _). rewrite Hy. cbn [snd].
  destruct (past_deadline start (clock q2)); reflexivity.
Qed.

Section Waiting.

Variable test : M bool.
Variable holds : P700 -> P700 -> Prop.
Hypothesis Htest : wait_test test holds.
Variable err : PyError.

(** A waiting loop that starts not later than its deadline with enough
    turns left ends: either its test passed, on a poll not later than the
    deadline, or it raises its timeout at a reading past the deadline.  It
    writes nothing, leaves the stop flag alone, and all that happens to
    [self.status] is the poller's doing. *)
Lemma wait_until_spec (start : Z) (fuel : nat) :
  forall p,
    clock p <= start + 20000 ->
    start + 20000 - clock p < 100 * Z.of_nat fuel ->
    (((wait_until fuel test err start p).1 = Returns tt /\
      (exists p', polled p p' /\
                  holds p' (wait_until fuel test err start p).2) /\
      clock (wait_until fuel test err start p).2 <= start + 20000) \/
     ((wait_until fuel test err start p).1 = Raises err /\
      past_deadline start (clock (wait_until fuel test err start p).2)
        = true)) /\
    io_written (wait_until fuel test err start p).2 = io_written p /\
    io_writes_left (wait_until fuel test err start p).2 = io_writes_left p /\
    _check_print_status (wait_until fuel test err start p).2 =
      _check_print_status p /\
    (started p -> started (wait_until fuel test err start p).2) /\
    polled p (wait_until fuel test err start p).2.
Proof.
  induction fuel as [|fuel' IH]; intros p Hclock Hfuel; [lia|].
  rewrite wait_until_S.
  destruct (Htest p)
    as (b & q & -> & (Hw & Hl & Hf & Hc & _) & Hst & Hpo & Hb).
  destruct b.
  - cbn [fst snd]. split.
    + left. split; [reflexivity|]. split; [|lia].
      exists p. split; [apply polled_refl|now apply Hb].
    + auto.
  - destruct (time_sleep_run 100 q)
      as (q1 & Hs & Hc1 & Hw1 & Hl1 & Hf1 & Ht1 & Hs1 & Hi1).
    rewrite Hs. cbn [snd].
    destruct (yield_run q1) as (q2 & Hy & (Hw2 & Hl2 & Hf2 & Hc2 & _) & Hst2 & _).
    pose proof (yield_polled q1) as Hpo2.
    rewrite Hy in Hpo2 |- *. cbn [snd] in Hpo2 |- *. cbv zeta.
    assert (Hpq : polled p q2).
    { eapply polled_trans; [exact Hpo|].
      eapply polled_trans; [|exact Hpo2]. now apply polled_same. }
    assert (Hstq : started p -> started q2).
    { intros H. apply Hst2. unfold started in *. rewrite Ht1. now apply Hst. }
    destruct (past_deadline start (clock q2)) eqn:Hpast.
    + cbn [fst snd]. split; [right; split; [reflexivity|exact Hpast]|].
      repeat split; try congruence; assumption.
    + destruct (past_deadline_bounds start (clock q2)) as [_ Hle].
      specialize (Hle Hpast).
      destruct (IH q2) as (Hres & Hw3 & Hl3 & Hf3 & Hst3 & Hpo3); [lia|lia|].
      split.
      * destruct Hres as [(Hr & (p' & Hpp & Hh) & Hck)|Hr]; [left|now right].
        split; [exact Hr|]. split; [|exact Hck].
        exists p'. split; [eapply polled_trans; eassumption|exact Hh].
      * repeat split; try congruence; [auto|].
        eapply polled_trans; eassumption.
Qed.


(** The wait as [_raw_print] enters it, with [end = time.time() + 20]:
    it comes back, by returning or by raising its timeout. *)
Lemma timed_wait_spec (p : P700) :
  (((start ← time_time; wait_until WAIT_TURNS test err start) p).1
     = Returns tt \/
   ((start ← time_time; wait_until WAIT_TURNS test err start) p).1
     = Raises err) /\
  io_written ((start ← time_time; wait_until WAIT_TURNS test err start) p).2
    = io_written p /\
  (started p ->
   started ((start ← time_time; wait_until WAIT_TURNS test err start) p).2) /\
  polled p ((start ← time_time; wait_until WAIT_TURNS test err start) p).2.
Proof.
  unfold mbind, M_bind, time_time, gets.
  destruct (wait_until_spec (clock p) WAIT_TURNS p)
    as (Hres & Hw & _ & _ & Hst & Hpo); [lia|unfold WAIT_TURNS; lia|].
  split; [|auto].
  destruct Hres as [(Hr & _)|(Hr & _)]; auto.
Qed.

End Waiting.

Lemma io_write_run (d : bytes) (p : P700) :
  (io_write d p = (Raises (IOError "write failed"), p) /\
   io_writes_left p = Some 0%nat) \/
  (exists q, io_write d p = (Returns tt, q) /\
     io_writes_left p <> Some 0%nat /\
     io_written q = io_written p ++ [d] /\
     clock q = clock p /\ status q = status p /\
     status_thread q = status_thread p /\
     _check_print_status q = _check_print_status p /\
     io_incoming q = io_incoming p /\
     poll_schedule q = poll_schedule p /\
     sleep_delay q = sleep_delay p).
Proof.
  unfold io_write. destruct (io_writes_left p) as [[|n]|] eqn:Hl.
  - left. auto.
  - right. eexists. split; [reflexivity|]. destruct p; cbn in *.
    repeat split; congruence.
  - right. eexists. split; [reflexivity|]. destruct p; cbn in *.
    repeat split; congruence.
Qed.

Lemma comes_back_ret {A : Type} (a : A) : comes_back (mret a).
Proof. intros p Hs. cbn. split; [discriminate|exact Hs]. Qed.

Lemma comes_back_raise {A : Type} (e : PyError) : comes_back (@raise A e).
Proof. intros p Hs. cbn. split; [discriminate|exact Hs]. Qed.

Lemma comes_back_lift {A : Type} (r : Result A) : comes_back (lift r).
Proof. destruct r; [apply comes_back_ret | apply comes_back_raise]. Qed.

Lemma comes_back_bind {A B : Type} (m : M A) (f : A -> M B) :
  comes_back m -> (forall a, comes_back (f a)) -> comes_back (m ≫= f).
Proof.
  intros Hm Hf p Hs. unfold mbind, M_bind.
  destruct (Hm p Hs) as [Hb Hs']. destruct (m p) as [[a|e|] q]; cbn in *.
  - apply Hf. exact Hs'.
  - split; [discriminate|exact Hs'].
  - congruence.
Qed.

Lemma comes_back_io_write (d : bytes) : comes_back (io_write d).
Proof.
  intros p Hs. destruct (io_write_run d p) as [[-> _]|(q & -> & _ & _ & _ & _ & Ht & _)].
  - cbn. split; [discriminate|exact Hs].
  - cbn. split; [discriminate|]. unfold started in *. now rewrite Ht.
Qed.

Lemma comes_back_timed_wait (test : M bool) (holds : P700 -> P700 -> Prop)
    (err : PyError) :
  wait_test test holds ->
  comes_back (start ← time_time; wait_until WAIT_TURNS test err start).
Proof.
  intros Htest p Hs.
  destruct (timed_wait_spec test holds Htest err p) as (Hres & _ & Hst & _).
  split; [|now apply Hst].
  destruct Hres as [-> | ->]; discriminate.
Qed.

Lemma comes_back_write_lines (status : Status) (document : list bytes) :
  comes_back (write_lines status document).
Proof.
  induction document as [|line rest IH]; cbn [write_lines].
  - apply comes_back_ret.
  - apply comes_back_bind; [apply comes_back_lift|]. intros enc.
    apply comes_back_bind; [apply comes_back_io_write|]. intros _. exact IH.
Qed.

Lemma comes_back_advance_page : comes_back advance_page.
Proof.
  apply comes_back_bind; [apply comes_back_io_write|]. intros _.
  exact (comes_back_timed_wait _ _ _ receiving_test_ok).
Qed.

Lemma comes_back_finish_job : comes_back finish_job.
Proof.
  apply comes_back_bind; [apply comes_back_io_write|]. intros _.
  exact (comes_back_timed_wait _ _ _ printing_test_ok).
Qed.

Lemma comes_back_print_pages (status : Status) (documents : list (list bytes)) :
  comes_back (print_pages status documents).
Proof.
  induction documents as [|document rest IH]; cbn [print_pages].
  - apply comes_back_ret.
  - apply comes_back_bind; [apply comes_back_write_lines|]. intros _.
    apply comes_back_bind; [apply comes_back_io_write|]. intros _.
    apply comes_back_bind; [|intros _; exact IH].
    destruct rest; [apply comes_back_ret | apply comes_back_advance_page].
Qed.

(** The [finally] clause: with the thread started it returns, the flag is
    down and the thread is joined. *)
Lemma cleanup_joins (p : P700) :
  started p ->
  exists q,
    (_ ← yield; _ ← modify (set_check_print_status false); thread_join) p =
      (Returns tt, q) /\
    status_thread q = Joined /\ _check_print_status q = false /\
    io_written q = io_written p /\ clock q = clock p.
Proof.
  intros Hs. unfold mbind, M_bind, modify.
  destruct (yield_run p) as (q & -> & (Hw & _ & _ & Hc & _) & Hst & _).
  specialize (Hst Hs).
  set (q1 := set_check_print_status false q).
  assert (Hfl : _check_print_status q1 = false) by (destruct q; reflexivity).
  assert (Hth : status_thread q1 = status_thread q) by (destruct q; reflexivity).
  assert (Hw1 : io_written q1 = io_written q) by (destruct q; reflexivity).
  assert (Hc1 : clock q1 = clock q) by (destruct q; reflexivity).
  unfold thread_join.
  pose proof (_print_status_check_stops (length (io_incoming q1)) q1 Hfl) as Hstop.
  destruct (_print_status_check_frame (S (length (io_incoming q1))) q1)
    as ((Hw2 & _ & Hf2 & Hc2 & _) & _ & _).
  set (q2 := _print_status_check (S (length (io_incoming q1))) q1) in *.
  assert (Hq1 : status_thread q1 <> NotStarted).
  { rewrite Hth. destruct Hst as [-> | ->]; discriminate. }
  destruct (status_thread q1) eqn:E1; [congruence| | |];
    (destruct (status_thread q2) eqn:E2; [| congruence | |];
     (eexists; split; [reflexivity|]; destruct q2; cbn in *;
      repeat split; congruence)).
Qed.

Lemma try_finally_joins {A : Type} (body : M A) (p : P700) :
  comes_back body -> started p ->
  exists q,
    try_finally body
      (_ ← yield; _ ← modify (set_check_print_status false); thread_join) p =
      ((body p).1, q) /\
    (body p).1 <> Blocks /\
    status_thread q = Joined /\ _check_print_status q = false /\
    io_written q = io_written (body p).2 /\ clock q = clock (body p).2.
Proof.
  intros Hbody Hs. unfold try_finally.
  destruct (Hbody p Hs) as [Hb Hs'].
  destruct (body p) as [[a|e|] p1]; cbn in *; [| |congruence];
    destruct (cleanup_joins p1 Hs') as (q & -> & Ht & Hf & Hw & Hc);
    exists q; repeat split; auto; discriminate.
Qed.

Lemma connect_run (p : P700) :
  (connect p).1 <> Blocks /\
  status_thread (connect p).2 = status_thread p /\
  _check_print_status (connect p).2 = _check_print_status p.
Proof.
  unfold connect, mbind, M_bind.
  destruct (io_write_run (replicate 100 (byte.of_Z 0)) p)
    as [[-> _]|(q & -> & _ & _ & _ & _ & Ht & Hf & _)].
  - cbn. split; [discriminate|]. auto.
  - destruct (io_write_run (bytes_of [27; 64]) q)
      as [[-> _]|(q' & -> & _ & _ & _ & _ & Ht' & Hf' & _)]; cbn.
    + split; [discriminate|]. auto.
    + split; [discriminate|]. split; congruence.
Qed.

Lemma comes_back_print_body (status : Status) (documents : list (list bytes)) :
  comes_back
    (_ ← set_raster_mode;
     _ ← set_various_mode true false;
     _ ← set_advanced_mode true false false;
     _ ← set_margin 14;
     _ ← set_compression_mode true;
     _ ← print_pages status documents;
     finish_job).
Proof.
  apply comes_back_bind; [apply comes_back_io_write|]. intros _.
  apply comes_back_bind; [apply comes_back_io_write|]. intros _.
  apply comes_back_bind; [apply comes_back_io_write|]. intros _.
  apply comes_back_bind.
  { apply comes_back_bind; [apply comes_back_lift|]. intros m.
    apply comes_back_io_write. }
  intros _.
  apply comes_back_bind; [apply comes_back_io_write|]. intros _.
  apply comes_back_bind; [apply comes_back_print_pages|]. intros _.
  apply comes_back_finish_job.
Qed.

Lemma raw_print_unfold (status : Status) (documents : list (list bytes))
    (p : P700) :
  _raw_print status documents p =
  match connect p with
  | (Returns _, p1) =>
      try_finally
        (_ ← set_raster_mode;
         _ ← set_various_mode true false;
         _ ← set_advanced_mode true false false;
         _ ← set_margin 14;
         _ ← set_compression_mode true;
         _ ← print_pages status documents;
         finish_job)
        (_ ← yield; _ ← modify (set_check_print_status false); thread_join)
        (set_status_thread Alive (set_check_print_status true p1))
  | (Raises e, p1) => (Raises e, p1)
  | (Blocks, p1) => (Blocks, p1)
  end.
Proof.
  unfold _raw_print. unfold mbind at 1. unfold M_bind at 1.
  destruct (connect p) as [[[]|e|] p1]; reflexivity.
Qed.

(** [_raw_print] comes back on every path.  If [connect] raised, no thread
    was started; otherwise the thread is joined and the flag is down,
    whatever the [try] block did. *)
Lemma raw_print_joins (status : Status) (documents : list (list bytes))
    (p : P700) :
  (_raw_print status documents p).1 <> Blocks /\
  (((connect p).1 = Returns tt /\
    status_thread (_raw_print status documents p).2 = Joined /\
    _check_print_status (_raw_print status documents p).2 = false) \/
   ((connect p).1 <> Returns tt /\
    status_thread (_raw_print status documents p).2 = status_thread p /\
    _check_print_status (_raw_print status documents p).2 =
      _check_print_status p)).
Proof.
  rewrite raw_print_unfold.
  destruct (connect_run p) as (Hb & Ht & Hf).
  destruct (connect p) as [[[]|e|] p1]; cbn [fst snd] in *; [| |congruence].
  - set (p2 := set_status_thread Alive (set_check_print_status true p1)).
    assert (Hs : started p2) by (left; destruct p1; reflexivity).
    destruct (try_finally_joins _ p2 (comes_back_print_body status documents) Hs)
      as (q & -> & Hnb & Hj & Hfl & _).
    cbn [fst snd]. split; [exact Hnb|]. left. auto.
  - split; [discriminate|]. right. split; [discriminate|]. auto.
Qed.

Lemma get_status_frame (p : P700) :
  (get_status p).1 <> Blocks /\
  status_thread (get_status p).2 = status_thread p /\
  _check_print_status (get_status p).2 = _check_print_status p.
Proof.
  unfold get_status, mbind, M_bind.
  destruct (io_write_run (bytes_of [27; 105; 83]) p)
    as [[-> _]|(q & -> & _ & _ & _ & _ & Ht & Hf & _)].
  - cbn. split; [discriminate|]. auto.
  - unfold io_read. destruct (io_incoming q) as [|chunk rest]; cbn.
    + split; [discriminate|]. auto.
    + destruct (len (take 32 chunk) =? 0); cbn.
      * split; [discriminate|]. destruct q; cbn in *. auto.
      * destruct (len (take 32 chunk) <? 32); cbn.
        -- split; [discriminate|]. destruct q; cbn in *. auto.
        -- unfold lift. destruct (Status_init (take 32 chunk)); cbn;
             (split; [discriminate|]); destruct q; cbn in *; auto.
Qed.

Lemma print_label_unfold (label : Label) (copies : nat) (p : P700) :
  print_label label copies p =
  match get_status p with
  | (Returns s, p1) =>
      if negb (ready s) then (Raises PrinterNotReady, set_status s p1)
      else
        match render label (printarea (tape_info s)) with
        | Err e => (Raises e, set_status s p1)
        | Ok img =>
            if negb (mode_is_1 img)
            then (Raises (ValueError "render output has invalid mode '1'"),
                  set_status s p1)
            else
              match _raw_print s
                      (create_copies (tobytes img) (ceil_div8 (size_0 img)) copies)
                      (set_status s p1) with
              | (Returns _, p3) => get_status p3
              | (Raises e, p3) => (Raises e, p3)
              | (Blocks, p3) => (Blocks, p3)
              end
        end
  | (Raises e, p1) => (Raises e, p1)
  | (Blocks, p1) => (Blocks, p1)
  end.
Proof.
  unfold print_label. unfold mbind at 1. unfold M_bind at 1.
  destruct (get_status p) as [[s|e|] p1]; try reflexivity.
  unfold mbind at 1. unfold M_bind at 1. unfold modify. cbn iota beta.
  destruct (negb (ready s)); [reflexivity|].
  unfold mbind at 1. unfold M_bind at 1. unfold lift.
  destruct (render label (printarea (tape_info s))) as [img|e]; [|reflexivity].
  cbn iota beta. unfold mret, M_ret.
  destruct (negb (mode_is_1 img)); reflexivity.
Qed.

Lemma get_status_written (p p1 : P700) (s : Status) :
  get_status p = (Returns s, p1) ->
  io_written p1 = io_written p ++ [bytes_of [0x1B; 0x69; 0x53]].
Proof.
  unfold get_status, mbind, M_bind.
  destruct (io_write_run (bytes_of [27; 105; 83]) p)
    as [[-> _]|(q & -> & _ & Hw & _)]; [discriminate|].
  unfold io_read. destruct (io_incoming q) as [|chunk rest]; cbn.
  - discriminate.
  - destruct (len (take 32 chunk) =? 0); [discriminate|].
    destruct (len (take 32 chunk) <? 32); [discriminate|].
    unfold lift. destruct (Status_init (take 32 chunk)); cbn; [|discriminate].
    intros H. inversion H; subst. destruct q; cbn in *. exact Hw.
Qed.

(** C8, as the code has it.  When the status just queried is not ready,
    [print_label] raises [PrinterNotReady] in the state the query left
    (with [self.status] set): the status request of the query is the one
    write of the call, and after it nothing is written, no print command
    and no scanline; no poller is started. *)
Theorem print_label_not_ready (label : Label) (copies : nat) (p p1 : P700)
    (s : Status) :
  get_status p = (Returns s, p1) ->
  ready s = false ->
  print_label label copies p = (Raises PrinterNotReady, set_status s p1) /\
  io_written (print_label label copies p).2 = io_written p1 /\
  io_written p1 = io_written p ++ [bytes_of [0x1B; 0x69; 0x53]] /\
  status_thread (print_label label copies p).2 = status_thread p.
Proof.
  intros Hget Hready. rewrite print_label_unfold, Hget, Hready. cbn [negb].
  split; [reflexivity|]. cbn [snd].
  split; [destruct p1; reflexivity|].
  split; [exact (get_status_written p p1 s Hget)|].
  destruct (get_status_frame p) as (_ & Ht & _). rewrite Hget in Ht.
  destruct p1; cbn in *. exact Ht.
Qed.

Lemma print_label_not_ready_witness :
  print_label blank_label 1 (example_printer [example_frame 12 1 0 0 0] []) =
  (Raises PrinterNotReady,
   set_status (decoded (example_frame 12 1 0 0 0))
     (get_status (example_printer [example_frame 12 1 0 0 0] [])).2).
Proof.
  refine (proj1 (print_label_not_ready blank_label 1
    (example_printer [example_frame 12 1 0 0 0] []) _ _ _ _)).
  - vm_compute. reflexivity.
  - vm_compute. reflexivity.
Defined.

(** C8, as stated, fails: the status query is part of the call, so a
    call that finds the printer not ready has written the status request
    [1B 69 53] to the transport before it raises. *)
Lemma print_label_not_ready_write_counterexample :
  (print_label blank_label 1
     (example_printer [example_frame 12 1 0 0 0] [])).1 =
    Raises PrinterNotReady /\
  io_written (example_printer [example_frame 12 1 0 0 0] []) = [] /\
  io_written
    (print_label blank_label 1
       (example_printer [example_frame 12 1 0 0 0] [])).2 =
    [bytes_of [0x1B; 0x69; 0x53]].
Proof. vm_compute. repeat split. Qed.

(** C9. A print call made while no poller is around comes back, by
    returning or by raising, with no poller around: where [_raw_print] got
    past [connect], the thread it started has been told to stop and has
    been joined. *)
Theorem poller_stopped_on_every_exit (label : Label) (copies : nat)
    (status : Status) (documents : list (list bytes)) (p : P700) :
  idle p ->
  ((print_label label copies p).1 <> Blocks /\
   idle (print_label label copies p).2) /\
  ((_raw_print status documents p).1 <> Blocks /\
   idle (_raw_print status documents p).2 /\
   ((connect p).1 = Returns tt ->
    status_thread (_raw_print status documents p).2 = Joined)).
Proof.
  assert (Hraw : forall st docs q, idle q ->
            (_raw_print st docs q).1 <> Blocks /\
            idle (_raw_print st docs q).2 /\
            ((connect q).1 = Returns tt ->
             status_thread (_raw_print st docs q).2 = Joined)).
  { intros st docs q [Hth Hfl].
    destruct (raw_print_joins st docs q)
      as (Hb & [(Hc & Hj & Hf)|(Hc & Ht & Hf)]).
    - split; [exact Hb|]. split; [split; auto|]. auto.
    - split; [exact Hb|]. split; [split; congruence|]. congruence. }
  intros Hidle. split; [|apply Hraw; exact Hidle].
  rewrite print_label_unfold.
  destruct (get_status_frame p) as (Hb & Ht & Hf).
  destruct Hidle as [Hth Hfl].
  destruct (get_status p) as [[s|e|] p1]; cbn [fst snd] in *; [| |congruence].
  - assert (Hi : idle (set_status s p1)).
    { split; destruct p1; cbn in *; congruence. }
    destruct (negb (ready s)); [split; [discriminate|exact Hi]|].
    destruct (render label (printarea (tape_info s))) as [img|e];
      [|split; [discriminate|exact Hi]].
    destruct (negb (mode_is_1 img)); [split; [discriminate|exact Hi]|].
    destruct (Hraw s (create_copies (tobytes img) (ceil_div8 (size_0 img)) copies)
                _ Hi) as (Hb3 & [Hth3 Hfl3] & _).
    destruct (_raw_print s _ (set_status s p1)) as [[[]|e|] p3];
      cbn [fst snd] in *; [| |congruence].
    + destruct (get_status_frame p3) as (Hb4 & Ht4 & Hf4).
      split; [exact Hb4|]. split; congruence.
    + split; [discriminate|]. split; assumption.
  - split; [discriminate|]. split; congruence.
Qed.

Lemma poller_stopped_on_every_exit_witness :
  ((print_label blank_label 2
      (example_printer [phase_frame 0 0 0 0; phase_frame 6 1 0 0] [1%nat])).1
     <> Blocks /\
   idle (print_label blank_label 2
      (example_printer [phase_frame 0 0 0 0; phase_frame 6 1 0 0] [1%nat])).2) /\
  ((_raw_print blank_status two_blank_pages
      (example_printer [phase_frame 0 0 0 0; phase_frame 6 1 0 0] [1%nat])).1
     <> Blocks /\
   idle (_raw_print blank_status two_blank_pages
      (example_printer [phase_frame 0 0 0 0; phase_frame 6 1 0 0] [1%nat])).2 /\
   ((connect
       (example_printer [phase_frame 0 0 0 0; phase_frame 6 1 0 0] [1%nat])).1
      = Returns tt ->
    status_thread (_raw_print blank_status two_blank_pages
      (example_printer [phase_frame 0 0 0 0; phase_frame 6 1 0 0] [1%nat])).2
      = Joined)).
Proof.
  apply (poller_stopped_on_every_exit blank_label 2 blank_status two_blank_pages
           (example_printer [phase_frame 0 0 0 0; phase_frame 6 1 0 0] [1%nat])).
  split; [left; reflexivity | reflexivity].
Defined.

(** ** The wait between two pages *)






(** The two loads of one poll can see two statuses.  With the frames
    (type 6, phase 1) and (type 1, phase 0) arriving one before each load,
    the wait ends at its first poll although no status ever showed the
    receiving state; [self.status] then shows status type 1. *)
Lemma advance_page_torn_read :
  (advance_page
     (polling_printer [phase_frame 6 1 0 0; phase_frame 1 0 0 0]
        [1%nat; 1%nat])).1 = Returns tt /\
  receiving_state (decoded (phase_frame 6 1 0 0)) = false /\
  receiving_state (decoded (phase_frame 1 0 0 0)) = false /\
  data (status
          (advance_page
             (polling_printer [phase_frame 6 1 0 0; phase_frame 1 0 0 0]
                [1%nat; 1%nat])).2) !! "status_type" = Some 1 /\
  clock (advance_page
           (polling_printer [phase_frame 6 1 0 0; phase_frame 1 0 0 0]
              [1%nat; 1%nat])).2 = 0.
Proof. vm_compute. repeat split. Qed.

(** The deadline is a rounded sum.  Started at 0.577 s, a wait that polls
    every 100 ms to the millisecond raises at the reading 20.577 s, after
    20 s exactly; started at 0 s it polls once more and raises at
    20.1 s. *)
Lemma deadline_rounding :
  float_past_deadline 577 20577 = true /\
  float_past_deadline 0 20000 = false /\
  clock (advance_page
           (mkP700 [] [] None blank_status true Alive 577 [] [])).2 = 20577 /\
  clock (advance_page
           (mkP700 [] [] None blank_status true Alive 0 [] [])).2 = 20100.
Proof. vm_compute. repeat split. Qed.

(** On sample clocks, from 0 to the year 2100, the test on the clock is
    the binary64 comparison, a millisecond before the deadline, on it,
    and after it. *)
Lemma past_deadline_is_binary64_on_samples :
  forallb
    (fun start =>
       forallb
         (fun d =>
            Bool.eqb (past_deadline start (start + d))
              (float_past_deadline start (start + d)))
         [0; 100; 19900; 19999; 20000; 20001; 20100])
    [0; 577; 702; 827; 952; 1000; 1700000000123; 1762214400577;
     4102444800000] = true.
Proof. vm_compute. reflexivity. Qed.



(** * Further properties

    ** Flag bytes *)

(** X1. [build_byte] packs the flags bit by bit: bit [i] of the one byte
    it returns is [bits.get(i, 0)] for [i] in 0..7, and keys from 8 on are
    ignored. *)
Theorem build_byte_bits (bits : gmap nat bool) :
  exists b,
    build_byte bits = [b] /\
    forall i, (i < 8)%nat ->
      Z.testbit (byte.unsigned b) (Z.of_nat i) = default false (bits !! i).
Proof.
  unfold build_byte. eexists. split; [reflexivity|].
  cbn [seq rev app map]. intros i Hi.
  do 8 (destruct i as [|i];
        [generalize (default false (bits !! 0%nat)),
           (default false (bits !! 1%nat)), (default false (bits !! 2%nat)),
           (default false (bits !! 3%nat)), (default false (bits !! 4%nat)),
           (default false (bits !! 5%nat)), (default false (bits !! 6%nat)),
           (default false (bits !! 7%nat));
         intros b0 b1 b2 b3 b4 b5 b6 b7;
         destruct b0, b1, b2, b3, b4, b5, b6, b7; reflexivity|]).
  lia.
Qed.

(** ** Slicing the image *)

Lemma batch_nil (fuel size : nat) : batch fuel [] size = [].
Proof. destruct fuel; [reflexivity|]. cbn. now rewrite take_nil. Qed.

Lemma batch_chunks (size : nat) :
  (0 < size)%nat ->
  forall (fuel : nat) (b : bytes),
    (length b <= fuel)%nat ->
    concat (batch fuel b size) = b /\
    (forall c, In c (batch fuel b size) -> (0 < length c <= size)%nat) /\
    (forall i c, batch fuel b size !! i = Some c ->
       (S i < length (batch fuel b size))%nat -> length c = size).
Proof.
  intros Hsize. induction fuel as [|fuel IH]; intros b Hfuel.
  - destruct b; [|cbn in Hfuel; lia]. cbn. repeat split; try tauto.
    intros i c H. discriminate.
  - destruct b as [|x b'].
    { rewrite batch_nil. cbn. repeat split; try tauto.
      intros i c H. discriminate. }
    cbn [batch].
    destruct (take size (x :: b')) as [|y chunk] eqn:Htake.
    { destruct size; [lia|discriminate]. }
    rewrite <- Htake.
    assert (Hdrop : (length (drop size (x :: b')) <= fuel)%nat).
    { rewrite length_drop. cbn [length] in *. lia. }
    destruct (IH (drop size (x :: b')) Hdrop) as (Hcat & Hall & Hfull).
    split; [|split].
    + cbn [concat]. rewrite Hcat. apply take_drop.
    + intros c [<-|Hc]; [|now apply Hall].
      rewrite length_take. cbn [length]. lia.
    + intros [|i] c Hlook Hlen.
      * cbn in Hlook. injection Hlook as <-.
        cbn [length] in Hlen.
        destruct (drop size (x :: b')) as [|z rest] eqn:Hd.
        { rewrite batch_nil in Hlen. cbn in Hlen. lia. }
        assert (Hl : (length (drop size (x :: b')) > 0)%nat)
          by (rewrite Hd; cbn; lia).
        rewrite length_drop in Hl. rewrite length_take. lia.
      * cbn in Hlook. cbn [length] in Hlen.
        apply (Hfull i c Hlook). lia.
Qed.

(** X2. [batch_iter_bytes] with a positive row size cuts the image into
    rows that concatenate back to it: every row is non-empty and at most
    [size] bytes long, and every row but the last has exactly [size]
    bytes.  With size 0 there are no rows at all. *)
Theorem batch_iter_bytes_rows (b : bytes) (size : nat) :
  batch_iter_bytes b 0 = [] /\
  ((0 < size)%nat ->
   concat (batch_iter_bytes b size) = b /\
   (forall c, In c (batch_iter_bytes b size) -> (0 < length c <= size)%nat) /\
   (forall i c, batch_iter_bytes b size !! i = Some c ->
      (S i < length (batch_iter_bytes b size))%nat -> length c = size)).
Proof.
  split.
  - unfold batch_iter_bytes. destruct b; reflexivity.
  - intros Hsize. unfold batch_iter_bytes. now apply batch_chunks.
Qed.

Lemma batch_iter_bytes_rows_witness :
  concat (batch_iter_bytes (bytes_of [1; 2; 3; 4; 5]) 2) =
  bytes_of [1; 2; 3; 4; 5].
Proof.
  refine (proj1 (proj2 (batch_iter_bytes_rows (bytes_of [1; 2; 3; 4; 5]) 2) _)).
  lia.
Defined.

(** ** Line encoder *)

(** X3. What [encode_line] returns is 4 to 34 bytes long, its first two
    bytes are the little-endian count of the bytes after them, and it
    determines the scanline: two scanlines with the same encoding on a
    tape are the same integer. *)
Theorem encode_line_injective (l1 l2 : bytes) (tape : TapeInfo) (out : bytes) :
  encode_line l1 tape = Ok out ->
  encode_line l2 tape = Ok out ->
  int_from_bytes_big l1 = int_from_bytes_big l2 /\
  (4 <= length out <= 34)%nat /\
  le_combine (take 2 out) = len out - 2.
Proof.
  intros H1 H2.
  destruct (encode_line_Ok_margin l1 tape out H1) as (r & Hr & Hpos).
  assert (Hparts : forall l, encode_line l tape = Ok out ->
            exists padded compressed,
              length padded = 16%nat /\
              int_from_bytes_big padded = Z.shiftl (int_from_bytes_big l) r /\
              PackBits.decode compressed = Ok padded /\
              (length compressed <= 32)%nat /\
              le_combine (le_split 2 (len compressed)) = len compressed /\
              out = le_split 2 (len compressed) ++ compressed).
  { intros l Hl.
    destruct (Z.lt_ge_cases (Z.shiftl (int_from_bytes_big l) r) (2 ^ 128))
      as [Hlt|Hge].
    - destruct (encode_line_parts l tape r Hr Hpos Hlt)
        as (padded & compressed & _ & Hlen & Hback & _ & Hdec & Hsize & Hle &
            Hout & _).
      rewrite Hl in Hout. injection Hout as Hout.
      exists padded, compressed. auto 10.
    - rewrite (encode_line_raises l tape r Hr Hpos Hge) in Hl. discriminate. }
  destruct (Hparts l1 H1) as (p1 & c1 & Hlen & Hb1 & Hd1 & Hsize & Hle & Ho1).
  destruct (Hparts l2 H2) as (p2 & c2 & _ & Hb2 & Hd2 & _ & _ & Ho2).
  assert (c2 = c1).
  { rewrite Ho1 in Ho2. symmetry.
    apply app_inj_1 in Ho2 as [_ ?]; [assumption|].
    now rewrite !length_le_split. }
  subst c2.
  assert (p2 = p1) by congruence. subst p2.
  split.
  - pose proof (f_equal (fun z => Z.shiftr z r) Hb1) as E1.
    pose proof (f_equal (fun z => Z.shiftr z r) Hb2) as E2.
    cbn beta in E1, E2.
    rewrite Z.shiftr_shiftl_l, Z.sub_diag, Z.shiftl_0_r in E1, E2 by lia.
    congruence.
  - assert (Hpos' : (2 <= length c1)%nat).
    { destruct c1 as [|a [|b c]]; cbn; try lia.
      - rewrite PackBits.decode_equation_1 in Hd1.
        injection Hd1 as <-. discriminate.
      - rewrite PackBits.decode_equation_2 in Hd1.
        destruct (PackBits.classify a).
        + rewrite PackBits.decode_clause_2_equation_1 in Hd1.
          rewrite drop_nil, take_nil, PackBits.decode_equation_1 in Hd1.
          cbn in Hd1. injection Hd1 as <-. discriminate.
        + rewrite PackBits.decode_clause_2_equation_2,
            PackBits.decode_equation_1 in Hd1.
          injection Hd1 as <-. discriminate.
        + rewrite PackBits.decode_clause_2_equation_3,
            PackBits.decode_clause_2_clause_3_equation_1 in Hd1.
          discriminate. }
    subst out. split.
    + rewrite length_app, length_le_split. lia.
    + rewrite take_app_length' by (symmetry; apply length_le_split).
      rewrite Hle. unfold len. rewrite length_app, length_le_split. lia.
Qed.

Lemma encode_line_injective_witness :
  int_from_bytes_big (bytes_of [1]) = int_from_bytes_big (bytes_of [0; 1]) /\
  (4 <= length (bytes_of [6; 0; 245; 0; 0; 32; 254; 0]%Z) <= 34)%nat /\
  le_combine (take 2 (bytes_of [6; 0; 245; 0; 0; 32; 254; 0])) =
    len (bytes_of [6; 0; 245; 0; 0; 32; 254; 0]) - 2.
Proof.
  apply (encode_line_injective (bytes_of [1]) (bytes_of [0; 1]) tape_12).
  - vm_compute. reflexivity.
  - vm_compute. reflexivity.
Defined.

Lemma rev_replicate_eq {A : Type} (n : nat) (x : A) :
  rev (replicate n x) = replicate n x.
Proof.
  induction n as [|n IH]; [reflexivity|].
  cbn [replicate rev]. rewrite IH. symmetry. apply replicate_cons_app.
Qed.

Lemma int_from_bytes_big_zeros (n : nat) :
  int_from_bytes_big (replicate n (byte.of_Z 0)) = 0.
Proof.
  unfold int_from_bytes_big. rewrite rev_replicate_eq.
  change (byte.of_Z 0) with Byte.x00.
  replace (replicate n Byte.x00) with (repeat Byte.x00 n);
    [apply le_combine_0|].
  induction n as [|n IH]; [reflexivity|]. cbn. now rewrite IH.
Qed.

(** X4. A blank scanline of any length encodes, on every tape with a right
    margin, to the four bytes [02 00 F1 00]: one run of sixteen zero
    bytes behind the length 2. *)
Theorem encode_line_blank (n : nat) (tape : TapeInfo) (r : Z) :
  rmargin tape = Some r -> 0 <= r ->
  encode_line (replicate n (byte.of_Z 0)) tape = Ok (bytes_of [2; 0; 0xF1; 0]).
Proof.
  intros Hr Hpos. rewrite (encode_line_margin _ tape r Hr Hpos).
  rewrite int_from_bytes_big_zeros, Z.shiftl_0_l. reflexivity.
Qed.

Lemma encode_line_blank_witness :
  encode_line (replicate 9 (byte.of_Z 0)) tape_12 = Ok (bytes_of [2; 0; 0xF1; 0]).
Proof. apply (encode_line_blank 9 tape_12 29); [reflexivity|lia]. Defined.

(** X5. On every tape of [MEDIA_WIDTH_INFO] that has a print area, a
    scanline as wide as the print area (rounded up to whole bytes) shifted
    by the tape's right margin fits the 16-byte head: [encode_line]
    returns. *)
Theorem encode_line_table_tapes (code : Z) (tape : TapeInfo) (w : Z)
    (line : bytes) :
  MEDIA_WIDTH_INFO !! code = Some tape ->
  printarea tape = Some w ->
  length line = ceil_div8 w ->
  exists out, encode_line line tape = Ok out.
Proof.
  intros Hlook Hw Hlen.
  unfold MEDIA_WIDTH_INFO in Hlook.
  apply elem_of_list_to_map_2, list_elem_of_In in Hlook.
  pose proof (int_from_bytes_big_range line) as [H0 Hup].
  unfold len in Hup. rewrite Hlen in Hup.
  assert (Hfit : forall r k : Z, 0 <= r -> 0 <= k -> k + r <= 128 ->
            int_from_bytes_big line < 2 ^ k ->
            Z.shiftl (int_from_bytes_big line) r < 2 ^ 128).
  { intros r k Hr Hk Hkr Hlt. rewrite Z.shiftl_mul_pow2 by lia.
    apply Z.lt_le_trans with (2 ^ k * 2 ^ r).
    - apply Z.mul_lt_mono_pos_r; [apply Z.pow_pos_nonneg; lia|exact Hlt].
    - rewrite <- Z.pow_add_r by lia. apply Z.pow_le_mono_r; lia. }
  cbn in Hlook.
  repeat (destruct Hlook as [Hlook|Hlook];
    [injection Hlook as _ <-; cbn in Hw; try discriminate;
     injection Hw as <-;
     match goal with
     | |- exists out, encode_line _ ?t = _ =>
         match t with
         | mkTapeInfo _ _ (Some ?r) _ =>
             apply (encode_line_returns line t r eq_refl ltac:(lia));
             refine (Hfit r _ _ _ _ Hup);
             repeat match goal with
               | |- context [ceil_div8 ?w] =>
                   let n := eval vm_compute in (ceil_div8 w) in
                   change (ceil_div8 w) with n
               end; lia
         end
     end|]).
  destruct Hlook.
Qed.

Lemma encode_line_table_tapes_witness :
  exists out, encode_line (replicate 9 (byte.of_Z 255)) tape_12 = Ok out.
Proof.
  apply (encode_line_table_tapes 12 tape_12 70); reflexivity.
Defined.

(** ** Status decoder *)

Lemma testbit_low_byte (e1 e2 n : Z) :
  0 <= e1 < 256 -> 0 <= n < 8 ->
  Z.testbit (Errors_value e1 e2) n = Z.testbit e1 n.
Proof.
  intros He1 Hn. unfold Errors_value.
  rewrite Z.lor_spec, Z.shiftl_spec_low by lia. apply orb_false_r.
Qed.

Lemma testbit_high_byte (e1 e2 n : Z) :
  0 <= e1 < 256 -> 8 <= n ->
  Z.testbit (Errors_value e1 e2) n = Z.testbit e2 (n - 8).
Proof.
  intros He1 Hn. unfold Errors_value.
  rewrite Z.lor_spec, Z.shiftl_spec by lia.
  replace (Z.testbit e1 n) with false; [reflexivity|].
  symmetry. destruct (Z.eqb_spec e1 0) as [->|]; [apply Z.bits_0|].
  apply Z.bits_above_log2; [lia|].
  apply Z.lt_le_trans with 8; [|lia].
  apply Z.log2_lt_pow2; [lia|]. change (2 ^ 8) with 256. lia.
Qed.

(** X6. The error flags of a decoded status are exactly seven, each one
    bit of the frame: [no_media], [cutter_jam], [weak_battery] and
    [hv_adapter] are bits 0, 2, 3 and 6 of the byte at offset 8;
    [replace_media], [cover_open] and [overheating] are bits 0, 4 and 5 of
    the byte at offset 9. *)
Theorem error_flags_of_frame (msg : bytes) (s : Status) :
  Status_init msg = Ok s ->
  errors_data (errors s) =
  list_to_map
    [("no_media"%string, Z.testbit (frame_byte msg 8) 0);
     ("cutter_jam"%string, Z.testbit (frame_byte msg 8) 2);
     ("weak_battery"%string, Z.testbit (frame_byte msg 8) 3);
     ("hv_adapter"%string, Z.testbit (frame_byte msg 8) 6);
     ("replace_media"%string, Z.testbit (frame_byte msg 9) 0);
     ("cover_open"%string, Z.testbit (frame_byte msg 9) 4);
     ("overheating"%string, Z.testbit (frame_byte msg 9) 5)].
Proof.
  intros Hs. apply Status_init_Ok_inv in Hs.
  destruct Hs as (_ & _ & _ & ->).
  pose proof (frame_byte_range msg 8) as H8.
  unfold Errors_init, ERROR_MASK. cbn [errors_data map].
  rewrite !py_bool_land_bit by lia.
  rewrite !(testbit_low_byte _ _ _ H8) by lia.
  rewrite !(testbit_high_byte _ _ _ H8) by lia.
  reflexivity.
Qed.

Lemma error_flags_of_frame_witness :
  errors_data (errors (decoded (example_frame 12 1 0x10 0 0))) =
  list_to_map
    [("no_media"%string, Z.testbit (frame_byte (example_frame 12 1 0x10 0 0) 8) 0);
     ("cutter_jam"%string, Z.testbit (frame_byte (example_frame 12 1 0x10 0 0) 8) 2);
     ("weak_battery"%string, Z.testbit (frame_byte (example_frame 12 1 0x10 0 0) 8) 3);
     ("hv_adapter"%string, Z.testbit (frame_byte (example_frame 12 1 0x10 0 0) 8) 6);
     ("replace_media"%string, Z.testbit (frame_byte (example_frame 12 1 0x10 0 0) 9) 0);
     ("cover_open"%string, Z.testbit (frame_byte (example_frame 12 1 0x10 0 0) 9) 4);
     ("overheating"%string, Z.testbit (frame_byte (example_frame 12 1 0x10 0 0) 9) 5)].
Proof.
  apply (error_flags_of_frame (example_frame 12 1 0x10 0 0)).
  vm_compute. reflexivity.
Defined.

(** X7. [Status(msg)] fails in two ways only: with [IndexError] exactly
    when [msg] has fewer than 27 bytes, and otherwise with the [KeyError]
    of a media width that [MEDIA_WIDTH_INFO] does not list; any sequence of
    27 bytes or more with a listed width decodes. *)
Theorem Status_init_failures (msg : bytes) :
  (Status_init msg = Err IndexError <-> (length msg < 27)%nat) /\
  (forall e, Status_init msg = Err e ->
     e = IndexError \/
     (e = KeyError (frame_byte msg 10) /\
      ~ In (frame_byte msg 10) media_width_codes)) /\
  ((27 <= length msg)%nat -> In (frame_byte msg 10) media_width_codes ->
   exists s, Status_init msg = Ok s).
Proof.
  destruct (Nat.lt_ge_cases (length msg) 27) as [Hlt|Hge].
  - rewrite (Status_init_short msg Hlt). repeat split; auto; try lia.
    intros e He. left. congruence.
  - rewrite (Status_init_frame msg Hge).
    destruct (MEDIA_WIDTH_INFO !! frame_byte msg 10) as [ti|] eqn:Hl.
    + repeat split; try discriminate; try lia. eauto.
    + repeat split; try discriminate; try lia.
      * intros e He. right. injection He as <-. split; [reflexivity|].
        intros Hin. unfold media_width_codes in Hin. cbn in Hin.
        repeat (destruct Hin as [Hin|Hin];
                [rewrite <- Hin in Hl; vm_compute in Hl; discriminate|]).
        destruct Hin.
      * intros _ Hin. unfold media_width_codes in Hin. cbn in Hin.
        repeat (destruct Hin as [Hin|Hin];
                [rewrite <- Hin in Hl; vm_compute in Hl; discriminate|]).
        destruct Hin.
Qed.

(** ** Reading the status *)

(** X8. [_debug_status] writes nothing.  An empty read is passed over; a
    read of 1 to 26 bytes raises [IndexError]; from 27 bytes on (so also
    for the 27 to 31 bytes [get_status] rejects) the frame is decoded, and
    the only failure left is an unknown media width. *)
Theorem debug_status_cases (p : P700) (data : bytes) :
  take 32 (hd [] (io_incoming p)) = data ->
  io_written (_debug_status p).2 = io_written p /\
  io_incoming (_debug_status p).2 = tl (io_incoming p) /\
  (length data = 0%nat -> (_debug_status p).1 = Returns tt) /\
  ((1 <= length data <= 26)%nat -> (_debug_status p).1 = Raises IndexError) /\
  ((27 <= length data)%nat ->
   match Status_init data with
   | Ok _ => (_debug_status p).1 = Returns tt
   | Err e => (_debug_status p).1 = Raises e /\
              e = UnknownTapeWidth (frame_byte data 10)
   end).
Proof.
  intros Hdata.
  assert (Hrun : _debug_status p =
            (if len data =? 0 then Returns tt
             else match Status_init data with
                  | Ok _ => Returns tt
                  | Err e => Raises e
                  end,
             set_io_incoming (tl (io_incoming p)) p)).
  { unfold _debug_status, mbind, M_bind, io_read.
    destruct p as [w inc left st fl th cl sch del]. cbn in Hdata |- *.
    destruct inc as [|chunk rest]; cbn in Hdata |- *; subst data;
      [reflexivity|].
    destruct (len (take 32 chunk) =? 0); [reflexivity|].
    unfold lift. destruct (Status_init (take 32 chunk)); reflexivity. }
  rewrite Hrun. cbn [fst snd]. unfold len.
  split; [destruct p; reflexivity|]. split; [destruct p; reflexivity|].
  repeat split.
  - intros ->. reflexivity.
  - intros Hlen.
    destruct (Z.eqb_spec (Z.of_nat (length data)) 0); [lia|].
    rewrite Status_init_short by lia. reflexivity.
  - intros Hlen.
    destruct (Z.eqb_spec (Z.of_nat (length data)) 0); [lia|].
    rewrite Status_init_frame by lia.
    destruct (MEDIA_WIDTH_INFO !! frame_byte data 10); auto.
Qed.

Lemma debug_status_cases_witness :
  (_debug_status (example_printer [take 20 (example_frame 12 0 0 0 0)] [])).1 =
  Raises IndexError.
Proof.
  refine (proj1 (proj2 (proj2 (proj2 (debug_status_cases
    (example_printer [take 20 (example_frame 12 0 0 0 0)] [])
    (take 20 (example_frame 12 0 0 0 0)) _)))) _).
  - reflexivity.
  - vm_compute. lia.
Defined.

(** ** The end of a job *)



(** The completion wait of a silent printer whose clock stands at 0.577 s
    raises at the reading 20.577 s, after 20 s exactly. *)
Lemma finish_job_on_the_deadline :
  (finish_job (mkP700 [] [] None blank_status true Alive 577 [] [])).1 =
    Raises PrintCompletionTimeout /\
  clock (finish_job (mkP700 [] [] None blank_status true Alive 577 [] [])).2 =
    577 + 20000.
Proof. vm_compute. split; reflexivity. Qed.

(** ** The background poller *)

Lemma poller_iteration_status (p : P700) :
  io_incoming (poller_iteration p) = tl (io_incoming p) /\
  (status (poller_iteration p) = status p \/
   exists f, hd_error (io_incoming p) = Some f /\
     length (take 32 f) = 32%nat /\
     Status_init (take 32 f) = Ok (status (poller_iteration p))).
Proof.
  unfold poller_iteration, io_read.
  destruct p as [w inc left st fl th cl sch del]. cbn.
  destruct inc as [|chunk rest]; cbn; [auto|].
  destruct (Z.eqb_spec (len (take 32 chunk)) 32) as [H32|]; [|cbn; auto].
  destruct (Status_init (take 32 chunk)) as [s|e] eqn:Hs; cbn; [|auto].
  split; [reflexivity|]. right. exists chunk.
  split; [reflexivity|]. split; [unfold len in H32; lia|exact Hs].
Qed.

(** X10. However long the poller runs, [self.status] is either what it was
    or the decoding of a full 32-byte read; shorter reads are dropped
    without a trace.  Each turn of the loop takes one read off the
    transport. *)
Theorem poller_installs_full_frames (n : nat) (p : P700) :
  (exists k, (k <= n)%nat /\
     io_incoming (_print_status_check n p) = drop k (io_incoming p)) /\
  (status (_print_status_check n p) = status p \/
   exists f, In f (io_incoming p) /\
     length (take 32 f) = 32%nat /\
     Status_init (take 32 f) = Ok (status (_print_status_check n p))).
Proof.
  revert p. induction n as [|n IH]; intros p; cbn [_print_status_check].
  - split; [exists 0%nat; split; [lia|reflexivity]|]. auto.
  - destruct (status_thread p) eqn:Hth;
      try (split; [exists 0%nat; split; [lia|reflexivity]|]; auto).
    destruct (_check_print_status p) eqn:Hfl.
    + destruct (poller_iteration_status p) as (Hinc & Hst).
      destruct (IH (poller_iteration p)) as ((k & Hk & Hdrop) & Hst').
      split.
      * exists (S k). split; [lia|]. rewrite Hdrop, Hinc.
        destruct (io_incoming p); [destruct k; reflexivity|reflexivity].
      * destruct Hst' as [Heq|(f & Hin & Hlen & Hdec)].
        -- rewrite Heq. destruct Hst as [Hst|(f & Hhd & Hlen & Hdec)];
             [auto|].
           right. exists f. split; [|auto].
           destruct (io_incoming p); [discriminate|].
           cbn in Hhd. injection Hhd as ->. now left.
        -- right. exists f. split; [|auto].
           rewrite Hinc in Hin.
           destruct (io_incoming p); [destruct Hin|now right].
    + split; [exists 0%nat; split; [lia|destruct p; reflexivity]|].
      left. destruct p; reflexivity.
Qed.

(** ** The stream a job puts on the wire *)

Lemma bind_Returns_inv {A B : Type} (m : M A) (f : A -> M B) (p q : P700)
    (b : B) :
  (m ≫= f) p = (Returns b, q) ->
  exists a p1, m p = (Returns a, p1) /\ f a p1 = (Returns b, q).
Proof.
  unfold mbind, M_bind. destruct (m p) as [[a|e|] p1]; try discriminate.
  eauto.
Qed.

Lemma io_write_Returns (d : bytes) (p q : P700) :
  io_write d p = (Returns tt, q) ->
  io_written q = io_written p ++ [d] /\ clock q = clock p.
Proof.
  intros H. destruct (io_write_run d p)
    as [[H' _]|(q' & H' & _ & Hw & Hc & _)]; rewrite H' in H.
  - discriminate.
  - injection H as <-. auto.
Qed.

Lemma write_lines_stream (status : Status) (document : list bytes) :
  forall p q,
    write_lines status document p = (Returns tt, q) ->
    io_written q =
      io_written p ++ map (line_command (tape_info status)) document /\
    (forall line, In line document ->
       exists enc, encode_line line (tape_info status) = Ok enc).
Proof.
  induction document as [|line rest IH]; intros p q Hrun.
  - cbn in Hrun. injection Hrun as <-. rewrite app_nil_r. split; [reflexivity|].
    intros line [].
  - cbn [write_lines] in Hrun.
    apply bind_Returns_inv in Hrun. destruct Hrun as (enc & p1 & Henc & Hrun).
    unfold lift in Henc.
    destruct (encode_line line (tape_info status)) as [enc'|e] eqn:He;
      [|discriminate].
    injection Henc as -> ->.
    apply bind_Returns_inv in Hrun. destruct Hrun as ([] & p2 & Hw & Hrun).
    apply io_write_Returns in Hw. destruct Hw as [Hw _].
    destruct (IH p2 q Hrun) as (Hrest & Hall).
    split.
    + rewrite Hrest, Hw. cbn [map]. unfold line_command at 2. rewrite He.
      now rewrite <- app_assoc.
    + intros l [<-|Hl]; [eauto|now apply Hall].
Qed.

Lemma timed_wait_Returns (test : M bool) (holds : P700 -> P700 -> Prop)
    (err : PyError) (p q : P700) :
  wait_test test holds ->
  (start ← time_time; wait_until WAIT_TURNS test err start) p =
    (Returns tt, q) ->
  io_written q = io_written p.
Proof.
  intros Htest H.
  destruct (timed_wait_spec test holds Htest err p) as (_ & Hw & _).
  rewrite H in Hw. exact Hw.
Qed.

Lemma advance_page_Returns (p q : P700) :
  advance_page p = (Returns tt, q) ->
  io_written q = io_written p ++ [bytes_of [0x0C]].
Proof.
  intros H. unfold advance_page in H.
  apply bind_Returns_inv in H. destruct H as ([] & p1 & Hw & H).
  apply io_write_Returns in Hw. destruct Hw as [Hw _].
  apply (timed_wait_Returns _ _ _ _ _ receiving_test_ok) in H. congruence.
Qed.

Lemma finish_job_Returns (p q : P700) :
  finish_job p = (Returns tt, q) ->
  io_written q = io_written p ++ [bytes_of [0x1A]].
Proof.
  intros H. unfold finish_job in H.
  apply bind_Returns_inv in H. destruct H as ([] & p1 & Hw & H).
  apply io_write_Returns in Hw. destruct Hw as [Hw _].
  apply (timed_wait_Returns _ _ _ _ _ printing_test_ok) in H. congruence.
Qed.

Lemma print_pages_stream (status : Status) (documents : list (list bytes)) :
  forall p q,
    print_pages status documents p = (Returns tt, q) ->
    io_written q = io_written p ++ pages_stream (tape_info status) documents /\
    encodable (tape_info status) documents.
Proof.
  induction documents as [|document rest IH]; intros p q Hrun.
  - cbn in Hrun. injection Hrun as <-. rewrite app_nil_r.
    split; [reflexivity|]. intros d l [].
  - cbn [print_pages] in Hrun.
    apply bind_Returns_inv in Hrun. destruct Hrun as ([] & p1 & Hlines & Hrun).
    apply write_lines_stream in Hlines. destruct Hlines as (Hl & Henc).
    apply bind_Returns_inv in Hrun. destruct Hrun as ([] & p2 & Hrow & Hrun).
    apply io_write_Returns in Hrow. destruct Hrow as [Hrow _].
    apply bind_Returns_inv in Hrun. destruct Hrun as ([] & p3 & Hadv & Hrun).
    destruct (IH p3 q Hrun) as (Hrest & Hall).
    assert (Hmark : io_written p3 =
                    io_written p2 ++
                    match rest with [] => [] | _ :: _ => [bytes_of [12]] end).
    { destruct rest.
      - cbn in Hadv. injection Hadv as <-. now rewrite app_nil_r.
      - now apply advance_page_Returns. }
    split.
    + rewrite Hrest, Hmark, Hrow, Hl. cbn [pages_stream].
      now rewrite <- !app_assoc.
    + intros d l [<-|Hd] Hin; [now apply Henc|now apply (Hall d l)].
Qed.

(** What a returning [_raw_print] has done. *)
Lemma raw_print_Returns_inv (status : Status) (documents : list (list bytes))
    (p q : P700) :
  _raw_print status documents p = (Returns tt, q) ->
  io_written q =
    io_written p ++ config_stream ++
    pages_stream (tape_info status) documents ++ [bytes_of [0x1A]] /\
  encodable (tape_info status) documents /\
  status_thread q = Joined /\
  _check_print_status q = false.
Proof.
  intros Hrun. rewrite raw_print_unfold in Hrun.
  destruct (connect p) as [[[]|e|] p1] eqn:Hconn; try discriminate.
  unfold connect in Hconn.
  apply bind_Returns_inv in Hconn. destruct Hconn as ([] & p0 & Hz & Hinit).
  apply io_write_Returns in Hz, Hinit.
  destruct Hz as [Hz _]. destruct Hinit as [Hinit _].
  set (p2 := set_status_thread Alive (set_check_print_status true p1)) in *.
  assert (Hp2 : io_written p2 = io_written p1) by (destruct p1; reflexivity).
  assert (Hs : started p2) by (left; destruct p1; reflexivity).
  destruct (try_finally_joins _ p2 (comes_back_print_body status documents) Hs)
    as (q' & Htf & _ & Hj & Hfl & Hwq & _).
  rewrite Htf in Hrun. injection Hrun as Hbody <-.
  match type of Hbody with
  | (?body p2).1 = _ => destruct (body p2) as [o p3] eqn:Hb
  end.
  cbn [fst snd] in Hbody, Hwq. subst o.
  change (set_raster_mode) with (io_write (bytes_of [27; 105; 97; 1])) in Hb.
  change (set_various_mode true false)
    with (io_write (bytes_of [27; 105; 77; 64])) in Hb.
  change (set_advanced_mode true false false)
    with (io_write (bytes_of [27; 105; 75; 8])) in Hb.
  change (set_compression_mode true) with (io_write (bytes_of [77; 2])) in Hb.
  apply bind_Returns_inv in Hb. destruct Hb as ([] & a1 & H1 & Hb).
  apply bind_Returns_inv in Hb. destruct Hb as ([] & a2 & H2 & Hb).
  apply bind_Returns_inv in Hb. destruct Hb as ([] & a3 & H3 & Hb).
  apply bind_Returns_inv in Hb. destruct Hb as ([] & a4 & H4 & Hb).
  apply bind_Returns_inv in Hb. destruct Hb as ([] & a5 & H5 & Hb).
  apply bind_Returns_inv in Hb. destruct Hb as ([] & a6 & Hpages & Hfin).
  apply io_write_Returns in H1, H2, H3, H5.
  destruct H1 as [H1 _], H2 as [H2 _], H3 as [H3 _], H5 as [H5 _].
  assert (H4' : io_written a4 = io_written a3 ++ [bytes_of [27; 105; 100; 14; 0]]).
  { unfold set_margin in H4.
    apply bind_Returns_inv in H4. destruct H4 as (m & a & Hm & H4).
    vm_compute in Hm. injection Hm as <- <-.
    apply io_write_Returns in H4. exact (proj1 H4). }
  apply print_pages_stream in Hpages. destruct Hpages as (Hpg & Henc).
  apply finish_job_Returns in Hfin.
  split; [|split; [exact Henc|split; [exact Hj|exact Hfl]]].
  rewrite Hwq, Hfin, Hpg, H5, H4', H3, H2, H1, Hp2, Hinit, Hz.
  unfold config_stream. rewrite <- !app_assoc. reflexivity.
Qed.


(** X11. A call of [_raw_print] that returns has put on the wire, in this
    order: the reset preamble and the five mode commands, then page by page
    the raster commands [G..] of the rows in row order and the end-of-page
    marker, with a next-page marker between two pages, then the end-of-job
    marker, and nothing else.  Every row had an encoding, and the poller
    is joined. *)
Theorem raw_print_stream (status : Status) (documents : list (list bytes))
    (p q : P700) :
  _raw_print status documents p = (Returns tt, q) ->
  io_written q =
    io_written p ++ config_stream ++
    pages_stream (tape_info status) documents ++ [bytes_of [0x1A]] /\
  encodable (tape_info status) documents /\
  status_thread q = Joined.
Proof.
  intros Hrun.
  destruct (raw_print_Returns_inv status documents p q Hrun)
    as (Hw & Henc & Hj & _).
  split; [exact Hw|]. split; [exact Henc|exact Hj].
Qed.

Lemma raw_print_stream_witness :
  io_written
    (_raw_print (decoded (phase_frame 0 0 0 0)) one_blank_page
       (example_printer [phase_frame 1 0 0 0] [1%nat])).2 =
  io_written (example_printer [phase_frame 1 0 0 0] [1%nat]) ++ config_stream ++
  pages_stream (tape_info (decoded (phase_frame 0 0 0 0))) one_blank_page ++
  [bytes_of [0x1A]].
Proof.
  refine (proj1 (raw_print_stream (decoded (phase_frame 0 0 0 0)) one_blank_page
    (example_printer [phase_frame 1 0 0 0] [1%nat]) _ _)).
  vm_compute. reflexivity.
Defined.

(** ** A device that stays silent *)

(** With nothing to read, a timed wait whose test does not hold of the
    status as it stands ends in its timeout. *)
Lemma timed_wait_silent (test : M bool) (holds : P700 -> P700 -> Prop)
    (cond : Status -> bool) (err : PyError) (p : P700) :
  wait_test test holds ->
  (forall p' q, io_incoming p' = [] -> status q = status p' ->
     holds p' q -> cond (status p') = true) ->
  io_incoming p = [] -> cond (status p) = false ->
  exists q,
    (start ← time_time; wait_until WAIT_TURNS test err start) p =
      (Raises err, q) /\
    io_written q = io_written p.
Proof.
  intros Htest Hsil Hinc Hcond. unfold mbind, M_bind, time_time, gets.
  destruct (wait_until_spec test holds Htest err (clock p) WAIT_TURNS p)
    as (Hres & Hw & _ & _ & _ & Hpo); [lia|unfold WAIT_TURNS; lia|].
  destruct (wait_until WAIT_TURNS test err (clock p) p) as [o q].
  cbn [fst snd] in *. exists q.
  destruct Hres as [(_ & (p' & Hpp & Hh) & _)|(-> & _)]; [|auto].
  destruct (polled_silent p p' Hpp Hinc) as (Hs' & Hi').
  destruct (polled_silent p q Hpo Hinc) as (Hsq & _).
  assert (Hc : cond (status p') = true)
    by (apply (Hsil p' q); [exact Hi'|congruence|exact Hh]).
  rewrite Hs' in Hc. congruence.
Qed.

Lemma receiving_seen_silent (p q : P700) :
  io_incoming p = [] -> status q = status p ->
  receiving_seen p q -> receiving_state (status p) = true.
Proof.
  intros Hinc Hs (H0 & mid & Hm & _ & H6).
  destruct (polled_silent p mid Hm Hinc) as (Hsm & _).
  rewrite Hs in H0. rewrite Hsm in H6.
  unfold receiving_state. apply andb_true_iff.
  split; now apply bool_decide_eq_true.
Qed.

Lemma printing_seen_silent (p q : P700) :
  io_incoming p = [] -> status q = status p ->
  printing_seen p q -> printing_done (status p) = true.
Proof.
  intros _ Hs H1. unfold printing_seen in H1. rewrite Hs in H1.
  unfold printing_done. now apply bool_decide_eq_true.
Qed.

Lemma io_write_unlimited (d : bytes) (p : P700) :
  io_writes_left p = None ->
  io_write d p = (Returns tt, after_writes p [d]).
Proof. intros H. unfold io_write. rewrite H. reflexivity. Qed.

Lemma after_writes_app (p : P700) (w1 w2 : list bytes) :
  after_writes (after_writes p w1) w2 = after_writes p (w1 ++ w2).
Proof. destruct p. unfold after_writes. cbn. now rewrite app_assoc. Qed.

Lemma write_lines_unlimited (status : Status) (document : list bytes) :
  forall p,
    io_writes_left p = None ->
    (forall line, In line document ->
       exists enc, encode_line line (tape_info status) = Ok enc) ->
    write_lines status document p =
      (Returns tt,
       after_writes p (map (line_command (tape_info status)) document)).
Proof.
  induction document as [|line rest IH]; intros p Hleft Henc.
  - cbn. unfold after_writes. rewrite app_nil_r. destruct p; reflexivity.
  - cbn [write_lines map]. unfold mbind, M_bind.
    destruct (Henc line (or_introl eq_refl)) as (enc & He).
    unfold line_command at 1. rewrite He. cbn [lift mret M_ret].
    rewrite io_write_unlimited by exact Hleft.
    rewrite IH; [|destruct p; exact Hleft|intros l Hl; apply Henc; now right].
    rewrite after_writes_app. reflexivity.
Qed.

Lemma bind_io_write {B : Type} (d : bytes) (f : unit -> M B) (p : P700) :
  io_writes_left p = None ->
  (io_write d ≫= f) p = f tt (after_writes p [d]).
Proof.
  intros H. unfold mbind, M_bind. now rewrite io_write_unlimited.
Qed.

Lemma after_writes_fields (p : P700) (w : list bytes) :
  io_writes_left (after_writes p w) = io_writes_left p /\
  io_incoming (after_writes p w) = io_incoming p /\
  status (after_writes p w) = status p /\
  io_written (after_writes p w) = io_written p ++ w /\
  status_thread (after_writes p w) = status_thread p.
Proof. destruct p. cbn. auto. Qed.

(** The [try] block of [_raw_print] up to the first page, on a transport
    that never fails. *)
Lemma print_body_config (status : Status) (documents : list (list bytes))
    (p : P700) :
  io_writes_left p = None ->
  (_ ← set_raster_mode;
   _ ← set_various_mode true false;
   _ ← set_advanced_mode true false false;
   _ ← set_margin 14;
   _ ← set_compression_mode true;
   _ ← print_pages status documents;
   finish_job) p =
  (_ ← print_pages status documents; finish_job)
    (after_writes p (drop 2 config_stream)).
Proof.
  intros Hleft.
  change (set_raster_mode) with (io_write (bytes_of [27; 105; 97; 1])).
  change (set_various_mode true false)
    with (io_write (bytes_of [27; 105; 77; 64])).
  change (set_advanced_mode true false false)
    with (io_write (bytes_of [27; 105; 75; 8])).
  change (set_margin 14) with (io_write (bytes_of [27; 105; 100; 14; 0])).
  change (set_compression_mode true) with (io_write (bytes_of [77; 2])).
  rewrite bind_io_write by exact Hleft.
  rewrite bind_io_write by (now rewrite (proj1 (after_writes_fields _ _))).
  rewrite after_writes_app.
  rewrite bind_io_write by (now rewrite (proj1 (after_writes_fields _ _))).
  rewrite after_writes_app.
  rewrite bind_io_write by (now rewrite (proj1 (after_writes_fields _ _))).
  rewrite after_writes_app.
  rewrite bind_io_write by (now rewrite (proj1 (after_writes_fields _ _))).
  rewrite after_writes_app.
  reflexivity.
Qed.

(** The first page of [print_pages], on a transport that never fails. *)
Lemma print_pages_first (status : Status) (first : list bytes)
    (more : list (list bytes)) (p : P700) :
  io_writes_left p = None ->
  (forall line, In line first ->
     exists enc, encode_line line (tape_info status) = Ok enc) ->
  print_pages status (first :: more) p =
  (_ ← match more with [] => mret tt | _ :: _ => advance_page end;
   print_pages status more)
    (after_writes p
       (map (line_command (tape_info status)) first ++ [bytes_of [0x5A]])).
Proof.
  intros Hleft Henc. cbn [print_pages]. unfold print_empty_row.
  unfold mbind at 1. unfold M_bind at 1.
  rewrite write_lines_unlimited by assumption.
  rewrite bind_io_write by (now rewrite (proj1 (after_writes_fields _ _))).
  rewrite after_writes_app. reflexivity.
Qed.

Lemma connect_unlimited (p : P700) :
  io_writes_left p = None ->
  connect p = (Returns tt, after_writes p (take 2 config_stream)).
Proof.
  intros Hleft. unfold connect.
  rewrite bind_io_write by exact Hleft.
  rewrite io_write_unlimited by (now rewrite (proj1 (after_writes_fields _ _))).
  now rewrite after_writes_app.
Qed.

(** X12. A device that never answers: on a transport that takes every
    write and returns nothing to read, a job whose first page encodes
    ends in a timeout as long as [self.status] does not show the awaited
    state already.  A job of several pages raises [PageAdvanceTimeout]
    right after the first page's next-page marker, so no row of the second
    page is sent; a job of one page raises [PrintCompletionTimeout] after
    the end-of-job marker.  Either way the poller is joined. *)
Theorem silent_device_times_out (st : Status) (first : list bytes)
    (more : list (list bytes)) (p : P700) :
  io_incoming p = [] ->
  io_writes_left p = None ->
  (forall line, In line first ->
     exists enc, encode_line line (tape_info st) = Ok enc) ->
  match more with
  | [] => printing_done (status p) = false
  | _ :: _ => receiving_state (status p) = false
  end ->
  (_raw_print st (first :: more) p).1 =
    Raises match more with
           | [] => PrintCompletionTimeout
           | _ :: _ => PageAdvanceTimeout
           end /\
  io_written (_raw_print st (first :: more) p).2 =
    io_written p ++ config_stream ++
    map (line_command (tape_info st)) first ++
    [bytes_of [0x5A];
     match more with [] => bytes_of [0x1A] | _ :: _ => bytes_of [0x0C] end] /\
  status_thread (_raw_print st (first :: more) p).2 = Joined.
Proof.
  intros Hinc Hleft Henc Hcond.
  rewrite raw_print_unfold, (connect_unlimited p Hleft).
  set (p1 := after_writes p (take 2 config_stream)).
  set (p2 := set_status_thread Alive (set_check_print_status true p1)).
  assert (Hl2 : io_writes_left p2 = None) by (destruct p; exact Hleft).
  assert (Hi2 : io_incoming p2 = []) by (destruct p; exact Hinc).
  assert (Hs2 : status p2 = status p) by (destruct p; reflexivity).
  assert (Hw2 : io_written p2 = io_written p ++ take 2 config_stream)
    by (destruct p; reflexivity).
  assert (Hstarted : started p2) by (left; destruct p; reflexivity).
  destruct (try_finally_joins _ p2
              (comes_back_print_body st (first :: more)) Hstarted)
    as (q & -> & _ & Hj & _ & Hwq & _).
  cbn [fst snd]. rewrite Hwq, (print_body_config _ _ p2 Hl2).
  set (p3 := after_writes p2 (drop 2 config_stream)).
  destruct (after_writes_fields p2 (drop 2 config_stream))
    as (Hl3 & Hi3 & Hs3 & Hw3 & _). fold p3 in Hl3, Hi3, Hs3, Hw3.
  assert (Hrun : exists q5,
            (print_pages st (first :: more) ≫= λ _ : (), finish_job) p3 =
              (Raises match more with
                      | [] => PrintCompletionTimeout
                      | _ :: _ => PageAdvanceTimeout
                      end, q5) /\
            io_written q5 =
              io_written p ++ config_stream ++
              map (line_command (tape_info st)) first ++
              [bytes_of [90];
               match more with
               | [] => bytes_of [26]
               | _ :: _ => bytes_of [12]
               end]).
  { unfold mbind at 1. unfold M_bind at 1.
    rewrite (print_pages_first st first more p3)
      by (try congruence; exact Henc).
    set (p4 := after_writes p3 _).
    destruct (after_writes_fields p3
                (map (line_command (tape_info st)) first ++ [bytes_of [90]]))
      as (Hl4 & Hi4 & Hs4 & Hw4 & _). fold p4 in Hl4, Hi4, Hs4, Hw4.
    assert (Hbase : io_written p4 =
              io_written p ++ config_stream ++
              map (line_command (tape_info st)) first ++ [bytes_of [90]]).
    { rewrite Hw4, Hw3, Hw2. unfold config_stream. cbn [take drop].
      now rewrite <- !app_assoc. }
    destruct more as [|next rest].
    - cbn [print_pages]. unfold mbind at 1. unfold M_bind at 1.
      cbn [mret M_ret].
      unfold finish_job, last_page_end.
      rewrite bind_io_write by congruence.
      destruct (after_writes_fields p4 [bytes_of [26]])
        as (_ & Hi5 & Hs5 & Hw5 & _).
      destruct (timed_wait_silent printing_test printing_seen printing_done
                  PrintCompletionTimeout (after_writes p4 [bytes_of [26]])
                  printing_test_ok printing_seen_silent)
        as (q5 & -> & Hw6); [congruence|congruence|].
      exists q5. split; [reflexivity|].
      rewrite Hw6, Hw5, Hbase. now rewrite <- !app_assoc.
    - unfold mbind at 1. unfold M_bind at 1.
      unfold advance_page at 1. unfold next_page.
      rewrite bind_io_write by congruence.
      destruct (after_writes_fields p4 [bytes_of [12]])
        as (_ & Hi5 & Hs5 & Hw5 & _).
      destruct (timed_wait_silent receiving_test receiving_seen
                  receiving_state PageAdvanceTimeout
                  (after_writes p4 [bytes_of [12]])
                  receiving_test_ok receiving_seen_silent)
        as (q5 & -> & Hw6); [congruence|congruence|].
      exists q5. split; [reflexivity|].
      rewrite Hw6, Hw5, Hbase. now rewrite <- !app_assoc. }
  destruct Hrun as (q5 & -> & Hw5). cbn [fst snd].
  split; [reflexivity|]. split; [exact Hw5|exact Hj].
Qed.

Lemma silent_device_times_out_witness :
  (_raw_print (decoded (phase_frame 0 0 0 0)) one_blank_page
     (example_printer [] [])).1 = Raises PrintCompletionTimeout.
Proof.
  refine (proj1 (silent_device_times_out (decoded (phase_frame 0 0 0 0))
    [replicate 16 (byte.of_Z 0)] [] (example_printer [] []) _ _ _ _)).
  - reflexivity.
  - reflexivity.
  - intros line [<-|[]]. eexists. vm_compute. reflexivity.
  - vm_compute. reflexivity.
Defined.


(** ** Tape geometry *)

(** X13. Every entry of [MEDIA_WIDTH_INFO] but the no-tape entry 0 lays
    the print area out in the middle of the 128 pins of the head: the two
    margins are equal, none is negative, the print area is positive, and
    margins and print area add up to 128.  The no-tape entry has no
    geometry at all. *)
Theorem tape_geometry (code : Z) (tape : TapeInfo) :
  MEDIA_WIDTH_INFO !! code = Some tape ->
  (code = 0 /\ tape = mkTapeInfo None None None None) \/
  (code <> 0 /\
   exists m a,
     lmargin tape = Some m /\ rmargin tape = Some m /\
     printarea tape = Some a /\
     0 <= m /\ 0 < a /\ m + a + m = 128).
Proof.
  intros Hlook. unfold MEDIA_WIDTH_INFO in Hlook.
  apply elem_of_list_to_map_2, list_elem_of_In in Hlook.
  cbn in Hlook.
  repeat (destruct Hlook as [Hlook|Hlook];
    [injection Hlook as <- <-;
     first [left; split; reflexivity
           |right; split; [discriminate|];
            eexists; eexists; cbn;
            repeat (split; [reflexivity|]); lia]|]).
  destruct Hlook.
Qed.

Lemma tape_geometry_witness :
  (9 = 0 /\ mkTapeInfo (Some 39) (Some 50) (Some 39) (Some (9 # 1)%Q) =
            mkTapeInfo None None None None) \/
  (9 <> 0 /\
   exists m a,
     lmargin (mkTapeInfo (Some 39) (Some 50) (Some 39) (Some (9 # 1)%Q)) = Some m /\
     rmargin (mkTapeInfo (Some 39) (Some 50) (Some 39) (Some (9 # 1)%Q)) = Some m /\
     printarea (mkTapeInfo (Some 39) (Some 50) (Some 39) (Some (9 # 1)%Q)) = Some a /\
     0 <= m /\ 0 < a /\ m + a + m = 128).
Proof.
  apply (tape_geometry 9). vm_compute. reflexivity.
Defined.

(** ** A job without tape *)

(** X14. With a status whose tape has no right margin (the no-tape entry
    of the table), the first row of a job cannot be encoded: [_raw_print]
    has sent the preamble and the mode commands by then, raises
    [TypeError] on the shift by [None], sends no raster command and no
    marker, and joins the poller. *)
Theorem raw_print_without_tape (st : Status) (line : bytes)
    (rest : list bytes) (more : list (list bytes)) (p : P700) :
  io_writes_left p = None ->
  rmargin (tape_info st) = None ->
  (_raw_print st ((line :: rest) :: more) p).1 = Raises TypeError /\
  io_written (_raw_print st ((line :: rest) :: more) p).2 =
    io_written p ++ config_stream /\
  status_thread (_raw_print st ((line :: rest) :: more) p).2 = Joined.
Proof.
  intros Hleft Hr.
  rewrite raw_print_unfold, (connect_unlimited p Hleft).
  set (p1 := after_writes p (take 2 config_stream)).
  set (p2 := set_status_thread Alive (set_check_print_status true p1)).
  assert (Hl2 : io_writes_left p2 = None) by (destruct p; exact Hleft).
  assert (Hw2 : io_written p2 = io_written p ++ take 2 config_stream)
    by (destruct p; reflexivity).
  assert (Hstarted : started p2) by (left; destruct p; reflexivity).
  destruct (try_finally_joins _ p2
              (comes_back_print_body st ((line :: rest) :: more)) Hstarted)
    as (q & -> & _ & Hj & _ & Hwq & _).
  cbn [fst snd]. rewrite Hwq, (print_body_config _ _ p2 Hl2).
  set (p3 := after_writes p2 (drop 2 config_stream)).
  assert (Hrun : (print_pages st ((line :: rest) :: more) ≫= λ _ : (), finish_job) p3 =
                 (Raises TypeError, p3)).
  { cbn [print_pages write_lines]. unfold encode_line. rewrite Hr.
    reflexivity. }
  rewrite Hrun. cbn [fst snd].
  split; [reflexivity|]. split; [|exact Hj].
  destruct (after_writes_fields p2 (drop 2 config_stream))
    as (_ & _ & _ & Hw3 & _). fold p3 in Hw3.
  rewrite Hw3, Hw2. unfold config_stream. cbn [take drop].
  now rewrite <- !app_assoc.
Qed.

Lemma raw_print_without_tape_witness :
  (_raw_print (decoded (example_frame 0 0 0 0 0)) one_blank_page
     (example_printer [] [])).1 = Raises TypeError.
Proof.
  refine (proj1 (raw_print_without_tape (decoded (example_frame 0 0 0 0 0))
    (replicate 16 (byte.of_Z 0)) [] [] (example_printer [] []) _ _)).
  - reflexivity.
  - vm_compute. reflexivity.
Defined.

(** ** Status queries *)

Lemma get_status_Returns_inv (p q : P700) (s : Status) :
  get_status p = (Returns s, q) ->
  exists frame rest,
    io_incoming p = frame :: rest /\
    length (take 32 frame) = 32%nat /\
    Status_init (take 32 frame) = Ok s /\
    io_written q = io_written p ++ [bytes_of [0x1B; 0x69; 0x53]] /\
    io_incoming q = rest /\
    status q = status p /\
    status_thread q = status_thread p /\
    _check_print_status q = _check_print_status p.
Proof.
  unfold get_status, mbind, M_bind, io_write, io_read.
  destruct p as [w inc left st fl th cl sch del]. cbn.
  destruct left as [[|n]|]; cbn; [discriminate| |];
    (destruct inc as [|chunk rest]; cbn; [discriminate|];
     destruct (Z.eqb_spec (len (take 32 chunk)) 0) as [|Hn0]; [discriminate|];
     destruct (Z.ltb_spec (len (take 32 chunk)) 32) as [|Hge]; [discriminate|];
     unfold lift; destruct (Status_init (take 32 chunk)) as [s'|e] eqn:Hs;
     cbn; [|discriminate];
     intros H; inversion H; subst; cbn;
     exists chunk, rest; repeat split; auto;
     pose proof (length_take_le chunk 32); unfold len in Hge;
     rewrite length_take in *; lia).
Qed.

(** X15. [get_label_width] answers from a fresh status query and leaves
    [self.status] alone.  When it returns, a full 32-byte frame was read
    and the answer is the width of the tape whose code is the frame's byte
    10: nothing for code 0, 3.5 mm for code 4, and otherwise the code
    itself in millimetres. *)
Theorem get_label_width_value (p q : P700) (w : option Q) :
  get_label_width p = (Returns w, q) ->
  exists frame,
    hd_error (io_incoming p) = Some frame /\
    length (take 32 frame) = 32%nat /\
    ((frame_byte frame 10 = 0 /\ w = None) \/
     (frame_byte frame 10 = 4 /\ w = Some (7 # 2)%Q) \/
     (In (frame_byte frame 10) [6; 9; 12; 18; 24] /\
      w = Some (inject_Z (frame_byte frame 10)))) /\
    status q = status p /\
    io_written q = io_written p ++ [bytes_of [0x1B; 0x69; 0x53]].
Proof.
  unfold get_label_width. unfold mbind, M_bind.
  destruct (get_status p) as [[s|e|] p1] eqn:Hget; try discriminate.
  cbn [mret M_ret]. intros H. inversion H; subst. clear H.
  destruct (get_status_Returns_inv p q s Hget)
    as (frame & rest & Hinc & Hlen & Hdec & Hw & _ & Hst & _).
  exists frame. rewrite Hinc. split; [reflexivity|]. split; [exact Hlen|].
  split; [|auto].
  destruct (Status_init_Ok_inv _ _ Hdec) as (_ & Hlook & _).
  assert (Hb : frame_byte (take 32 frame) 10 = frame_byte frame 10).
  { unfold frame_byte. f_equal.
    rewrite <- (take_drop 32 frame) at 2.
    rewrite app_nth1; [reflexivity|lia]. }
  rewrite Hb in Hlook. unfold MEDIA_WIDTH_INFO in Hlook.
  apply elem_of_list_to_map_2, list_elem_of_In in Hlook. cbn in Hlook.
  destruct Hlook as [Hl|[Hl|Hl]].
  - injection Hl as <- <-. left. auto.
  - injection Hl as <- <-. right. left. auto.
  - right. right.
    repeat (destruct Hl as [Hl|Hl];
      [injection Hl as <- <-; split; [cbn; auto 10|reflexivity]|]).
    destruct Hl.
Qed.

Lemma get_label_width_value_witness :
  exists frame,
    hd_error (io_incoming (example_printer [example_frame 12 0 0 0 0] [])) =
      Some frame /\
    length (take 32 frame) = 32%nat /\
    ((frame_byte frame 10 = 0 /\ Some (12 # 1)%Q = None) \/
     (frame_byte frame 10 = 4 /\ Some (12 # 1)%Q = Some (7 # 2)%Q) \/
     (In (frame_byte frame 10) [6; 9; 12; 18; 24] /\
      Some (12 # 1)%Q = Some (inject_Z (frame_byte frame 10)))) /\
    status (get_label_width (example_printer [example_frame 12 0 0 0 0] [])).2 =
      status (example_printer [example_frame 12 0 0 0 0] []) /\
    io_written (get_label_width (example_printer [example_frame 12 0 0 0 0] [])).2 =
      io_written (example_printer [example_frame 12 0 0 0 0] []) ++
      [bytes_of [0x1B; 0x69; 0x53]].
Proof.
  apply (get_label_width_value (example_printer [example_frame 12 0 0 0 0] [])).
  vm_compute. reflexivity.
Defined.

(** ** What a job takes off the transport *)

Lemma polls_ret {A : Type} (a : A) : polls (mret a).
Proof. intros p. apply polled_refl. Qed.

Lemma polls_raise {A : Type} (e : PyError) : polls (@raise A e).
Proof. intros p. apply polled_refl. Qed.

Lemma polls_lift {A : Type} (r : Result A) : polls (lift r).
Proof. destruct r; [apply polls_ret|apply polls_raise]. Qed.

Lemma polls_bind {A B : Type} (m : M A) (f : A -> M B) :
  polls m -> (forall a, polls (f a)) -> polls (m ≫= f).
Proof.
  intros Hm Hf p. unfold mbind, M_bind. specialize (Hm p).
  destruct (m p) as [[a|e|] q]; cbn [snd] in *; [|exact Hm|exact Hm].
  eapply polled_trans; [exact Hm|apply Hf].
Qed.

Lemma polls_io_write (d : bytes) : polls (io_write d).
Proof.
  intros p.
  destruct (io_write_run d p)
    as [[-> _]|(q & -> & _ & _ & _ & Hs & _ & _ & Hi & _)]; cbn [snd].
  - apply polled_refl.
  - now apply polled_same.
Qed.

Lemma polls_modify (f : P700 -> P700) :
  (forall p, status (f p) = status p /\ io_incoming (f p) = io_incoming p) ->
  polls (modify f).
Proof. intros Hf p. cbn. apply polled_same; apply Hf. Qed.

Lemma polls_thread_join : polls thread_join.
Proof.
  intros p. unfold thread_join.
  destruct (status_thread p); cbn [snd]; try apply polled_refl;
    (destruct (status_thread (_print_status_check _ p)); cbn [snd];
     try apply _print_status_check_polled;
     (eapply polled_trans; [apply _print_status_check_polled|];
      apply polled_same;
      destruct (_print_status_check (S (length (io_incoming p))) p);
      reflexivity)).
Qed.

Lemma polls_try_finally {A : Type} (body : M A) (cleanup : M unit) :
  polls body -> polls cleanup -> polls (try_finally body cleanup).
Proof.
  intros Hb Hc p. unfold try_finally. specialize (Hb p).
  destruct (body p) as [[a|e|] p1]; cbn [snd] in *; [| |exact Hb];
    specialize (Hc p1); destruct (cleanup p1) as [[[]|e'|] p2];
    cbn [snd] in *; eapply polled_trans; eassumption.
Qed.

Lemma polls_timed_wait (test : M bool) (holds : P700 -> P700 -> Prop)
    (err : PyError) :
  wait_test test holds ->
  polls (start ← time_time; wait_until WAIT_TURNS test err start).
Proof.
  intros Htest p.
  now destruct (timed_wait_spec test holds Htest err p) as (_ & _ & _ & Hpo).
Qed.

Lemma polls_write_lines (status : Status) (document : list bytes) :
  polls (write_lines status document).
Proof.
  induction document as [|line rest IH]; cbn [write_lines].
  - apply polls_ret.
  - apply polls_bind; [apply polls_lift|]. intros enc.
    apply polls_bind; [apply polls_io_write|]. intros _. exact IH.
Qed.

Lemma polls_print_pages (status : Status) (documents : list (list bytes)) :
  polls (print_pages status documents).
Proof.
  induction documents as [|document rest IH]; cbn [print_pages].
  - apply polls_ret.
  - apply polls_bind; [apply polls_write_lines|]. intros _.
    apply polls_bind; [apply polls_io_write|]. intros _.
    apply polls_bind; [|intros _; exact IH].
    destruct rest; [apply polls_ret|].
    apply polls_bind; [apply polls_io_write|]. intros _.
    exact (polls_timed_wait _ _ _ receiving_test_ok).
Qed.

(** All that [_raw_print] does to the input of the transport and to
    [self.status] is the poller's doing. *)
Lemma polls_raw_print (status : Status) (documents : list (list bytes)) :
  polls (_raw_print status documents).
Proof.
  unfold _raw_print.
  apply polls_bind.
  { apply polls_bind; [apply polls_io_write|]. intros _.
    apply polls_io_write. }
  intros _.
  apply polls_bind;
    [apply polls_modify; intros p; destruct p; split; reflexivity|].
  intros _.
  apply polls_bind;
    [apply polls_modify; intros p; destruct p; split; reflexivity|].
  intros _.
  apply polls_try_finally.
  - apply polls_bind; [apply polls_io_write|]. intros _.
    apply polls_bind; [apply polls_io_write|]. intros _.
    apply polls_bind; [apply polls_io_write|]. intros _.
    apply polls_bind.
    { apply polls_bind; [apply polls_lift|]. intros m.
      apply polls_io_write. }
    intros _.
    apply polls_bind; [apply polls_io_write|]. intros _.
    apply polls_bind; [apply polls_print_pages|]. intros _.
    apply polls_bind; [apply polls_io_write|]. intros _.
    exact (polls_timed_wait _ _ _ printing_test_ok).
  - apply polls_bind; [exact yield_polled|]. intros _.
    apply polls_bind;
      [apply polls_modify; intros p; destruct p; split; reflexivity|].
    intros _. apply polls_thread_join.
Qed.

(** ** A whole print call *)

(** X16. A call of [print_label] that returns has read the first frame
    waiting on the transport as the answer to its status request, found
    that status ready, rendered an image of mode [1] at the height of the
    tape's print area, and put on the wire, in this order: the status
    request, the job for [copies] pages of the image cut into rows of
    [ceil(width / 8)] bytes, and a second status request.  The value
    returned decodes the answer to the second request: the frame that
    waited on the transport behind those the poller took during the job.
    The poller is joined and the stop flag is down. *)
Theorem print_label_stream (label : Label) (copies : nat) (p q : P700)
    (result : Status) :
  print_label label copies p = (Returns result, q) ->
  exists s img first later k answer,
    io_incoming p = first :: later /\
    length (take 32 first) = 32%nat /\
    Status_init (take 32 first) = Ok s /\ ready s = true /\
    render label (printarea (tape_info s)) = Ok img /\
    mode_is_1 img = true /\
    io_written q =
      io_written p ++ [bytes_of [0x1B; 0x69; 0x53]] ++ config_stream ++
      pages_stream (tape_info s)
        (replicate copies
           (batch_iter_bytes (tobytes img) (ceil_div8 (size_0 img)))) ++
      [bytes_of [0x1A]; bytes_of [0x1B; 0x69; 0x53]] /\
    later !! k = Some answer /\
    io_incoming q = drop (S k) later /\
    length (take 32 answer) = 32%nat /\
    Status_init (take 32 answer) = Ok result /\
    status_thread q = Joined /\ _check_print_status q = false.
Proof.
  rewrite print_label_unfold.
  destruct (get_status p) as [[s|e|] p1] eqn:Hget; try discriminate.
  destruct (ready s) eqn:Hready; cbn [negb]; [|discriminate].
  destruct (render label (printarea (tape_info s))) as [img|e] eqn:Hrender;
    [|discriminate].
  destruct (mode_is_1 img) eqn:Hmode; cbn [negb]; [|discriminate].
  pose proof (polls_raw_print s
                (create_copies (tobytes img) (ceil_div8 (size_0 img)) copies)
                (set_status s p1)) as Hpo.
  destruct (_raw_print s _ (set_status s p1)) as [[[]|e|] p3] eqn:Hraw;
    try discriminate.
  intros Hlast. cbn [snd] in Hpo.
  destruct (get_status_Returns_inv p p1 s Hget)
    as (first & later & Hinc & Hlen1 & Hdec1 & Hw1 & Hi1 & _).
  destruct (raw_print_Returns_inv s _ _ _ Hraw) as (Hw3 & _ & Hj3 & Hf3).
  destruct (get_status_Returns_inv p3 q result Hlast)
    as (answer & rest & Hinc3 & Hlen & Hdec & Hw4 & Hi4 & _ & Hth & Hfl).
  destruct Hpo as (k & Hk & _).
  replace (io_incoming (set_status s p1)) with later in Hk
    by (rewrite <- Hi1; destruct p1; reflexivity).
  rewrite Hinc3 in Hk.
  exists s, img, first, later, k, answer.
  split; [exact Hinc|]. split; [exact Hlen1|]. split; [exact Hdec1|].
  split; [exact Hready|]. split; [exact Hrender|]. split; [exact Hmode|].
  split.
  { rewrite Hw4, Hw3. unfold create_copies.
    replace (io_written (set_status s p1)) with (io_written p1)
      by (destruct p1; reflexivity).
    rewrite Hw1. rewrite <- !app_assoc. reflexivity. }
  split.
  { rewrite <- (Nat.add_0_r k), <- lookup_drop, <- Hk. reflexivity. }
  split.
  { rewrite Hi4. change (S k) with (1 + k)%nat. rewrite Nat.add_comm.
    rewrite <- drop_drop, <- Hk. reflexivity. }
  split; [exact Hlen|]. split; [exact Hdec|].
  split; congruence.
Qed.

Lemma print_label_stream_witness :
  exists s img first later k answer,
    io_incoming
      (example_printer
         [phase_frame 0 0 0 0; phase_frame 1 0 0 0; phase_frame 0 1 0 0]
         [1%nat]) = first :: later /\
    length (take 32 first) = 32%nat /\
    Status_init (take 32 first) = Ok s /\ ready s = true /\
    render blank_label (printarea (tape_info s)) = Ok img /\
    mode_is_1 img = true /\
    io_written
      (print_label blank_label 1
         (example_printer
            [phase_frame 0 0 0 0; phase_frame 1 0 0 0; phase_frame 0 1 0 0]
            [1%nat])).2 =
      io_written
        (example_printer
           [phase_frame 0 0 0 0; phase_frame 1 0 0 0; phase_frame 0 1 0 0]
           [1%nat]) ++
      [bytes_of [0x1B; 0x69; 0x53]] ++ config_stream ++
      pages_stream (tape_info s)
        (replicate 1
           (batch_iter_bytes (tobytes img) (ceil_div8 (size_0 img)))) ++
      [bytes_of [0x1A]; bytes_of [0x1B; 0x69; 0x53]] /\
    later !! k = Some answer /\
    io_incoming
      (print_label blank_label 1
         (example_printer
            [phase_frame 0 0 0 0; phase_frame 1 0 0 0; phase_frame 0 1 0 0]
            [1%nat])).2 = drop (S k) later /\
    length (take 32 answer) = 32%nat /\
    Status_init (take 32 answer) = Ok (decoded (phase_frame 0 1 0 0)) /\
    status_thread
      (print_label blank_label 1
         (example_printer
            [phase_frame 0 0 0 0; phase_frame 1 0 0 0; phase_frame 0 1 0 0]
            [1%nat])).2 = Joined /\
    _check_print_status
      (print_label blank_label 1
         (example_printer
            [phase_frame 0 0 0 0; phase_frame 1 0 0 0; phase_frame 0 1 0 0]
            [1%nat])).2 = false.
Proof.
  apply (print_label_stream blank_label 1
           (example_printer
              [phase_frame 0 0 0 0; phase_frame 1 0 0 0; phase_frame 0 1 0 0]
              [1%nat])).
  vm_compute. reflexivity.
Defined.

(** X17. A ready printer whose label does not render to an image of mode
    [1]: when rendering raises, or gives another mode, [print_label]
    raises (the rendering's exception, or [ValueError]) with
    [self.status] set to the status queried, and nothing but the status
    request has been written; no job is started and no poller. *)
Theorem print_label_bad_render (label : Label) (copies : nat) (p p1 : P700)
    (s : Status) :
  get_status p = (Returns s, p1) ->
  ready s = true ->
  (forall img, render label (printarea (tape_info s)) = Ok img ->
     mode_is_1 img = false) ->
  exists e,
    print_label label copies p = (Raises e, set_status s p1) /\
    (render label (printarea (tape_info s)) = Err e \/
     ((exists img, render label (printarea (tape_info s)) = Ok img) /\
      e = ValueError "render output has invalid mode '1'")) /\
    io_written (print_label label copies p).2 =
      io_written p ++ [bytes_of [0x1B; 0x69; 0x53]] /\
    status_thread (print_label label copies p).2 = status_thread p /\
    status (print_label label copies p).2 = s.
Proof.
  intros Hget Hready Hmode.
  destruct (get_status_Returns_inv p p1 s Hget)
    as (_ & _ & _ & _ & _ & Hw & _ & _ & Hth & _).
  rewrite print_label_unfold, Hget, Hready. cbn [negb].
  destruct (render label (printarea (tape_info s))) as [img|e] eqn:Hrender.
  - rewrite (Hmode img eq_refl). cbn [negb].
    eexists. split; [reflexivity|]. split; [right; eauto|].
    cbn [snd]. destruct p1; cbn in *. auto.
  - exists e. split; [reflexivity|]. split; [now left|].
    cbn [snd]. destruct p1; cbn in *. auto.
Qed.

Lemma print_label_bad_render_witness :
  exists e,
    print_label
      (mkLabel (fun _ => Ok (mkImage false 128 (replicate 16 (byte.of_Z 0)))))
      1 (example_printer [phase_frame 0 0 0 0] []) =
    (Raises e,
     set_status (decoded (phase_frame 0 0 0 0))
       (get_status (example_printer [phase_frame 0 0 0 0] [])).2) /\
    (Ok (mkImage false 128 (replicate 16 (byte.of_Z 0))) = Err e \/
     ((exists img, Ok (mkImage false 128 (replicate 16 (byte.of_Z 0))) = Ok img) /\
      e = ValueError "render output has invalid mode '1'")) /\
    io_written
      (print_label
         (mkLabel (fun _ => Ok (mkImage false 128 (replicate 16 (byte.of_Z 0)))))
         1 (example_printer [phase_frame 0 0 0 0] [])).2 =
      io_written (example_printer [phase_frame 0 0 0 0] []) ++
      [bytes_of [0x1B; 0x69; 0x53]] /\
    status_thread
      (print_label
         (mkLabel (fun _ => Ok (mkImage false 128 (replicate 16 (byte.of_Z 0)))))
         1 (example_printer [phase_frame 0 0 0 0] [])).2 =
      status_thread (example_printer [phase_frame 0 0 0 0] []) /\
    status
      (print_label
         (mkLabel (fun _ => Ok (mkImage false 128 (replicate 16 (byte.of_Z 0)))))
         1 (example_printer [phase_frame 0 0 0 0] [])).2 =
      decoded (phase_frame 0 0 0 0).
Proof.
  apply (print_label_bad_render
           (mkLabel (fun _ => Ok (mkImage false 128 (replicate 16 (byte.of_Z 0)))))
           1 (example_printer [phase_frame 0 0 0 0] [])).
  - vm_compute. reflexivity.
  - vm_compute. reflexivity.
  - intros img H. injection H as <-. reflexivity.
Defined.

(** ** Dry run *)

Lemma print_rows_Ok (tape : TapeInfo) (rows : list bytes) :
  forall out,
    (forall line, In line rows -> exists enc, encode_line line tape = Ok enc) ->
    print_rows tape rows out =
      (Ok tt, out ++ map (fun line => PrintedBytes (line_command tape line)) rows).
Proof.
  induction rows as [|line rest IH]; intros out Henc; cbn [print_rows map].
  - now rewrite app_nil_r.
  - destruct (Henc line (or_introl eq_refl)) as (enc & He).
    unfold line_command at 1. rewrite He.
    rewrite IH by (intros l Hl; apply Henc; now right).
    now rewrite <- app_assoc.
Qed.

Lemma print_rows_Err (tape : TapeInfo) (before : list bytes) (bad : bytes)
    (after : list bytes) (e : PyError) :
  forall out,
    (forall line, In line before -> exists enc, encode_line line tape = Ok enc) ->
    encode_line bad tape = Err e ->
    print_rows tape (before ++ bad :: after) out =
      (Err e, out ++ map (fun line => PrintedBytes (line_command tape line)) before).
Proof.
  induction before as [|line rest IH]; intros out Henc Hbad;
    cbn [print_rows map app].
  - rewrite Hbad. now rewrite app_nil_r.
  - destruct (Henc line (or_introl eq_refl)) as (enc & He).
    unfold line_command at 1. rewrite He.
    rewrite IH by (try exact Hbad; intros l Hl; apply Henc; now right).
    now rewrite <- app_assoc.
Qed.

(** X18. [_dummy_print] prints the raster commands of the rows, the
    separator, and the raster commands again only when [document] can be
    iterated twice: for an iterator, as [batch_iter_bytes] returns, nothing
    follows the separator.  A row that cannot be encoded ends the call
    with its exception after the commands of the rows before it, and no
    separator is printed. *)
Theorem dummy_print_output (st : Status) (rows : list bytes)
    (out : list Printed) :
  ((forall line, In line rows ->
      exists enc, encode_line line (tape_info st) = Ok enc) ->
   _dummy_print st (Sequence rows) out =
     (Ok tt,
      out ++
      map (fun line => PrintedBytes (line_command (tape_info st) line)) rows ++
      [PrintedStr "------"] ++
      map (fun line => PrintedBytes (line_command (tape_info st) line)) rows) /\
   _dummy_print st (Iterator rows) out =
     (Ok tt,
      out ++
      map (fun line => PrintedBytes (line_command (tape_info st) line)) rows ++
      [PrintedStr "------"])) /\
  (forall before bad after e,
     rows = before ++ bad :: after ->
     (forall line, In line before ->
        exists enc, encode_line line (tape_info st) = Ok enc) ->
     encode_line bad (tape_info st) = Err e ->
     forall document, document = Sequence rows \/ document = Iterator rows ->
     _dummy_print st document out =
       (Err e,
        out ++
        map (fun line => PrintedBytes (line_command (tape_info st) line))
          before)).
Proof.
  split.
  - intros Henc. unfold _dummy_print. cbn [iterate].
    rewrite (print_rows_Ok _ rows out Henc). split.
    + rewrite (print_rows_Ok _ rows _ Henc). now rewrite <- !app_assoc.
    + cbn [print_rows]. now rewrite <- !app_assoc.
  - intros before bad after e -> Henc Hbad document [-> | ->];
      unfold _dummy_print; cbn [iterate];
      now rewrite (print_rows_Err _ before bad after e out Henc Hbad).
Qed.

Lemma dummy_print_output_witness :
  _dummy_print (decoded (phase_frame 0 0 0 0)) (Iterator [bytes_of [1]]) [] =
  (Ok tt,
   [] ++
   map (fun line =>
          PrintedBytes (line_command (tape_info (decoded (phase_frame 0 0 0 0))) line))
     [bytes_of [1]] ++
   [PrintedStr "------"]).
Proof.
  refine (proj2 (proj1 (dummy_print_output (decoded (phase_frame 0 0 0 0))
                          [bytes_of [1]] []) _)).
  intros line [<-|[]]. eexists. vm_compute. reflexivity.
Defined.

